(** * DocChat backend: shallow embedding of the ingestion and retrieval core

    This development models the Python services of the DocChat backend
    ([services/embedding.py], [services/qdrant.py], [services/supabase.py],
    [utils/chunking.py], [routes/upload.py]) and proves properties about
    them.  Strings are Rocq strings, floats of embedding vectors are kept
    as opaque numbers ([Z]), Python exceptions carry their class and their
    [str()]. *)

From Stdlib Require Import String Ascii List ZArith NArith Lia Bool Arith PeanoNat.
From Stdlib Require Import Sorting.Permutation Sorting.Sorted.
Import ListNotations.

(** ** Python exceptions and fallible results *)

Inductive exn_class :=
| RequestError   (* httpx.RequestError *)
| Exception      (* a plain Exception *)
| ValueError
| RetryError     (* tenacity.RetryError *)
| HTTPException.

Record exn := Exc { exn_cls : exn_class; exn_str : string }.

Inductive result (A : Type) : Type :=
| Ok (a : A)
| Err (e : exn).
Arguments Ok {A} a.
Arguments Err {A} e.

(** ** Python built-ins used by the services *)

Local Open Scope Z_scope.

(** Python's [range(start, stop, step)]. *)
Definition py_range (start stop step : Z) : result (list Z) :=
  if Z.eqb step 0 then Err (Exc ValueError "range() arg 3 must not be zero")
  else
    let n := if 0 <? step then (stop - start + step - 1) / step
             else (start - stop - step - 1) / (- step) in
    Ok (map (fun k => start + Z.of_nat k * step) (seq 0 (Z.to_nat n))).

(** Python's slice [l[i:j]]. *)
Definition py_index (len i : Z) : Z :=
  if i <? 0 then Z.max 0 (i + len) else Z.min i len.

Definition py_slice {A} (l : list A) (i j : Z) : list A :=
  let len := Z.of_nat (length l) in
  let a := py_index len i in
  let b := py_index len j in
  firstn (Z.to_nat (b - a)) (skipn (Z.to_nat a) l).

Local Close Scope Z_scope.

(** ** Embedding client ([services/embedding.py]) *)

Module Embedding.

(** An embedding vector; the float coordinates are opaque numbers. *)
Definition vec := list Z.

(** Shape of the JSON body of a provider answer: a flat list of numbers,
    a list of lists, or anything else. *)
Inductive body :=
| BNums (xs : list Z)
| BLists (xss : list (list Z))
| BOther.

(** What [client.post] gives back: an HTTP answer, or an
    [httpx.RequestError] raised by the transport. *)
Inductive response :=
| Resp (status_code : Z) (b : body)
| TransportError (detail : string).

(** Observable effects of the client: one POST per text, and sleeps
    (milliseconds). *)
Inductive event :=
| Post (text : string)
| Sleep (ms : N).

Record st := mkSt { posts : nat; trace : list event }.

(** A state and exception monad. *)
Definition M (A : Type) := st -> result A * st.

Definition ret {A} (a : A) : M A := fun s => (Ok a, s).
Definition raise {A} (e : exn) : M A := fun s => (Err e, s).
Definition bind {A B} (m : M A) (k : A -> M B) : M B :=
  fun s => match m s with
           | (Ok a, s') => k a s'
           | (Err e, s') => (Err e, s')
           end.
(** [try m except e: h e] *)
Definition catch {A} (m : M A) (h : exn -> M A) : M A :=
  fun s => match m s with
           | (Ok a, s') => (Ok a, s')
           | (Err e, s') => h e s'
           end.

Notation "x <- m ;; k" := (bind m (fun x => k))
  (at level 61, m at next level, right associativity).
Notation "m ;;; k" := (bind m (fun _ => k))
  (at level 61, right associativity).

(** [await asyncio.sleep(ms / 1000)] *)
Definition sleep (ms : N) : M unit :=
  fun s => (Ok tt, mkSt (posts s) (trace s ++ [Sleep ms])).

(** Per-text parsing of a 200 answer, as in [get_embeddings]:
    a non-empty flat list is the vector, a non-empty nested list gives its
    first element ([embedding[0] if embedding[0] else []]), anything else
    is an unexpected format. *)
Definition parse_embedding (b : body) : option vec :=
  match b with
  | BNums (x :: xs) => Some (x :: xs)
  | BLists (v :: _) => Some v
  | _ => None
  end.

(** tenacity: [stop_after_attempt(3)] and
    [wait_exponential(multiplier=1, min=4, max=10)], in milliseconds. *)
Definition stop_after_attempt := 3.

Definition wait_exponential_ms (attempt_number : nat) : N :=
  (1000 * N.max 4 (N.min (1 * 2 ^ N.of_nat (attempt_number - 1)) 10))%N.

(** The tenacity retry loop: run [f]; on an exception, stop when
    [left] (= 3 - attempt_number) attempts remain to be made, else sleep
    the backoff and try again with the next attempt number. *)
Fixpoint retry_from {A} (f : M A) (attempt_number left : nat) : M A :=
  fun s =>
    match f s with
    | (Ok a, s') => (Ok a, s')
    | (Err e, s') =>
        match left with
        | 0 => (Err (Exc RetryError ("RetryError[" ++ exn_str e ++ "]")%string), s')
        | S left' =>
            (sleep (wait_exponential_ms attempt_number) ;;;
             retry_from f (S attempt_number) left') s'
        end
    end.

Definition tenacity_retry {A} (f : M A) : M A :=
  retry_from f 1 (stop_after_attempt - 1).

Section Provider.

(** The Hugging Face inference endpoint: its answer may depend on how
    many requests were made before and on the text. *)
Variable provider : nat -> string -> response.

Definition post (text : string) : M (Z * body) :=
  fun s => match provider (posts s) text with
           | Resp c b => (Ok (c, b), mkSt (S (posts s)) (trace s ++ [Post text]))
           | TransportError d =>
               (Err (Exc RequestError d), mkSt (S (posts s)) (trace s ++ [Post text]))
           end.

(** The [for text in texts] loop of [get_embeddings]; [n] is
    [len(texts)]. *)
Fixpoint embed_texts (n : nat) (texts : list string) (all_embeddings : list vec)
  : M (list vec) :=
  match texts with
  | [] => ret all_embeddings
  | text :: rest =>
      r <- post text ;;
      let '(code, b) := r in
      if Z.eqb code 200 then
        match parse_embedding b with
        | Some v =>
            (if 1 <? n then sleep 100%N else ret tt) ;;;
            embed_texts n rest (all_embeddings ++ [v])
        | None => raise (Exc Exception "Unexpected response format")
        end
      else if Z.eqb code 503 then
        sleep 20000%N ;;; raise (Exc Exception "Model is loading, retrying...")
      else raise (Exc Exception "HF API error")
  end.

(** One attempt of [get_embeddings] (the body under the decorator). *)
Definition get_embeddings_once (texts : list string) : M (list vec) :=
  match texts with
  | [] => ret []
  | _ =>
      catch (embed_texts (length texts) texts [])
        (fun e => match exn_cls e with
                  | RequestError => raise (Exc Exception ("Request failed: " ++ exn_str e)%string)
                  | _ => raise (Exc Exception ("Embedding generation failed: " ++ exn_str e)%string)
                  end)
  end.

Definition get_embeddings (texts : list string) : M (list vec) :=
  tenacity_retry (get_embeddings_once texts).

End Provider.

Section Batches.

(** The per-group call, [get_embeddings] in the source. *)
Variable embed : list string -> M (list vec).

(** The [for i in range(0, len(texts), batch_size)] loop of
    [get_batch_embeddings]. *)
Fixpoint batch_loop (texts : list string) (batch_size : Z) (is : list Z)
  (all_embeddings : list vec) : M (list vec) :=
  match is with
  | [] => ret all_embeddings
  | i :: is' =>
      let batch := py_slice texts i (i + batch_size)%Z in
      batch_embeddings <- embed batch ;;
      (if (i + batch_size <? Z.of_nat (length texts))%Z then sleep 1000%N else ret tt) ;;;
      batch_loop texts batch_size is' (all_embeddings ++ batch_embeddings)
  end.

Definition get_batch_embeddings_with (texts : list string) (batch_size : Z)
  : M (list vec) :=
  match py_range 0 (Z.of_nat (length texts)) batch_size with
  | Err e => raise e
  | Ok is => batch_loop texts batch_size is []
  end.

(** Spec side of [embed_batched]: fixed-size groups of [b] texts, one
    call per group in order, a 1 s pause between groups but not after the
    last one, results concatenated. *)
Fixpoint chunks_fuel {A} (fuel b : nat) (l : list A) : list (list A) :=
  match fuel with
  | 0 => []
  | S f =>
      match l with
      | [] => []
      | _ => firstn b l :: chunks_fuel f b (skipn b l)
      end
  end.

Definition chunks {A} (b : nat) (l : list A) : list (list A) :=
  chunks_fuel (length l) b l.

Fixpoint run_groups (groups : list (list string)) (acc : list vec) : M (list vec) :=
  match groups with
  | [] => ret acc
  | g :: rest =>
      vs <- embed g ;;
      (match rest with [] => ret tt | _ => sleep 1000%N end) ;;;
      run_groups rest (acc ++ vs)
  end.

Definition embed_batched_spec (b : nat) (texts : list string) : M (list vec) :=
  run_groups (chunks b texts) [].

End Batches.

Definition get_batch_embeddings (provider : nat -> string -> response)
  (texts : list string) (batch_size : Z) : M (list vec) :=
  get_batch_embeddings_with (get_embeddings provider) texts batch_size.

(** Total sleep recorded after each POST, up to the next POST. *)
Fixpoint sleeps_until_post (tr : list event) : N :=
  match tr with
  | [] => 0%N
  | Post _ :: _ => 0%N
  | Sleep ms :: tr' => (ms + sleeps_until_post tr')%N
  end.

Fixpoint sleep_after_posts (tr : list event) : list N :=
  match tr with
  | [] => []
  | Post _ :: tr' => sleeps_until_post tr' :: sleep_after_posts tr'
  | Sleep _ :: tr' => sleep_after_posts tr'
  end.

(** A provider that always answers "model is loading". *)
Definition warming_provider : nat -> string -> response :=
  fun _ _ => Resp 503 BOther.

Definition ok_provider : nat -> string -> response :=
  fun n _ => Resp 200 (BNums [Z.of_nat n]).

End Embedding.

(** ** Python string methods *)

(** Characters removed by [str.strip()] (one-byte code points). *)
Definition is_py_space (c : ascii) : bool :=
  match nat_of_ascii c with
  | 9 | 10 | 11 | 12 | 13 | 28 | 29 | 30 | 31 | 32 | 133 | 160 => true
  | _ => false
  end.

Fixpoint drop_spaces (l : list ascii) : list ascii :=
  match l with
  | [] => []
  | c :: l' => if is_py_space c then drop_spaces l' else l
  end.

(** [s.strip()] *)
Definition py_strip (s : string) : string :=
  string_of_list_ascii
    (rev (drop_spaces (rev (drop_spaces (list_ascii_of_string s))))).

(** [s.lower()] on ASCII letters. *)
Definition py_lower (s : string) : string :=
  string_of_list_ascii
    (map (fun c => let n := nat_of_ascii c in
                   if (65 <=? n) && (n <=? 90) then ascii_of_nat (n + 32) else c)
         (list_ascii_of_string s)).

(** ** Chunker ([utils/chunking.py]) *)

Module Chunking.

Section Splitter.

(** [RecursiveCharacterTextSplitter(chunk_size=CHUNK_SIZE,
    chunk_overlap=CHUNK_OVERLAP, separators=[...]).split_text]: the
    langchain splitter, a library outside this repository. *)
Variable split_text : string -> list string.

(** [chunk_text]: split, then keep the chunks whose stripped length is
    above 50. *)
Definition chunk_text (text : string) : list string :=
  filter (fun chunk => 50 <? String.length (py_strip chunk)) (split_text text).

(** [process_document] after [extract_text_from_file] has returned
    [text]. *)
Definition process_text (text : string) : result (list string) :=
  if String.eqb (py_strip text) EmptyString then
    Err (Exc ValueError "No text could be extracted from the document")
  else
    match chunk_text text with
    | [] => Err (Exc ValueError "No valid chunks could be created from the document")
    | chunks => Ok chunks
    end.

(** [extract_text_from_file(file_path, file_type)]: PDF/DOCX/TXT
    parsing by third-party readers; its errors are wrapped as
    ["Error extracting text from <type> file: ..."]. *)
Variable extract_raw : string -> string -> result string.

Definition extract_text_from_file (file_path file_type : string) : result string :=
  match extract_raw file_path file_type with
  | Ok text => Ok text
  | Err e =>
      Err (Exc Exception
             ("Error extracting text from " ++ file_type ++ " file: " ++ exn_str e)%string)
  end.

Definition process_document (file_path file_type : string) : result (list string) :=
  match extract_text_from_file file_path file_type with
  | Err e => Err e
  | Ok text => process_text text
  end.

End Splitter.

End Chunking.

(** ** Vector store ([services/qdrant.py]) *)

Module Qdrant.

Record payload := Payload {
  pl_document_id : string;
  pl_user_id : string;
  pl_document_name : string;
  pl_chunk_text : string;
  pl_chunk_index : nat;
  pl_created_at : string }.

Record point := PointStruct {
  p_id : string;
  p_vector : list Z;
  p_payload : payload }.

Inductive match_cond :=
| MatchValue (value : string)
| MatchAny (any : list string).

Record field_condition := FieldCondition { fc_key : string; fc_match : match_cond }.

(** [Filter(must=conditions)] *)
Definition filter_must := list field_condition.

(** Keyword fields of the payload. *)
Definition payload_field (key : string) (pl : payload) : option string :=
  if String.eqb key "document_id" then Some (pl_document_id pl)
  else if String.eqb key "user_id" then Some (pl_user_id pl)
  else if String.eqb key "document_name" then Some (pl_document_name pl)
  else if String.eqb key "chunk_text" then Some (pl_chunk_text pl)
  else if String.eqb key "created_at" then Some (pl_created_at pl)
  else None.

(** Qdrant's evaluation of one condition and of a [must] filter. *)
Definition cond_holds (c : field_condition) (p : point) : bool :=
  match payload_field (fc_key c) (p_payload p) with
  | None => false
  | Some v =>
      match fc_match c with
      | MatchValue x => String.eqb v x
      | MatchAny xs => existsb (String.eqb v) xs
      end
  end.

Definition must_holds (f : filter_must) (p : point) : bool :=
  forallb (fun c => cond_holds c p) f.

(** The [document_ids] argument: [None], a list, or (the [else] branch of
    the source) a plain string. *)
Inductive doc_ids_arg :=
| DocIdsNone
| DocIdsList (ids : list string)
| DocIdsStr (id : string).

(** Truthiness of [document_ids]. *)
Definition doc_ids_truthy (d : doc_ids_arg) : bool :=
  match d with
  | DocIdsNone => false
  | DocIdsList ids => negb (Nat.eqb (length ids) 0)
  | DocIdsStr s => negb (String.eqb s EmptyString)
  end.

(** The filter built by [search_similar_chunks]. *)
Definition build_search_filter (user_id : string) (document_ids : doc_ids_arg)
  : filter_must :=
  let base := [FieldCondition "user_id" (MatchValue user_id)] in
  if doc_ids_truthy document_ids then
    match document_ids with
    | DocIdsList ids =>
        if 1 <? length ids then base ++ [FieldCondition "document_id" (MatchAny ids)]
        else if Nat.eqb (length ids) 1 then
          base ++ [FieldCondition "document_id" (MatchValue (hd EmptyString ids))]
        else base
    | DocIdsStr s => base ++ [FieldCondition "document_id" (MatchValue s)]
    | DocIdsNone => base
    end
  else base.

Record scored_point := ScoredPoint {
  sp_id : string;
  sp_score : Z;
  sp_payload : payload }.

Record search_result := SearchResult {
  r_id : string;
  r_score : Z;
  r_document_id : string;
  r_document_name : string;
  r_text : string;
  r_chunk_index : nat }.

Section Search.

(** Cosine similarity computed by the server. *)
Variable similarity : list Z -> list Z -> Z.

Fixpoint insert_by_score (x : scored_point) (l : list scored_point) : list scored_point :=
  match l with
  | [] => [x]
  | y :: l' => if (sp_score y <? sp_score x)%Z then x :: l else y :: insert_by_score x l'
  end.

(** [client.search(query_vector, query_filter, limit, with_payload=True)]:
    the points passing the filter, by descending score, at most [limit]. *)
Definition client_search (points : list point) (query : list Z) (f : filter_must)
  (limit : nat) : list scored_point :=
  firstn limit
    (fold_right insert_by_score []
       (map (fun p => ScoredPoint (p_id p) (similarity query (p_vector p)) (p_payload p))
            (filter (must_holds f) points))).

Definition format_result (sp : scored_point) : search_result :=
  SearchResult (sp_id sp) (sp_score sp) (pl_document_id (sp_payload sp))
    (pl_document_name (sp_payload sp)) (pl_chunk_text (sp_payload sp))
    (pl_chunk_index (sp_payload sp)).

(** [search_similar_chunks]; [ensure_collection_exists] and
    [create_required_indexes] only create the collection and its indexes
    and do not change which points exist. *)
Definition search_similar_chunks (points : list point) (query_embedding : list Z)
  (user_id : string) (document_ids : doc_ids_arg) (limit : nat)
  : result (list search_result) :=
  let search_filter := build_search_filter user_id document_ids in
  Ok (map format_result (client_search points query_embedding search_filter limit)).

End Search.

(** [client.scroll(scroll_filter, limit)]: matching points in id order. *)
Definition client_scroll (points : list point) (f : filter_must) (limit : nat)
  : list point :=
  firstn limit (filter (must_holds f) points).

(** [client.delete(points_selector=ids)] *)
Definition client_delete (points : list point) (ids : list string) : list point :=
  filter (fun p => negb (existsb (String.eqb (p_id p)) ids)) points.

Definition scroll_limit := 10000.

(** The filter of [delete_document_vectors]. *)
Definition delete_filter (document_id user_id : string) : filter_must :=
  [FieldCondition "document_id" (MatchValue document_id);
   FieldCondition "user_id" (MatchValue user_id)].

Definition delete_document_vectors (document_id user_id : string) (points : list point)
  : result nat * list point :=
  let search_filter := delete_filter document_id user_id in
  let point_ids := map p_id (client_scroll points search_filter scroll_limit) in
  let points' := match point_ids with
                 | [] => points
                 | _ => client_delete points point_ids
                 end in
  (Ok (length point_ids), points').

(** State of the collection [COLLECTION_NAME]: the vector size it was
    created with ([None] while it does not exist), its points, and the log
    of the batches [client.upsert] accepted. *)
Record qstate := QState {
  q_vector_size : option nat;
  q_points : list point;
  q_upserts : list (list point) }.

(** The client calls of [ensure_collection_exists] and
    [store_document_chunks]. *)
Inductive qdrant_call :=
| GetCollections
| CreateCollection
| CreatePayloadIndex (field_name : string)
| Upsert (batch : list point).

Section Store.

(** [str(uuid.uuid4())] for the [i]-th point of the call, and
    [datetime.utcnow().isoformat()]. *)
Variable uuid4 : nat -> string.
Variable now : string.
(** The text of the exception a client call raises for reasons outside
    the collection's contents (network, server, credentials); [None] when
    the server answers. *)
Variable call_fails : qdrant_call -> option string.
(** The text of Qdrant's rejection of a vector of size [got] in a
    collection of size [expected]. *)
Variable dim_error : nat -> nat -> string.

Definition client_call (c : qdrant_call) : result unit :=
  match call_fails c with
  | Some m => Err (Exc Exception m)
  | None => Ok tt
  end.

(** [ensure_collection_exists()]: when the collection is missing, create
    it with [VectorParams(size=384)] and its two payload indexes, each
    call raising; when it exists, [get_collection] and the index
    creations sit under [except: pass] and do not touch the points. *)
Definition ensure_collection_exists (s : qstate) : result unit * qstate :=
  let body :=
    match client_call GetCollections with
    | Err e => (Err e, s)
    | Ok _ =>
        match q_vector_size s with
        | Some _ => (Ok tt, s)
        | None =>
            match client_call CreateCollection with
            | Err e => (Err e, s)
            | Ok _ =>
                let s1 := QState (Some 384) [] (q_upserts s) in
                match client_call (CreatePayloadIndex "user_id") with
                | Err e => (Err e, s1)
                | Ok _ =>
                    match client_call (CreatePayloadIndex "document_id") with
                    | Err e => (Err e, s1)
                    | Ok _ => (Ok tt, s1)
                    end
                end
            end
        end
    end in
  match body with
  | (Err e, s') =>
      (Err (Exc Exception ("Failed to ensure collection exists: " ++ exn_str e)%string), s')
  | (Ok _, s') => (Ok tt, s')
  end.

(** [client.upsert(collection_name, points=batch)]: the server rejects
    the whole batch when the collection is missing or a vector's size is
    not the collection's; otherwise it inserts the batch, replacing points
    of equal id. *)
Definition client_upsert (batch : list point) (s : qstate) : result unit * qstate :=
  match client_call (Upsert batch) with
  | Err e => (Err e, s)
  | Ok _ =>
      match q_vector_size s with
      | None => (Err (Exc Exception "Not found: Collection `documents` doesn't exist!"), s)
      | Some n =>
          match find (fun p => negb (Nat.eqb (length (p_vector p)) n)) batch with
          | Some p => (Err (Exc Exception (dim_error n (length (p_vector p)))), s)
          | None =>
              (Ok tt, QState (Some n) (client_delete (q_points s) (map p_id batch) ++ batch)
                             (q_upserts s ++ [batch]))
          end
      end
  end.

(** The [for i, (chunk, embedding) in enumerate(zip(chunks, embeddings))]
    loop. *)
Definition make_points (document_id user_id document_name : string)
  (chunks : list string) (embeddings : list (list Z)) : list point :=
  map (fun '(i, (chunk, embedding)) =>
         PointStruct (uuid4 i) embedding
           (Payload document_id user_id document_name chunk i now))
      (combine (seq 0 (length (combine chunks embeddings))) (combine chunks embeddings)).

(** The batch loop; the first failing [client.upsert] leaves it, the
    batches already written stay. *)
Fixpoint upsert_loop (points : list point) (is : list Z) (s : qstate) : result unit * qstate :=
  match is with
  | [] => (Ok tt, s)
  | i :: is' =>
      match client_upsert (py_slice points i (i + 100)%Z) s with
      | (Err e, s1) => (Err e, s1)
      | (Ok _, s1) => upsert_loop points is' s1
      end
  end.

Definition store_document_chunks (document_id user_id document_name : string)
  (chunks : list string) (embeddings : list (list Z)) (s : qstate)
  : result nat * qstate :=
  let fail e := Err (Exc Exception ("Failed to store document chunks: " ++ exn_str e)%string) in
  match ensure_collection_exists s with
  | (Err e, s1) => (fail e, s1)
  | (Ok _, s1) =>
      let points := make_points document_id user_id document_name chunks embeddings in
      match py_range 0 (Z.of_nat (length points)) 100 with
      | Err e => (fail e, s1)
      | Ok is =>
          match upsert_loop points is s1 with
          | (Err e, s2) => (fail e, s2)
          | (Ok _, s2) => (Ok (length points), s2)
          end
      end
  end.

End Store.

End Qdrant.

(** ** Metadata store ([services/supabase.py]) *)

Module Supabase.

(** A row of the [documents] table, with the columns the services use;
    [created_at] is kept as a number, ISO-8601 UTC strings of one format
    compare like their instants. *)
Record doc_row := DocRow {
  row_id : string;
  row_user_id : string;
  row_name : string;
  row_file_path : string;
  row_file_type : string;
  row_created_at : Z;
  row_status : string;
  row_error_message : option string;
  row_updated_at : string }.

(** The [update_data] dictionary applied to one row: [status] and
    [updated_at] always, [error_message] only when the argument is truthy
    (neither [None] nor empty). *)
Definition apply_status_update (status : string) (error_message : option string)
  (updated_at : string) (r : doc_row) : doc_row :=
  let em := match error_message with
            | Some m => if String.eqb m EmptyString then row_error_message r else Some m
            | None => row_error_message r
            end in
  DocRow (row_id r) (row_user_id r) (row_name r) (row_file_path r) (row_file_type r)
    (row_created_at r) status em updated_at.

(** [supabase.table("documents").update(update_data).eq("id", document_id)] *)
Definition update_document_status (now document_id status : string)
  (error_message : option string) (table : list doc_row) : list doc_row :=
  map (fun r => if String.eqb (row_id r) document_id
                then apply_status_update status error_message now r else r) table.

(** [get_document_metadata]: the first row with this id and owner. *)
Definition get_document_metadata (document_id user_id : string) (table : list doc_row)
  : option doc_row :=
  find (fun r => String.eqb (row_id r) document_id && String.eqb (row_user_id r) user_id)
    table.

(** [delete_document_metadata] *)
Definition delete_document_metadata (document_id user_id : string) (table : list doc_row)
  : list doc_row :=
  filter (fun r => negb (String.eqb (row_id r) document_id
                         && String.eqb (row_user_id r) user_id)) table.

(** The table together with the files of the [documents] bucket. *)
Record sb_state := SbState { sb_table : list doc_row; sb_files : list string }.

Section Cleanup.

(** Whether [storage.from_("documents").remove([path])] succeeds, and
    whether the metadata delete succeeds, for a given document. *)
Variable storage_remove_ok : string -> bool.
Variable metadata_delete_ok : string -> bool.

(** [delete_file_from_storage] *)
Definition delete_file_from_storage (file_path : string) (s : sb_state)
  : result unit * sb_state :=
  if storage_remove_ok file_path then
    (Ok tt, SbState (sb_table s)
                    (filter (fun f => negb (String.eqb f file_path)) (sb_files s)))
  else (Err (Exc Exception "Failed to delete file from storage: ..."), s).

Definition delete_metadata (document_id user_id : string) (s : sb_state)
  : result unit * sb_state :=
  if metadata_delete_ok document_id then
    (Ok tt, SbState (delete_document_metadata document_id user_id (sb_table s))
                    (sb_files s))
  else (Err (Exc Exception "Failed to delete document metadata: ..."), s).

(** The [for doc in old_documents] loop: one [try] around both deletes;
    an exception is printed and the loop continues with the next row. *)
Fixpoint cleanup_loop (old_documents : list doc_row) (deleted_count : nat)
  (s : sb_state) : nat * sb_state :=
  match old_documents with
  | [] => (deleted_count, s)
  | doc :: rest =>
      match delete_file_from_storage (row_file_path doc) s with
      | (Err _, s1) => cleanup_loop rest deleted_count s1
      | (Ok _, s1) =>
          match delete_metadata (row_id doc) (row_user_id doc) s1 with
          | (Err _, s2) => cleanup_loop rest deleted_count s2
          | (Ok _, s2) => cleanup_loop rest (S deleted_count) s2
          end
      end
  end.

(** [cleanup_old_documents]; [cutoff] is [utcnow() - timedelta(days)]. *)
Definition cleanup_old_documents (cutoff : Z) (s : sb_state) : nat * sb_state :=
  let old_documents := filter (fun r => (row_created_at r <? cutoff)%Z) (sb_table s) in
  cleanup_loop old_documents 0 s.

End Cleanup.

End Supabase.

(** The Python class name of an exception. *)
Definition exn_class_name (c : exn_class) : string :=
  match c with
  | RequestError => "RequestError"
  | Exception => "Exception"
  | ValueError => "ValueError"
  | RetryError => "RetryError"
  | HTTPException => "HTTPException"
  end.

(** [str.rfind(c)]: the index of the last [c], or -1. *)
Definition py_rfind_char (c : ascii) (s : string) : Z :=
  let l := list_ascii_of_string s in
  fold_left (fun found '(i, x) => if Ascii.eqb x c then Z.of_nat i else found)
    (combine (seq 0 (length l)) l) (-1)%Z.

(** [os.path.splitext(p)[1]] (posixpath): from the last ["."] after the
    last ["/"], unless only dots precede it in the last component. *)
Definition py_splitext_ext (p : string) : string :=
  let l := list_ascii_of_string p in
  let sepIndex := py_rfind_char "/" p in
  let dotIndex := py_rfind_char "." p in
  if (sepIndex <? dotIndex)%Z then
    let filename_to_dot := firstn (Z.to_nat (dotIndex - (sepIndex + 1)))
                             (skipn (Z.to_nat (sepIndex + 1)) l) in
    if existsb (fun x => negb (Ascii.eqb x ".")) filename_to_dot
    then string_of_list_ascii (skipn (Z.to_nat dotIndex) l)
    else EmptyString
  else EmptyString.

(** ** Ingestion coordinator ([routes/upload.py]) *)

Module Upload.

Import Supabase.

(** [APIResponse(success=..., message=..., error=...)] *)
Inductive api_response :=
| Success (message : string)
| Failure (message error : string).

Definition is_success (r : api_response) : bool :=
  match r with Success _ => true | Failure _ _ => false end.

(** The metadata table and the local temporary files. *)
Record world := World { w_table : list doc_row; w_tmp : list string }.

Section Collaborators.

Variable now : string.
(** [verify_user_owns_document(current_user, document_id)] *)
Variable owns : bool.
(** Whether the metadata store accepts a status update to this status. *)
Variable status_write_ok : string -> bool.
(** The storage download: [create_signed_url(file_path, 3600)] gives
    the response's ["signedURL"] ([None] when absent), [requests.get]
    with [raise_for_status] the body, [NamedTemporaryFile(delete=False,
    suffix=...)] creates a new file on disk and gives its name, and the
    [open(...)]/[f.write] of the content may fail. *)
Variable create_signed_url : string -> result (option string).
Variable http_get : string -> result string.
Variable named_temporary_file : string -> result string.
Variable write_file : string -> string -> result unit.
(** Text extraction and the langchain splitter. *)
Variable extract_raw : string -> string -> result string.
Variable split_text : string -> list string.
(** [get_batch_embeddings(chunks)]; each failure of it is a tenacity
    [RetryError] around the last attempt's exception. *)
Variable embed_raw : list string -> result (list Embedding.vec).
(** The [id] tenacity's [Future] of the last attempt prints, in hex. *)
Variable future_addr : string.
(** The Qdrant write of [store_document_chunks]. *)
Variable store_raw : list string -> list Embedding.vec -> result nat.

Definition update_status (document_id status : string) (error_message : option string)
  (w : world) : result unit * world :=
  if status_write_ok status then
    (Ok tt, World (update_document_status now document_id status error_message (w_table w))
                  (w_tmp w))
  else (Err (Exc Exception "Failed to update document status: write rejected"), w).

(** [download_file_from_storage(file_path)]: the temporary file exists
    from [NamedTemporaryFile] on, also when the write that follows
    raises. *)
Definition download_file_from_storage (file_path : string) (w : world)
  : result string * world :=
  let fail e w' :=
    (Err (Exc Exception ("Failed to download file from storage: " ++ exn_str e)%string), w') in
  match create_signed_url file_path with
  | Err e => fail e w
  | Ok None => fail (Exc Exception "Failed to create signed URL") w
  | Ok (Some signed_url) =>
      if String.eqb signed_url EmptyString
      then fail (Exc Exception "Failed to create signed URL") w
      else
        match http_get signed_url with
        | Err e => fail e w
        | Ok content =>
            if Nat.eqb (String.length content) 0
            then fail (Exc Exception "Downloaded file is empty") w
            else
              match named_temporary_file (py_splitext_ext file_path) with
              | Err e => fail e w
              | Ok name =>
                  let w1 := World (w_table w) (name :: w_tmp w) in
                  match write_file name content with
                  | Err e => fail e w1
                  | Ok _ => (Ok name, w1)
                  end
              end
        end
  end.

(** [get_batch_embeddings(chunks)]; tenacity's [RetryError] prints as
    [RetryError[<Future at 0x... state=finished raised Exception>]], with
    the class of the last attempt's exception but not its message. *)
Definition get_batch_embeddings (chunks : list string) : result (list Embedding.vec) :=
  match embed_raw chunks with
  | Ok v => Ok v
  | Err e => Err (Exc RetryError ("RetryError[<Future at " ++ future_addr
                                  ++ " state=finished raised " ++ exn_class_name (exn_cls e)
                                  ++ ">]")%string)
  end.

Definition store_document_chunks (chunks : list string) (embeddings : list Embedding.vec)
  : result nat :=
  match store_raw chunks embeddings with
  | Ok n => Ok n
  | Err e => Err (Exc Exception ("Failed to store document chunks: " ++ exn_str e)%string)
  end.

(** [finally: if os.path.exists(temp_file_path): os.unlink(temp_file_path)] *)
Definition unlink (path : string) (w : world) : world :=
  World (w_table w) (filter (fun f => negb (String.eqb f path)) (w_tmp w)).

(** The inner [try] body, from [process_document] to the ["completed"]
    update. *)
Definition process_and_store (document_id : string) (md : doc_row) (temp : string)
  (w : world) : result api_response * world :=
  match Chunking.process_document split_text extract_raw temp (py_lower (row_file_type md)) with
  | Err e => (Err e, w)
  | Ok [] => (Err (Exc Exception "No text chunks could be extracted from the document"), w)
  | Ok chunks =>
      match get_batch_embeddings chunks with
      | Err e => (Err e, w)
      | Ok embeddings =>
          if negb (Nat.eqb (length embeddings) (length chunks)) then
            (Err (Exc Exception "Mismatch between number of chunks and embeddings"), w)
          else
            match store_document_chunks chunks embeddings with
            | Err e => (Err e, w)
            | Ok _ =>
                match update_status document_id "completed" None w with
                | (Err e, w1) => (Err e, w1)
                | (Ok _, w1) => (Ok (Success "Document processed successfully."), w1)
                end
            end
      end
  end.

(** The outer [except HTTPException: raise] / [except Exception as e:]
    handlers: try to record the error (its failure is swallowed) and
    answer with a failure. *)
Definition handle_exception (document_id : string) (e : exn) (w : world)
  : result api_response * world :=
  match exn_cls e with
  | HTTPException => (Err e, w)
  | _ =>
      let w' := snd (update_status document_id "error" (Some (exn_str e)) w) in
      (Ok (Failure "Failed to process document" (exn_str e)), w')
  end.

Definition upload_document (document_id file_path current_user : string) (w : world)
  : result api_response * world :=
  if negb owns then
    (Err (Exc HTTPException "You don't have permission to access this document"), w)
  else
    match get_document_metadata document_id current_user (w_table w) with
    | None => (Err (Exc HTTPException "Document not found"), w)
    | Some md =>
        match update_status document_id "processing" None w with
        | (Err e, w1) => handle_exception document_id e w1
        | (Ok _, w1) =>
            match download_file_from_storage file_path w1 with
            | (Err e, w2) => handle_exception document_id e w2
            | (Ok temp, w2) =>
                let '(r, w3) := process_and_store document_id md temp w2 in
                let w4 := unlink temp w3 in
                match r with
                | Ok resp => (Ok resp, w4)
                | Err e => handle_exception document_id e w4
                end
            end
        end
    end.

End Collaborators.

(** Status of the first row carrying this id. *)
Definition doc_status (document_id : string) (table : list doc_row) : option string :=
  option_map row_status (find (fun r => String.eqb (row_id r) document_id) table).

Definition doc_error_message (document_id : string) (table : list doc_row)
  : option (option string) :=
  option_map row_error_message (find (fun r => String.eqb (row_id r) document_id) table).

End Upload.

(** A point of document ["doc"] of tenant ["u1"] whose id is a string of
    [n] characters. *)
Definition cap_point (n : nat) : Qdrant.point :=
  Qdrant.PointStruct (string_of_list_ascii (repeat "a"%char n)) []
    (Qdrant.Payload "doc" "u1" "spec.pdf" "text" n "2026-01-01T00:00:00").

(** A document uploaded at time 100 whose file is ["u1/a.pdf"%string]. *)
Definition old_row : Supabase.doc_row :=
  Supabase.DocRow "d1" "u1" "a.pdf" "u1/a.pdf" "pdf" 100 "completed" None "t0".

(** A sequence of [update_document_status(document_id, status,
    error_message)] calls on one document, applied in order. *)
Definition run_status_updates (now document_id : string)
  (updates : list (string * option string)) (table : list Supabase.doc_row)
  : list Supabase.doc_row :=
  fold_left (fun t '(status, em) => Supabase.update_document_status now document_id status em t)
    updates table.

(** The status of the last call, and the last truthy [error_message]
    among the calls, starting from the row's values. *)
Definition last_status (init : string) (updates : list (string * option string)) : string :=
  fold_left (fun _ '(status, _) => status) updates init.

Definition last_error_message (init : option string)
  (updates : list (string * option string)) : option string :=
  fold_left (fun acc '(_, em) =>
               match em with
               | Some m => if String.eqb m EmptyString then acc else Some m
               | None => acc
               end) updates init.

(** A document that went through an error and is now processing again. *)
Definition status_row : Supabase.doc_row :=
  Supabase.DocRow "d1" "u1" "a.pdf" "u1/a.pdf" "pdf" 100 "processing" None "t0".

(** An error that the [except Exception] handler of [upload_document]
    catches and records: not an [HTTPException], with a non-empty
    [str(e)]. *)
Definition recorded_error (e : exn) : Prop :=
  exn_cls e <> HTTPException /\ exn_str e <> EmptyString.


(** ** More Python built-ins *)

(** ["\n"] *)
Definition nl : string := String (ascii_of_nat 10) EmptyString.

(** [str(n)] for a natural number. *)
Fixpoint py_str_nat_fuel (fuel n : nat) (acc : string) : string :=
  match fuel with
  | 0 => acc
  | S f =>
      let acc' := String (ascii_of_nat (48 + n mod 10)) acc in
      if n <? 10 then acc' else py_str_nat_fuel f (n / 10) acc'
  end.

Definition py_str_nat (n : nat) : string := py_str_nat_fuel (S n) n EmptyString.

(** [sep.join(l)] *)
Fixpoint py_join (sep : string) (l : list string) : string :=
  match l with
  | [] => EmptyString
  | [x] => x
  | x :: l' => (x ++ sep ++ py_join sep l')%string
  end.

(** [s.split(c)] with a one-character separator. *)
Fixpoint py_split_char (c : ascii) (s : string) : list string :=
  match s with
  | EmptyString => [EmptyString]
  | String a s' =>
      if Ascii.eqb a c then EmptyString :: py_split_char c s'
      else match py_split_char c s' with
           | [] => [String a EmptyString]
           | w :: ws => String a w :: ws
           end
  end.

(** [s < t] on strings: code point by code point, a proper prefix being
    smaller. *)
Fixpoint py_str_ltb (s t : string) : bool :=
  match s, t with
  | _, EmptyString => false
  | EmptyString, String _ _ => true
  | String a s', String b t' =>
      if nat_of_ascii a <? nat_of_ascii b then true
      else if nat_of_ascii b <? nat_of_ascii a then false
      else py_str_ltb s' t'
  end.

(** ** Single-text embedding ([services/embedding.py]) *)

Module Single.

Import Embedding.

(** [get_single_embedding(text)]:
    [embeddings[0] if embeddings else []]. *)
Definition get_single_embedding (provider : nat -> string -> response) (text : string)
  : M vec :=
  embeddings <- get_embeddings provider [text] ;;
  ret (match embeddings with
       | [] => []
       | v :: _ => v
       end).

End Single.

(** ** Text extraction readers ([utils/chunking.py]) *)

Module Readers.

Section Files.

(** [page.extract_text()] for the pages of [PyPDF2.PdfReader(file)],
    [paragraph.text] for the paragraphs of [docx.Document(file_path)],
    and [file.read()] of a UTF-8 text file; each may raise. *)
Variable pdf_pages : string -> result (list string).
Variable docx_paragraphs : string -> result (list string).
Variable read_txt : string -> result string.

(** [text += part + "\n"] over the parts. *)
Definition append_lines (parts : list string) : string :=
  fold_left (fun text part => (text ++ part ++ nl)%string) parts EmptyString.

Definition extract_text_from_pdf (file_path : string) : result string :=
  match pdf_pages file_path with
  | Err e => Err e
  | Ok pages => Ok (append_lines pages)
  end.

Definition extract_text_from_docx (file_path : string) : result string :=
  match docx_paragraphs file_path with
  | Err e => Err e
  | Ok paragraphs => Ok (append_lines paragraphs)
  end.

Definition extract_text_from_txt (file_path : string) : result string :=
  read_txt file_path.

(** The body of the [try] of [extract_text_from_file]: the dispatch on
    [file_type.lower()]. *)
Definition extract_by_type (file_path file_type : string) : result string :=
  if String.eqb (py_lower file_type) "pdf" then extract_text_from_pdf file_path
  else if String.eqb (py_lower file_type) "docx" then extract_text_from_docx file_path
  else if String.eqb (py_lower file_type) "txt" then extract_text_from_txt file_path
  else Err (Exc ValueError ("Unsupported file type: " ++ file_type)%string).

End Files.

End Readers.

(** ** Old-vector cleanup ([services/qdrant.py]) *)

Module QdrantCleanup.

Import Qdrant.

(** [created_at and created_at < cutoff_date] *)
Definition is_old (cutoff_date : string) (p : point) : bool :=
  let created_at := pl_created_at (p_payload p) in
  negb (String.eqb created_at EmptyString) && py_str_ltb created_at cutoff_date.

(** [delete_old_vectors]; [cutoff_date] is
    [(utcnow() - timedelta(days=days_old)).isoformat()].  The scroll has
    no filter. *)
Definition delete_old_vectors (cutoff_date : string) (points : list point)
  : result nat * list point :=
  let search_result := client_scroll points [] scroll_limit in
  let old_point_ids := map p_id (filter (is_old cutoff_date) search_result) in
  let points' := match old_point_ids with
                 | [] => points
                 | _ => client_delete points old_point_ids
                 end in
  (Ok (length old_point_ids), points').

End QdrantCleanup.

(** ** Document queries ([services/supabase.py]) *)

Module Queries.

Import Supabase.

(** A [select] answers the rows, or the exception the client raised. *)
Definition select := result (list doc_row).

Fixpoint insert_created_desc (r : doc_row) (l : list doc_row) : list doc_row :=
  match l with
  | [] => [r]
  | y :: l' =>
      if (row_created_at y <? row_created_at r)%Z then r :: l
      else y :: insert_created_desc r l'
  end.

(** [.order("created_at", desc=True)]; rows of equal [created_at] come in
    an order of the server's choosing, here the one of the insertion sort. *)
Definition order_created_at_desc (rows : list doc_row) : list doc_row :=
  fold_right insert_created_desc [] rows.

(** [get_user_documents(user_id)] *)
Definition get_user_documents (user_id : string) (table : select) : result (list doc_row) :=
  match table with
  | Err e => Err (Exc Exception ("Failed to get user documents: " ++ exn_str e)%string)
  | Ok rows =>
      Ok (order_created_at_desc (filter (fun r => String.eqb (row_user_id r) user_id) rows))
  end.

(** [get_document_by_ids(document_ids, user_id)]: [in_("id", ...)] and
    [eq("user_id", ...)]. *)
Definition get_document_by_ids (document_ids : list string) (user_id : string)
  (table : select) : result (list doc_row) :=
  match table with
  | Err e => Err (Exc Exception ("Failed to get documents by IDs: " ++ exn_str e)%string)
  | Ok rows =>
      Ok (filter (fun r => existsb (String.eqb (row_id r)) document_ids
                           && String.eqb (row_user_id r) user_id) rows)
  end.

(** [get_document_metadata] with the failure of its request. *)
Definition get_document_metadata_query (document_id user_id : string) (table : select)
  : result (option doc_row) :=
  match table with
  | Err e => Err (Exc Exception ("Failed to get document metadata: " ++ exn_str e)%string)
  | Ok rows => Ok (get_document_metadata document_id user_id rows)
  end.

End Queries.

(** ** Ownership checks ([utils/auth.py]) *)

Module Auth.

Import Supabase.

(** [verify_user_owns_document(user_id, document_id)]: the first row with
    this id decides; no row, or a failed request, gives [False]. *)
Definition verify_user_owns_document (user_id document_id : string)
  (table : Queries.select) : bool :=
  match table with
  | Err _ => false
  | Ok rows =>
      match filter (fun r => String.eqb (row_id r) document_id) rows with
      | [] => false
      | r :: _ => String.eqb (row_user_id r) user_id
      end
  end.

(** [verify_user_owns_documents(user_id, document_ids)] *)
Definition verify_user_owns_documents (user_id : string) (document_ids : list string)
  (table : Queries.select) : bool :=
  match table with
  | Err _ => false
  | Ok rows =>
      let data := filter (fun r => existsb (String.eqb (row_id r)) document_ids) rows in
      if negb (Nat.eqb (length data) (length document_ids)) then false
      else forallb (fun r => String.eqb (row_user_id r) user_id) data
  end.

End Auth.

(** ** Gemini calls ([services/inference.py]) *)

Module Inference.

Section Model.

(** [model.generate_content(prompt).text], or the exception raised. *)
Variable generate_content : string -> result string.

Definition format_context (chunk : string * string) : string :=
  ("Source: " ++ fst chunk ++ nl ++ "Content: " ++ snd chunk)%string.

Definition answer_prompt (question : string) (context_chunks : list (string * string))
  : string :=
  let context_text := py_join (nl ++ nl) (map format_context context_chunks) in
  ("Context:" ++ nl ++ context_text ++ nl ++ nl ++ "Question: " ++ question ++ nl ++ nl
   ++ "Based on the provided context, please answer the question. If the answer cannot be found in the context, please say so. Be specific and cite relevant information from the sources when possible.")%string.

(** [generate_answer(question, context_chunks)]; a context chunk is the
    pair ([document_name], [text]). *)
Definition generate_answer (question : string) (context_chunks : list (string * string))
  : result string :=
  match generate_content (answer_prompt question context_chunks) with
  | Err e => Err (Exc Exception ("Failed to generate answer: " ++ exn_str e)%string)
  | Ok text =>
      if String.eqb text EmptyString
      then Ok "I couldn't generate an answer based on the provided context."%string
      else Ok (py_strip text)
  end.

Definition summary_prompt (text : string) (max_length : nat) : string :=
  ("Please provide a concise summary of the following text in no more than "
   ++ py_str_nat max_length ++ " words:" ++ nl ++ nl
   ++ substring 0 3000 text ++ "  # Limit input to avoid token limits" ++ nl ++ nl
   ++ "Summary:")%string.

(** [generate_document_summary(text, max_length)] *)
Definition generate_document_summary (text : string) (max_length : nat) : result string :=
  match generate_content (summary_prompt text max_length) with
  | Err e => Err (Exc Exception ("Failed to generate summary: " ++ exn_str e)%string)
  | Ok t =>
      if String.eqb t EmptyString then Ok "Summary could not be generated."%string
      else Ok (py_strip t)
  end.

Definition keywords_prompt (text : string) : string :=
  ("Extract 5-10 key topics or keywords from the following text. Return them as a comma-separated list:"
   ++ nl ++ nl ++ substring 0 2000 text ++ nl ++ nl ++ "Keywords:")%string.

(** [extract_keywords(text)]: any exception gives [[]]. *)
Definition extract_keywords (text : string) : list string :=
  match generate_content (keywords_prompt text) with
  | Err _ => []
  | Ok t =>
      if String.eqb t EmptyString then []
      else firstn 10 (map py_strip (py_split_char "," (py_strip t)))
  end.

End Model.

End Inference.

(** ** Document routes ([routes/documents.py]) *)

Module Documents.

Import Supabase.

(** [APIResponse(success, message, data, error)] *)
Record api_reply (A : Type) := ApiReply {
  success : bool;
  message : string;
  data : option A;
  error : option string }.
Arguments ApiReply {A} success message data error.
Arguments success {A} _.
Arguments message {A} _.
Arguments data {A} _.
Arguments error {A} _.

(** An entry of the [documents] list of [get_documents]. *)
Record doc_summary := DocSummary {
  s_id : string;
  s_name : string;
  s_file_type : string;
  s_file_size : Z;
  s_status : string;
  s_error_message : option string;
  s_created_at : Z;
  s_updated_at : string }.

(** [DocumentListResponse] *)
Record doc_list := DocList { documents : list doc_summary; total_count : nat }.

(** [dict[key] = dict.get(key, 0) + 1] on an insertion-ordered dict. *)
Fixpoint dict_incr (key : string) (d : list (string * nat)) : list (string * nat) :=
  match d with
  | [] => [(key, 1)]
  | (k, v) :: d' => if String.eqb k key then (k, S v) :: d' else (k, v) :: dict_incr key d'
  end.

(** [dict.get(key, default)] *)
Definition dict_get (key : string) (d : list (string * nat)) (default : nat) : nat :=
  match find (fun kv => String.eqb (fst kv) key) d with
  | Some (_, v) => v
  | None => default
  end.

(** The statistics of [get_document_stats]; [total_size_mb] is the float
    [round(total_size_bytes / (1024 * 1024), 2)] and is not kept. *)
Record doc_stats := DocStats {
  total_documents : nat;
  status_breakdown : list (string * nat);
  total_size_bytes : Z;
  file_type_breakdown : list (string * nat);
  completed_documents : nat;
  processing_documents : nat;
  error_documents : nat }.

Section Listing.

(** The [file_size] column, which the services do not otherwise use. *)
Variable row_file_size : doc_row -> Z.

Definition summarize (doc : doc_row) : doc_summary :=
  DocSummary (row_id doc) (row_name doc) (row_file_type doc) (row_file_size doc)
    (row_status doc) (row_error_message doc) (row_created_at doc) (row_updated_at doc).

(** [if status_filter: documents = [doc for doc in documents if ...]] *)
Definition apply_status_filter (status_filter : option string) (documents : list doc_row)
  : list doc_row :=
  match status_filter with
  | Some s =>
      if String.eqb s EmptyString then documents
      else filter (fun doc => String.eqb (row_status doc) s) documents
  | None => documents
  end.

(** [get_documents(current_user, status_filter, limit, offset)] *)
Definition get_documents (current_user : string) (status_filter : option string)
  (limit offset : Z) (table : Queries.select) : api_reply doc_list :=
  match Queries.get_user_documents current_user table with
  | Err e => ApiReply false "Failed to retrieve documents" None (Some (exn_str e))
  | Ok documents =>
      let documents := apply_status_filter status_filter documents in
      let total_count := length documents in
      let paginated_docs := py_slice documents offset (offset + limit)%Z in
      let formatted_docs := map summarize paginated_docs in
      ApiReply true ("Retrieved " ++ py_str_nat (length formatted_docs) ++ " documents")%string
        (Some (DocList formatted_docs total_count)) None
  end.

(** The [for doc in documents] loop of [get_document_stats]. *)
Definition stats_step (acc : list (string * nat) * Z * list (string * nat)) (doc : doc_row)
  : list (string * nat) * Z * list (string * nat) :=
  let '(status_counts, total_size, file_type_counts) := acc in
  (dict_incr (row_status doc) status_counts, (total_size + row_file_size doc)%Z,
   dict_incr (row_file_type doc) file_type_counts).

(** [get_document_stats(current_user)] *)
Definition get_document_stats (current_user : string) (table : Queries.select)
  : api_reply doc_stats :=
  match Queries.get_user_documents current_user table with
  | Err e => ApiReply false "Failed to retrieve document statistics" None (Some (exn_str e))
  | Ok documents =>
      let total_docs := length documents in
      let '(status_counts, total_size, file_type_counts) :=
        fold_left stats_step documents ([], 0%Z, []) in
      ApiReply true "Document statistics retrieved successfully"
        (Some (DocStats total_docs status_counts total_size file_type_counts
                 (dict_get "completed" status_counts 0)
                 (dict_get "processing" status_counts 0)
                 (dict_get "error" status_counts 0)))
        None
  end.

End Listing.

(** [get_document(document_id, current_user)]; both reads see [table]. *)
Definition get_document (document_id current_user : string) (table : Queries.select)
  : result (api_reply doc_row) :=
  if negb (Auth.verify_user_owns_document current_user document_id table) then
    Err (Exc HTTPException "You don't have permission to access this document")
  else
    match Queries.get_document_metadata_query document_id current_user table with
    | Err e => Ok (ApiReply false "Failed to retrieve document" None (Some (exn_str e)))
    | Ok None => Err (Exc HTTPException "Document not found")
    | Ok (Some document) => Ok (ApiReply true "Document retrieved successfully" (Some document) None)
    end.

(** The vector store and the metadata store together. *)
Record store := Store { st_points : list Qdrant.point; st_sb : sb_state }.

(** [DocumentDeleteResponse] *)
Record delete_data := DeleteData {
  deleted_document_id : string;
  deleted_vectors_count : nat;
  delete_message : string }.

Record failed_doc := FailedDoc { f_id : string; f_error : string }.

(** The [data] of [delete_multiple_documents]: the deleted documents as
    pairs ([id], [name]). *)
Record multi_data := MultiData {
  deleted_documents : list (string * string);
  failed_documents : list failed_doc;
  total_vectors_deleted : nat }.

Section Deletion.

(** Whether Qdrant, the storage bucket and the metadata table accept the
    delete of a given document (by id, by file path, by id).  Reads of the
    table succeed. *)
Variable vectors_ok : string -> bool.
Variable storage_remove_ok : string -> bool.
Variable metadata_delete_ok : string -> bool.

Definition delete_document_vectors (document_id user_id : string) (s : store)
  : result nat * store :=
  if vectors_ok document_id then
    let '(r, points) := Qdrant.delete_document_vectors document_id user_id (st_points s) in
    (r, Store points (st_sb s))
  else (Err (Exc Exception "Failed to delete document vectors: ..."), s).

Definition delete_file_from_storage (file_path : string) (s : store) : result unit * store :=
  let '(r, sb) := Supabase.delete_file_from_storage storage_remove_ok file_path (st_sb s) in
  (r, Store (st_points s) sb).

Definition delete_document_metadata (document_id user_id : string) (s : store)
  : result unit * store :=
  let '(r, sb) := Supabase.delete_metadata metadata_delete_ok document_id user_id (st_sb s) in
  (r, Store (st_points s) sb).

(** [delete_document(document_id, current_user)] *)
Definition delete_document (document_id current_user : string) (s : store)
  : result (api_reply delete_data) * store :=
  if negb (Auth.verify_user_owns_document current_user document_id (Ok (sb_table (st_sb s))))
  then (Err (Exc HTTPException "You don't have permission to delete this document"), s)
  else
    match get_document_metadata document_id current_user (sb_table (st_sb s)) with
    | None => (Err (Exc HTTPException "Document not found"), s)
    | Some document =>
        let '(deleted_vectors_count, s1) :=
          match delete_document_vectors document_id current_user s with
          | (Ok n, s1) => (n, s1)
          | (Err _, s1) => (0, s1)
          end in
        let s2 := snd (delete_file_from_storage (row_file_path document) s1) in
        match delete_document_metadata document_id current_user s2 with
        | (Err e, s3) => (Ok (ApiReply false "Failed to delete document" None (Some (exn_str e))), s3)
        | (Ok _, s3) =>
            (Ok (ApiReply true "Document deleted successfully"
                   (Some (DeleteData document_id deleted_vectors_count
                            ("Deleted document '" ++ row_name document ++ "' and "
                             ++ py_str_nat deleted_vectors_count ++ " vectors")%string))
                   None), s3)
        end
    end.

(** The [for doc_id in document_ids] loop of [delete_multiple_documents]. *)
Fixpoint delete_loop (current_user : string) (ids : list string)
  (deleted_docs : list (string * string)) (failed_docs : list failed_doc)
  (total_vectors_deleted : nat) (s : store) : multi_data * store :=
  match ids with
  | [] => (MultiData deleted_docs failed_docs total_vectors_deleted, s)
  | doc_id :: rest =>
      match get_document_metadata doc_id current_user (sb_table (st_sb s)) with
      | None =>
          delete_loop current_user rest deleted_docs
            (failed_docs ++ [FailedDoc doc_id "Document not found"]) total_vectors_deleted s
      | Some document =>
          let '(total1, s1) :=
            match delete_document_vectors doc_id current_user s with
            | (Ok n, s1) => (total_vectors_deleted + n, s1)
            | (Err _, s1) => (total_vectors_deleted, s1)
            end in
          let s2 := snd (delete_file_from_storage (row_file_path document) s1) in
          match delete_document_metadata doc_id current_user s2 with
          | (Err e, s3) =>
              delete_loop current_user rest deleted_docs
                (failed_docs ++ [FailedDoc doc_id (exn_str e)]) total1 s3
          | (Ok _, s3) =>
              delete_loop current_user rest (deleted_docs ++ [(doc_id, row_name document)])
                failed_docs total1 s3
          end
      end
  end.

(** [delete_multiple_documents(document_ids, current_user)] *)
Definition delete_multiple_documents (document_ids : list string) (current_user : string)
  (s : store) : result (api_reply multi_data) * store :=
  match document_ids with
  | [] => (Err (Exc HTTPException "No document IDs provided"), s)
  | _ =>
      if negb (Auth.verify_user_owns_documents current_user document_ids
                 (Ok (sb_table (st_sb s))))
      then (Err (Exc HTTPException
                   "You don't have permission to delete one or more specified documents"), s)
      else
        let '(d, s') := delete_loop current_user document_ids [] [] 0 s in
        let result_message :=
          ("Successfully deleted " ++ py_str_nat (length (deleted_documents d))
           ++ " documents")%string in
        let result_message :=
          match failed_documents d with
          | [] => result_message
          | _ => (result_message ++ ", failed to delete "
                  ++ py_str_nat (length (failed_documents d)) ++ " documents")%string
          end in
        (Ok (ApiReply (0 <? length (deleted_documents d)) result_message (Some d) None), s')
  end.

End Deletion.

End Documents.

(** ** Questions ([routes/ask.py]) *)

Module Ask.

Import Supabase Documents.

(** [SourceChunk] *)
Record source_chunk := SourceChunk {
  sc_document_id : string;
  sc_document_name : string;
  sc_chunk_text : string;
  sc_score : Z }.

(** [QuestionResponse] *)
Record question_response := QuestionResponse {
  answer : string;
  sources : list source_chunk;
  question : string }.

(** A row of the [messages] table. *)
Record message := Message {
  m_session_id : string;
  m_user_id : string;
  m_content : string;
  m_role : string;
  m_sources : option (list string) }.

(** [chunk["text"][:500] + "..." if len(chunk["text"]) > 500 else chunk["text"]] *)
Definition source_text (text : string) : string :=
  if 500 <? String.length text then (substring 0 500 text ++ "...")%string else text.

(** [request.question[:50] + "..." if len(request.question) > 50 else request.question] *)
Definition session_title (question : string) : string :=
  if 50 <? String.length question then (substring 0 50 question ++ "...")%string else question.

Section Collaborators.

(** [get_single_embedding(question)], or the exception it raises. *)
Variable get_single_embedding : string -> result (list Z).
(** The similarity Qdrant ranks by. *)
Variable similarity : list Z -> list Z -> Z.
(** [model.generate_content(prompt).text] *)
Variable generate_content : string -> result string.
(** [create_chat_session(user_id, title)]: the new session id, or the
    exception raised. *)
Variable create_chat_session : string -> string -> result string.
(** Whether the insert of a message with this role succeeds. *)
Variable save_message_ok : string -> bool.

Definition save_message (session_id user_id content role : string)
  (sources : option (list string)) (log : list message) : result unit * list message :=
  if save_message_ok role
  then (Ok tt, log ++ [Message session_id user_id content role sources])
  else (Err (Exc Exception "Failed to save message: ..."), log).

(** The [try] that saves the conversation; its exceptions are printed and
    dropped. *)
Definition save_chat (current_user question answer : string)
  (source_chunks : list source_chunk) (log : list message) : list message :=
  match create_chat_session current_user (session_title question) with
  | Err _ => log
  | Ok session_id =>
      match save_message session_id current_user question "user" None log with
      | (Err _, log1) => log1
      | (Ok _, log1) =>
          let source_refs := map sc_document_name source_chunks in
          snd (save_message session_id current_user answer "assistant" (Some source_refs) log1)
      end
  end.

(** The validation of the requested documents: all found, all
    ["completed"]. *)
Definition validate_documents (document_ids : list string) (current_user : string)
  (table : Queries.select) : result unit :=
  match document_ids with
  | [] => Ok tt
  | _ =>
      match Queries.get_document_by_ids document_ids current_user table with
      | Err e => Err e
      | Ok documents =>
          if negb (Nat.eqb (length documents) (length document_ids)) then
            Err (Exc HTTPException "One or more documents not found")
          else
            match filter (fun doc => negb (String.eqb (row_status doc) "completed")) documents with
            | [] => Ok tt
            | incomplete_docs =>
                Err (Exc HTTPException
                       ("The following documents are not ready: "
                        ++ py_join ", " (map row_name incomplete_docs))%string)
            end
      end
  end.

(** [ask_question(request, current_user)]: the reply, and the messages
    table after the optional save. *)
Definition ask_question (question : string) (document_ids : list string)
  (current_user : string) (table : Queries.select) (points : list Qdrant.point)
  (log : list message) : result (api_reply question_response) * list message :=
  let on_error (e : exn) :=
    match exn_cls e with
    | HTTPException => (Err e, log)
    | _ => (Ok (ApiReply false "Failed to answer question" None (Some (exn_str e))), log)
    end in
  if negb (Nat.eqb (length document_ids) 0)
     && negb (Auth.verify_user_owns_documents current_user document_ids table)
  then (Err (Exc HTTPException
               "You don't have permission to access one or more specified documents"), log)
  else
    match validate_documents document_ids current_user table with
    | Err e => on_error e
    | Ok _ =>
        match get_single_embedding question with
        | Err e => on_error e
        | Ok [] => on_error (Exc Exception "Failed to generate embedding for the question")
        | Ok question_embedding =>
            match Qdrant.search_similar_chunks similarity points question_embedding
                    current_user (Qdrant.DocIdsList document_ids) 5 with
            | Err e => on_error e
            | Ok [] =>
                (Ok (ApiReply true "No relevant information found"
                       (Some (QuestionResponse
                                "I couldn't find relevant information in the specified documents to answer your question."
                                [] question)) None), log)
            | Ok similar_chunks =>
                let context_chunks :=
                  map (fun c => (Qdrant.r_document_name c, Qdrant.r_text c)) similar_chunks in
                let source_chunks :=
                  map (fun c => SourceChunk (Qdrant.r_document_id c) (Qdrant.r_document_name c)
                                  (source_text (Qdrant.r_text c)) (Qdrant.r_score c))
                      similar_chunks in
                match Inference.generate_answer generate_content question context_chunks with
                | Err e => on_error e
                | Ok answer =>
                    let log' := save_chat current_user question answer source_chunks log in
                    (Ok (ApiReply true "Question answered successfully"
                           (Some (QuestionResponse answer source_chunks question)) None), log')
                end
            end
        end
    end.

(** [ask_quick_question(question, current_user)]: its [except Exception]
    also catches the [HTTPException]s of [ask_question]. *)
Definition ask_quick_question (question : string) (current_user : string)
  (table : Queries.select) (points : list Qdrant.point) (log : list message)
  : api_reply question_response * list message :=
  match ask_question question [] current_user table points log with
  | (Ok r, log') => (r, log')
  | (Err e, log') => (ApiReply false "Failed to answer quick question" None (Some (exn_str e)), log')
  end.

End Collaborators.

End Ask.

(** * Proofs *)

(** ** Embedding client *)

Module EmbeddingFacts.

Import Embedding.

(** *** One vector per text *)

Lemma embed_texts_length (provider : nat -> string -> response) (n : nat) :
  forall texts acc s vs s',
    embed_texts provider n texts acc s = (Ok vs, s') ->
    length vs = length acc + length texts.
Proof.
  induction texts as [|t ts IH]; intros acc s vs s' H.
  - cbn in H. inversion H. simpl. lia.
  - cbn [embed_texts] in H. unfold bind, post in H.
    destruct (provider (posts s) t) as [code b|d]; [|discriminate].
    destruct (Z.eqb code 200).
    + destruct (parse_embedding b) as [v|]; [|discriminate].
      destruct (1 <? n); cbn in H;
        apply IH in H; rewrite length_app in H; simpl in *; lia.
    + destruct (Z.eqb code 503); discriminate.
Qed.

Lemma get_embeddings_once_length (provider : nat -> string -> response) texts s vs s' :
  get_embeddings_once provider texts s = (Ok vs, s') -> length vs = length texts.
Proof.
  unfold get_embeddings_once. destruct texts as [|t ts].
  - intro H. inversion H. reflexivity.
  - unfold catch. destruct (embed_texts _ _ _ _ s) as [[v|e] s1] eqn:E.
    + intro H. inversion H; subst. apply embed_texts_length in E. simpl in *. lia.
    + destruct (exn_cls e); discriminate.
Qed.

Lemma retry_from_ok {A} (P : A -> Prop) (f : M A)
  (Hf : forall s a s', f s = (Ok a, s') -> P a) :
  forall left attempt s a s', retry_from f attempt left s = (Ok a, s') -> P a.
Proof.
  induction left as [|l IH]; intros attempt s a s' H; cbn [retry_from] in H;
    destruct (f s) as [[a0|e] s1] eqn:E.
  - inversion H; subst. eauto.
  - discriminate.
  - inversion H; subst. eauto.
  - unfold bind, sleep in H. eauto.
Qed.

(** [get_embeddings] returns exactly one vector per input text. *)
Lemma get_embeddings_length (provider : nat -> string -> response) texts s vs s' :
  get_embeddings provider texts s = (Ok vs, s') -> length vs = length texts.
Proof.
  apply (retry_from_ok (fun v => length v = length texts)).
  intros. eapply get_embeddings_once_length; eauto.
Qed.

(** *** One attempt against a provider that is warming up *)

Lemma get_embeddings_once_warming (provider : nat -> string -> response)
  (Hw : forall n t, exists b, provider n t = Resp 503 b) t ts s :
  get_embeddings_once provider (t :: ts) s =
  (Err (Exc Exception "Embedding generation failed: Model is loading, retrying..."),
   mkSt (S (posts s)) (trace s ++ [Post t; Sleep 20000%N])).
Proof.
  unfold get_embeddings_once, catch. cbn [embed_texts]. unfold bind, post.
  destruct (Hw (posts s) t) as [b Hb]. rewrite Hb. cbn.
  rewrite <- app_assoc. reflexivity.
Qed.


(** No text, no request: the call returns at once. *)
Lemma get_embeddings_nil (provider : nat -> string -> response) s :
  get_embeddings provider [] s = (Ok [], s).
Proof. reflexivity. Qed.

End EmbeddingFacts.

(** C5 (corrected): against a provider that always answers 503, a call on
    a non-empty list of texts makes exactly three attempts (one POST each,
    for the first text) and ends in a tenacity [RetryError]; every attempt
    sleeps the 20 s cooldown before raising, the last one included, and
    the exponential backoff (4 s) is added on top between attempts.  An
    empty list makes no request and returns no vectors. *)
Theorem get_embeddings_warming_three_attempts
  (provider : nat -> string -> Embedding.response)
  (Hw : forall n t, exists b, provider n t = Embedding.Resp 503 b)
  (t : string) (ts : list string) (s : Embedding.st) :
  Embedding.get_embeddings provider (t :: ts) s =
  (Err (Exc RetryError
          "RetryError[Embedding generation failed: Model is loading, retrying...]"),
   Embedding.mkSt (Embedding.posts s + 3)
     (Embedding.trace s ++
        [Embedding.Post t; Embedding.Sleep 20000%N; Embedding.Sleep 4000%N;
         Embedding.Post t; Embedding.Sleep 20000%N; Embedding.Sleep 4000%N;
         Embedding.Post t; Embedding.Sleep 20000%N]))
  /\ Embedding.get_embeddings provider [] s = (Ok [], s).
Proof.
  split; [|apply EmbeddingFacts.get_embeddings_nil].
  unfold Embedding.get_embeddings, Embedding.tenacity_retry.
  cbn [Embedding.retry_from Embedding.stop_after_attempt Nat.sub].
  rewrite (EmbeddingFacts.get_embeddings_once_warming provider Hw).
  unfold Embedding.bind, Embedding.sleep. cbn [Embedding.posts Embedding.trace].
  rewrite (EmbeddingFacts.get_embeddings_once_warming provider Hw).
  cbn [Embedding.posts Embedding.trace].
  rewrite (EmbeddingFacts.get_embeddings_once_warming provider Hw).
  cbn [Embedding.posts Embedding.trace].
  replace (S (S (S (Embedding.posts s)))) with (Embedding.posts s + 3) by lia.
  repeat rewrite <- app_assoc. reflexivity.
Qed.

Lemma get_embeddings_warming_three_attempts_witness :
  (forall n t, exists b, Embedding.warming_provider n t = Embedding.Resp 503 b) /\
  Embedding.get_embeddings Embedding.warming_provider ["doc"%string] (Embedding.mkSt 0 []) =
  (Err (Exc RetryError
          "RetryError[Embedding generation failed: Model is loading, retrying...]"),
   Embedding.mkSt 3
     [Embedding.Post "doc"; Embedding.Sleep 20000%N; Embedding.Sleep 4000%N;
      Embedding.Post "doc"; Embedding.Sleep 20000%N; Embedding.Sleep 4000%N;
      Embedding.Post "doc"; Embedding.Sleep 20000%N]).
Proof.
  assert (Hw : forall n t, exists b, Embedding.warming_provider n t = Embedding.Resp 503 b)
    by (intros; exists Embedding.BOther; reflexivity).
  split; [exact Hw|].
  exact (proj1 (get_embeddings_warming_three_attempts Embedding.warming_provider Hw
                  "doc"%string [] (Embedding.mkSt 0 []))).
Defined.

(** C5 counterexample: on a warm-up answer the wait before the next
    attempt is 24 s (the 20 s cooldown plus the 4 s backoff), not the
    fixed 20 s cooldown alone, and 20 s are slept after the last attempt. *)
Lemma get_embeddings_warming_backoff_added :
  let tr := Embedding.trace
              (snd (Embedding.get_embeddings Embedding.warming_provider
                      ["doc"%string] (Embedding.mkSt 0 []))) in
  Embedding.sleep_after_posts tr = [24000; 24000; 20000]%N /\
  firstn 2 (Embedding.sleep_after_posts tr) <> [20000; 20000]%N.
Proof.
  vm_compute. split; [reflexivity|].
  intro H. inversion H.
Qed.

(** ** Batching of [get_batch_embeddings] *)

Module BatchFacts.

Import Embedding.

Lemma skipn_nil_iff {A} n (l : list A) : skipn n l = [] <-> length l <= n.
Proof.
  split; intro H.
  - apply (f_equal (@length A)) in H. rewrite length_skipn in H. simpl in H. lia.
  - apply skipn_all2. exact H.
Qed.

Section Groups.

Variable b : nat.
Hypothesis Hb : 0 < b.

Lemma chunks_fuel_irrel {A} : forall f1 f2 (l : list A),
  length l <= f1 -> length l <= f2 -> chunks_fuel f1 b l = chunks_fuel f2 b l.
Proof.
  induction f1 as [|f1 IH]; intros f2 l H1 H2.
  - destruct l; [|simpl in H1; lia]. destruct f2; reflexivity.
  - destruct l as [|x l]; [destruct f2; reflexivity|].
    destruct f2 as [|f2]; [simpl in H2; lia|].
    cbn [chunks_fuel]. f_equal. apply IH; rewrite length_skipn; cbn [length] in *; lia.
Qed.

Lemma chunks_nil {A} : chunks b (@nil A) = [].
Proof. reflexivity. Qed.

Lemma chunks_cons {A} (l : list A) :
  l <> [] -> chunks b l = firstn b l :: chunks b (skipn b l).
Proof.
  intro Hl. destruct l as [|x l]; [congruence|].
  unfold chunks at 1. cbn [length chunks_fuel]. f_equal.
  unfold chunks. apply chunks_fuel_irrel; rewrite length_skipn; cbn [length]; lia.
Qed.

Lemma chunks_concat {A} : forall n (l : list A), length l <= n -> concat (chunks b l) = l.
Proof.
  induction n as [|n IH]; intros l Hn.
  - destruct l; [reflexivity|simpl in Hn; lia].
  - destruct l as [|x l']; [reflexivity|].
    rewrite chunks_cons by discriminate. cbn [concat].
    rewrite IH; [apply firstn_skipn|]. rewrite length_skipn. cbn [length] in *. lia.
Qed.

Lemma ceil_step (len : nat) :
  0 < len -> (len + b - 1) / b = S ((len - b + b - 1) / b).
Proof.
  intro H.
  replace (len + b - 1) with (len - 1 + 1 * b) by lia.
  rewrite Nat.div_add by lia.
  destruct (Nat.le_gt_cases b len) as [Hle|Hgt].
  - replace (len - b + b - 1) with (len - 1) by lia. lia.
  - replace (len - b + b - 1) with (b - 1) by lia.
    rewrite (Nat.div_small (b - 1)) by lia.
    rewrite (Nat.div_small (len - 1)) by lia. reflexivity.
Qed.

Lemma chunks_length {A} : forall n (l : list A),
  length l <= n -> length (chunks b l) = (length l + b - 1) / b.
Proof.
  induction n as [|n IH]; intros l Hn.
  - destruct l; [simpl; rewrite Nat.div_small; lia|simpl in Hn; lia].
  - destruct l as [|x l'].
    + simpl. rewrite Nat.div_small; lia.
    + rewrite chunks_cons by discriminate.
      change (length (firstn b (x :: l') :: chunks b (skipn b (x :: l'))))
        with (S (length (chunks b (skipn b (x :: l'))))).
      rewrite IH by (rewrite length_skipn; cbn [length] in *; lia).
      rewrite length_skipn. rewrite (ceil_step (length (x :: l'))) by (cbn [length]; lia).
      reflexivity.
Qed.

Lemma chunks_full {A} : forall n (l : list A),
  length l <= n -> Forall (fun g => length g = b) (removelast (chunks b l)).
Proof.
  induction n as [|n IH]; intros l Hn.
  - destruct l; [constructor|simpl in Hn; lia].
  - destruct l as [|x l']; [constructor|].
    rewrite chunks_cons by discriminate.
    destruct (skipn b (x :: l')) as [|y r] eqn:E.
    + constructor.
    + assert (Hrl : forall (a : list A) rest, rest <> [] ->
                 removelast (a :: rest) = a :: removelast rest)
        by (intros a rest Hr; destruct rest; [congruence|reflexivity]).
      rewrite Hrl by (rewrite (chunks_cons (y :: r)) by discriminate; discriminate).
      constructor.
      * rewrite length_firstn. apply Nat.min_l.
        destruct (Nat.le_gt_cases (length (x :: l')) b) as [Hle|]; [|lia].
        apply skipn_nil_iff in Hle. congruence.
      * rewrite <- E. apply IH. rewrite length_skipn. cbn [length] in *. lia.
Qed.

Lemma chunks_nil_inv {A} (l : list A) : chunks b l = [] -> l = [].
Proof.
  destruct l as [|x l]; [reflexivity|].
  rewrite chunks_cons by discriminate. discriminate.
Qed.

Lemma ceil_bounds (n : nat) :
  n <= (n + b - 1) / b * b /\ (n + b - 1) / b * b <= n + b - 1.
Proof.
  pose proof (Nat.div_mod (n + b - 1) b ltac:(lia)) as Hd.
  pose proof (Nat.mod_upper_bound (n + b - 1) b ltac:(lia)) as Hm.
  nia.
Qed.

Lemma py_range_pos (n : nat) :
  py_range 0 (Z.of_nat n) (Z.of_nat b) =
  Ok (map (fun k => 0 + Z.of_nat k * Z.of_nat b)%Z (seq 0 ((n + b - 1) / b))).
Proof.
  unfold py_range.
  destruct (Z.eqb (Z.of_nat b) 0) eqn:E; [apply Z.eqb_eq in E; lia|].
  destruct (0 <? Z.of_nat b)%Z eqn:E2; [|apply Z.ltb_ge in E2; lia].
  do 3 f_equal.
  replace (Z.of_nat n - 0 + Z.of_nat b - 1)%Z with (Z.of_nat (n + b - 1)) by lia.
  rewrite <- Nat2Z.inj_div. apply Nat2Z.id.
Qed.

End Groups.

Lemma firstn_min_length {A} n (l : list A) : firstn (Nat.min n (length l)) l = firstn n l.
Proof.
  destruct (Nat.le_ge_cases n (length l)) as [H|H].
  - rewrite Nat.min_l by exact H. reflexivity.
  - rewrite Nat.min_r by exact H. rewrite firstn_all. symmetry. apply firstn_all2. exact H.
Qed.

Lemma py_slice_nat {A} (l : list A) i k :
  i <= length l ->
  py_slice l (Z.of_nat i) (Z.of_nat i + Z.of_nat k)%Z = firstn k (skipn i l).
Proof.
  intro Hi. unfold py_slice, py_index.
  destruct (Z.of_nat i <? 0)%Z eqn:E1; [apply Z.ltb_lt in E1; lia|].
  destruct (Z.of_nat i + Z.of_nat k <? 0)%Z eqn:E2; [apply Z.ltb_lt in E2; lia|].
  rewrite (Z.min_l (Z.of_nat i)) by lia.
  replace (Z.to_nat (Z.min (Z.of_nat i + Z.of_nat k) (Z.of_nat (length l)) - Z.of_nat i))
    with (Nat.min k (length (skipn i l))) by (rewrite length_skipn; lia).
  rewrite Nat2Z.id. apply firstn_min_length.
Qed.

Section Loop.

Variable b : nat.
Hypothesis Hb : 0 < b.
Variable embed : list string -> M (list vec).
Variable texts : list string.

Lemma batch_loop_groups : forall m j acc,
  j + m = (length texts + b - 1) / b -> forall s,
  batch_loop embed texts (Z.of_nat b)
    (map (fun k => 0 + Z.of_nat k * Z.of_nat b)%Z (seq j m)) acc s
  = run_groups embed (chunks b (skipn (j * b) texts)) acc s.
Proof.
  pose proof (ceil_bounds b Hb (length texts)) as [Hc1 Hc2].
  induction m as [|m IH]; intros j acc Hjm s.
  - cbn [seq map batch_loop].
    rewrite (proj2 (skipn_nil_iff (j * b) texts)) by (subst; lia).
    reflexivity.
  - cbn [seq map batch_loop].
    assert (Hlt : j * b < length texts) by nia.
    rewrite (chunks_cons b Hb (skipn (j * b) texts))
      by (intro H; apply skipn_nil_iff in H; lia).
    cbn [run_groups]. unfold bind.
    replace (0 + Z.of_nat j * Z.of_nat b)%Z with (Z.of_nat (j * b)) by lia.
    rewrite py_slice_nat by lia.
    destruct (embed (firstn b (skipn (j * b) texts)) s) as [[vs|e] s1]; [|reflexivity].
    assert (Hsk : skipn b (skipn (j * b) texts) = skipn (S j * b) texts)
      by (rewrite skipn_skipn; f_equal; lia).
    rewrite Hsk.
    destruct (Z.of_nat (j * b) + Z.of_nat b <? Z.of_nat (length texts))%Z eqn:T.
    + apply Z.ltb_lt in T.
      assert (Hne : chunks b (skipn (S j * b) texts) <> []).
      { intro H. apply chunks_nil_inv in H; [|exact Hb].
        apply skipn_nil_iff in H. lia. }
      destruct (chunks b (skipn (S j * b) texts)) as [|g gs] eqn:Ec; [congruence|].
      cbv beta iota delta [sleep].
      rewrite <- Ec. apply IH. lia.
    + apply Z.ltb_ge in T.
      assert (E : skipn (S j * b) texts = []) by (apply skipn_nil_iff; lia).
      rewrite E. cbv beta iota delta [ret chunks chunks_fuel length].
      cbn [run_groups]. unfold ret.
      destruct m as [|m]; [reflexivity|].
      exfalso. nia.
Qed.

(** [get_batch_embeddings] is the group-by-group program. *)
Lemma get_batch_embeddings_with_spec s :
  get_batch_embeddings_with embed texts (Z.of_nat b) s = embed_batched_spec embed b texts s.
Proof.
  unfold get_batch_embeddings_with, embed_batched_spec.
  rewrite py_range_pos by exact Hb.
  rewrite (batch_loop_groups ((length texts + b - 1) / b) 0 [] eq_refl s).
  reflexivity.
Qed.

End Loop.

Lemma run_groups_length (embed : list string -> M (list vec))
  (Hlen : forall g s vs s', embed g s = (Ok vs, s') -> length vs = length g) :
  forall groups acc s vs s',
  run_groups embed groups acc s = (Ok vs, s') ->
  length vs = length acc + length (concat groups).
Proof.
  induction groups as [|g gs IH]; intros acc s vs s' H.
  - cbn in H. inversion H. simpl. lia.
  - cbn [run_groups] in H. unfold bind in H.
    destruct (embed g s) as [[v|e] s1] eqn:E; [|discriminate].
    apply Hlen in E.
    destruct gs as [|g' gs'].
    + cbn in H. apply IH in H. cbn [concat] in *. rewrite length_app in *. simpl in *. lia.
    + cbn beta iota delta [sleep] in H. apply IH in H.
      cbn [concat]. rewrite length_app in *. cbn [concat] in H. lia.
Qed.

End BatchFacts.

(** C6: for a positive batch size [B], [get_batch_embeddings texts B] is
    the program that cuts [texts] into groups of [B] consecutive texts
    ([ceil(N/B)] of them, all of size [B] but the last, together equal to
    [texts]), calls [get_embeddings] on the groups one after the other,
    sleeps 1 s between two groups and not after the last, and concatenates
    the results in group order; a successful call returns exactly [N]
    vectors. *)
Theorem get_batch_embeddings_sequential_groups
  (provider : nat -> string -> Embedding.response) (texts : list string)
  (batch_size : Z) (Hpos : (0 < batch_size)%Z) :
  let b := Z.to_nat batch_size in
  (forall s, Embedding.get_batch_embeddings provider texts batch_size s =
             Embedding.embed_batched_spec (Embedding.get_embeddings provider) b texts s) /\
  length (Embedding.chunks b texts) = (length texts + b - 1) / b /\
  concat (Embedding.chunks b texts) = texts /\
  Forall (fun g => length g = b) (removelast (Embedding.chunks b texts)) /\
  (forall s vs s', Embedding.get_batch_embeddings provider texts batch_size s = (Ok vs, s') ->
                   length vs = length texts).
Proof.
  intro b.
  assert (Hb : 0 < b) by (subst b; lia).
  assert (HB : batch_size = Z.of_nat b) by (subst b; lia).
  assert (Hspec : forall s, Embedding.get_batch_embeddings provider texts batch_size s =
             Embedding.embed_batched_spec (Embedding.get_embeddings provider) b texts s).
  { intro s. unfold Embedding.get_batch_embeddings. rewrite HB.
    apply BatchFacts.get_batch_embeddings_with_spec. exact Hb. }
  split; [exact Hspec|].
  split; [apply (BatchFacts.chunks_length b Hb (length texts)); lia|].
  split; [apply (BatchFacts.chunks_concat b Hb (length texts)); lia|].
  split; [apply (BatchFacts.chunks_full b Hb (length texts)); lia|].
  intros s vs s' H. rewrite Hspec in H. unfold Embedding.embed_batched_spec in H.
  apply BatchFacts.run_groups_length in H.
  - rewrite (BatchFacts.chunks_concat b Hb (length texts)) in H by lia. simpl in H. exact H.
  - intros g s0 v s0'. apply EmbeddingFacts.get_embeddings_length.
Qed.

Lemma get_batch_embeddings_sequential_groups_witness :
  (0 < 2)%Z /\
  length (Embedding.chunks 2 ["a"; "b"; "c"; "d"; "e"]%string) = 3 /\
  Embedding.get_batch_embeddings Embedding.ok_provider ["a"; "b"; "c"; "d"; "e"]%string 2
    (Embedding.mkSt 0 []) =
  Embedding.embed_batched_spec (Embedding.get_embeddings Embedding.ok_provider) 2
    ["a"; "b"; "c"; "d"; "e"]%string (Embedding.mkSt 0 []).
Proof.
  assert (H := get_batch_embeddings_sequential_groups Embedding.ok_provider
                 ["a"; "b"; "c"; "d"; "e"]%string 2 ltac:(lia)).
  cbv zeta in H. destruct H as [Hs [Hl _]].
  split; [lia|]. split; [exact Hl|]. exact (Hs _).
Defined.

(** ** Vector store *)

Module QdrantFacts.

Import Qdrant.

Lemma in_firstn {A} k (x : A) l : In x (firstn k l) -> In x l.
Proof.
  intro H. rewrite <- (firstn_skipn k l). apply in_or_app. left. exact H.
Qed.

Lemma in_insert_by_score x y l : In x (insert_by_score y l) <-> y = x \/ In x l.
Proof.
  induction l as [|z l IH]; cbn [insert_by_score].
  - simpl. intuition.
  - destruct (sp_score z <? sp_score y)%Z; simpl; [tauto|]. rewrite IH. tauto.
Qed.

Lemma in_sort_by_score x l : In x (fold_right insert_by_score [] l) <-> In x l.
Proof.
  induction l as [|y l IH]; cbn [fold_right]; [tauto|].
  rewrite in_insert_by_score, IH. simpl. intuition.
Qed.

(** The first condition of every search filter is the tenant condition. *)
Lemma build_search_filter_head user_id document_ids :
  exists rest, build_search_filter user_id document_ids =
               FieldCondition "user_id" (MatchValue user_id) :: rest.
Proof.
  unfold build_search_filter.
  destruct (doc_ids_truthy document_ids); [|eexists; reflexivity].
  destruct document_ids as [|ids|s]; [eexists; reflexivity| |eexists; reflexivity].
  destruct (1 <? length ids); [eexists; reflexivity|].
  destruct (Nat.eqb (length ids) 1); eexists; reflexivity.
Qed.

Lemma must_holds_user user_id rest p :
  must_holds (FieldCondition "user_id" (MatchValue user_id) :: rest) p = true ->
  pl_user_id (p_payload p) = user_id.
Proof.
  unfold must_holds. cbn [forallb]. intro H. apply andb_true_iff in H as [H _].
  unfold cond_holds in H. cbn in H. apply String.eqb_eq in H. exact H.
Qed.

Lemma must_holds_delete_filter document_id user_id p :
  must_holds (delete_filter document_id user_id) p =
  String.eqb (pl_document_id (p_payload p)) document_id
  && String.eqb (pl_user_id (p_payload p)) user_id.
Proof.
  unfold must_holds, delete_filter, cond_holds. cbn. rewrite andb_true_r. reflexivity.
Qed.

(** Points whose ids are distinct are determined by their id. *)
Lemma nodup_map_eq {A B} (f : A -> B) l x y :
  NoDup (map f l) -> In x l -> In y l -> f x = f y -> x = y.
Proof.
  induction l as [|z l IH]; intros Hnd Hx Hy Hf; [destruct Hx|].
  cbn [map] in Hnd. inversion Hnd as [|? ? Hnotin Hnd']; subst.
  destruct Hx as [<-|Hx]; destruct Hy as [<-|Hy]; auto.
  - exfalso. apply Hnotin. rewrite Hf. apply in_map. exact Hy.
  - exfalso. apply Hnotin. rewrite <- Hf. apply in_map. exact Hx.
Qed.

Definition id_in (ids : list string) (p : point) : bool :=
  existsb (String.eqb (p_id p)) ids.

Lemma id_in_map p l : id_in (map p_id l) p = true <-> exists q, In q l /\ p_id q = p_id p.
Proof.
  unfold id_in. rewrite existsb_exists. split.
  - intros [x [Hx Heq]]. apply in_map_iff in Hx as [q [Hq Hin]].
    exists q. split; [exact Hin|]. apply String.eqb_eq in Heq. congruence.
  - intros [q [Hq Heq]]. exists (p_id q). split; [apply in_map; exact Hq|].
    apply String.eqb_eq. congruence.
Qed.

(** With distinct ids, deleting the ids of the first [k] matching points
    removes exactly those points. *)
Lemma filter_ids_of_selection (m : point -> bool) : forall l k,
  NoDup (map p_id l) ->
  filter (id_in (map p_id (firstn k (filter m l)))) l = firstn k (filter m l).
Proof.
  induction l as [|p l IH]; intros k Hnd; [destruct k; reflexivity|].
  cbn [map] in Hnd. inversion Hnd as [|? ? Hnotin Hnd']; subst.
  assert (Hother : forall ids, (forall q, In q ids -> In q l) ->
            filter (id_in (map p_id (p :: ids))) l = filter (id_in (map p_id ids)) l).
  { intros ids Hsub. apply filter_ext_in. intros q Hq.
    unfold id_in. cbn [map existsb].
    destruct (String.eqb (p_id q) (p_id p)) eqn:E; [|reflexivity].
    apply String.eqb_eq in E. exfalso. apply Hnotin. rewrite <- E. apply in_map. exact Hq. }
  destruct k as [|k].
  { cbn [firstn map]. clear. generalize (p :: l) as l0. intro l0.
    induction l0 as [|q l0 IHl0]; [reflexivity|exact IHl0]. }
  cbn [filter]. destruct (m p) eqn:Hm.
  - cbn [firstn map].
    assert (Hpp : id_in (p_id p :: map p_id (firstn k (filter m l))) p = true)
      by (unfold id_in; cbn [existsb]; rewrite String.eqb_refl; reflexivity).
    rewrite Hpp. f_equal.
    change (p_id p :: map p_id (firstn k (filter m l)))
      with (map p_id (p :: firstn k (filter m l))).
    rewrite Hother by (intros q Hq; apply in_firstn in Hq; apply filter_In in Hq; tauto).
    apply IH. exact Hnd'.
  - assert (Hp : id_in (map p_id (firstn (S k) (filter m l))) p = false).
    { destruct (id_in _ p) eqn:E; [|reflexivity].
      apply id_in_map in E as [q [Hq Heq]]. apply in_firstn, filter_In in Hq as [Hq _].
      exfalso. apply Hnotin. rewrite <- Heq. apply in_map. exact Hq. }
    cbv beta iota. rewrite Hp. apply IH. exact Hnd'.
Qed.

Lemma filter_split_length {A} (f : A -> bool) l :
  length l = length (filter f l) + length (filter (fun x => negb (f x)) l).
Proof.
  induction l as [|x l IH]; [reflexivity|]. cbn [filter].
  destruct (f x); cbn [negb length]; lia.
Qed.

(** With distinct ids, a point survives the delete of the ids of [sel]
    exactly when it is not in [sel]. *)
Lemma in_client_delete_sel points sel p :
  NoDup (map p_id points) -> incl sel points ->
  In p (client_delete points (map p_id sel)) <-> In p points /\ ~ In p sel.
Proof.
  intros Hnd Hincl. unfold client_delete. rewrite filter_In.
  change (existsb (String.eqb (p_id p)) (map p_id sel)) with (id_in (map p_id sel) p).
  split.
  - intros [Hp Hn]. split; [exact Hp|]. intro Hs.
    assert (E : id_in (map p_id sel) p = true) by (apply id_in_map; exists p; auto).
    rewrite E in Hn. discriminate.
  - intros [Hp Hs]. split; [exact Hp|].
    destruct (id_in (map p_id sel) p) eqn:E; [|reflexivity].
    apply id_in_map in E as [q [Hq Heq]].
    assert (q = p) as <- by (eapply nodup_map_eq; eauto).
    contradiction.
Qed.

(** [delete_document_vectors] as one selection and one delete; the
    [if point_ids] guard only skips a delete that removes nothing. *)
Lemma client_delete_nil points : client_delete points [] = points.
Proof.
  unfold client_delete. induction points as [|p l IH]; [reflexivity|].
  cbn. f_equal. exact IH.
Qed.

Lemma delete_document_vectors_eq document_id user_id points :
  delete_document_vectors document_id user_id points =
  (Ok (length (client_scroll points (delete_filter document_id user_id) scroll_limit)),
   client_delete points
     (map p_id (client_scroll points (delete_filter document_id user_id) scroll_limit))).
Proof.
  unfold delete_document_vectors.
  generalize (client_scroll points (delete_filter document_id user_id) scroll_limit) as sel.
  intro sel. rewrite <- (length_map p_id sel).
  destruct (map p_id sel) as [|i ids]; [rewrite client_delete_nil|]; reflexivity.
Qed.

(** The points [cap_point 0 .. cap_point m] all match ["doc"], ["u1"]. *)
Lemma cap_point_matches n :
  must_holds (delete_filter "doc" "u1") (cap_point n) = true.
Proof. reflexivity. Qed.

Lemma cap_point_id_inj n k : p_id (cap_point n) = p_id (cap_point k) -> n = k.
Proof.
  cbn [cap_point p_id]. intro Hk.
  apply (f_equal list_ascii_of_string) in Hk.
  rewrite !list_ascii_of_string_of_list_ascii in Hk.
  apply (f_equal (@length ascii)) in Hk. rewrite !repeat_length in Hk. exact Hk.
Qed.

Lemma cap_points_scroll m :
  let points := map cap_point (seq 0 (S m)) in
  firstn m (filter (must_holds (delete_filter "doc" "u1")) points) = map cap_point (seq 0 m) /\
  In (cap_point m) (client_delete points (map p_id (map cap_point (seq 0 m)))).
Proof.
  intro points.
  assert (Hall : filter (must_holds (delete_filter "doc" "u1")) points = points).
  { apply forallb_filter_id. apply forallb_forall. intros p Hp.
    unfold points in Hp. apply in_map_iff in Hp as [n [<- _]]. apply cap_point_matches. }
  rewrite Hall. split.
  - unfold points. rewrite firstn_map. apply (f_equal (map cap_point)).
    rewrite seq_S, firstn_app, length_seq, Nat.sub_diag. cbn [firstn].
    rewrite app_nil_r. apply firstn_all2. rewrite length_seq. reflexivity.
  - unfold client_delete. apply filter_In. split.
    + unfold points. apply in_map, in_seq. lia.
    + apply negb_true_iff, not_true_iff_false. intro Hex.
      apply existsb_exists in Hex as [x [Hx Heq]]. apply String.eqb_eq in Heq.
      rewrite map_map in Hx. apply in_map_iff in Hx as [k [Hk Hks]].
      apply in_seq in Hks. rewrite <- Hk in Heq. apply cap_point_id_inj in Heq. lia.
Qed.

End QdrantFacts.

(** C1: whatever the query vector, the limit and the [document_ids]
    argument (absent, empty, one id, several ids, or a string), the filter
    built by [search_similar_chunks] starts with [user_id == T], and every
    result it returns is the formatted form of a stored point whose
    [user_id] is [T]. *)
Theorem search_similar_chunks_tenant_isolation
  (similarity : list Z -> list Z -> Z) (points : list Qdrant.point)
  (query_embedding : list Z) (user_id : string)
  (document_ids : Qdrant.doc_ids_arg) (limit : nat) :
  In (Qdrant.FieldCondition "user_id" (Qdrant.MatchValue user_id))
     (Qdrant.build_search_filter user_id document_ids) /\
  forall results,
    Qdrant.search_similar_chunks similarity points query_embedding user_id
      document_ids limit = Ok results ->
    forall r, In r results ->
      exists p, In p points /\ Qdrant.pl_user_id (Qdrant.p_payload p) = user_id /\
        r = Qdrant.format_result
              (Qdrant.ScoredPoint (Qdrant.p_id p)
                 (similarity query_embedding (Qdrant.p_vector p)) (Qdrant.p_payload p)).
Proof.
  destruct (QdrantFacts.build_search_filter_head user_id document_ids) as [rest Hf].
  split; [rewrite Hf; left; reflexivity|].
  intros results H r Hr. unfold Qdrant.search_similar_chunks in H.
  injection H as <-. rewrite Hf in Hr.
  apply in_map_iff in Hr as [sp [<- Hsp]].
  unfold Qdrant.client_search in Hsp.
  apply QdrantFacts.in_firstn, (proj1 (QdrantFacts.in_sort_by_score _ _)) in Hsp.
  apply in_map_iff in Hsp as [p [<- Hp]].
  apply filter_In in Hp as [Hin Hm].
  exists p. split; [exact Hin|]. split; [|reflexivity].
  eapply QdrantFacts.must_holds_user. exact Hm.
Qed.

(** C8 (code bug): [delete_document_vectors] is documented to delete all
    vectors of a document, but it collects the points to delete with a
    single [scroll] capped at [limit=10000] and does not page on: with
    10001 points of one document and tenant, one call deletes the first
    10000 of them and returns 10000; the last point, which matches the
    pair, is still stored. *)
Lemma delete_document_vectors_scroll_cap :
  let points := map cap_point (seq 0 (S Qdrant.scroll_limit)) in
  Qdrant.scroll_limit = 10000 /\
  fst (Qdrant.delete_document_vectors "doc" "u1" points) = Ok Qdrant.scroll_limit /\
  Qdrant.must_holds (Qdrant.delete_filter "doc" "u1") (cap_point Qdrant.scroll_limit) = true /\
  In (cap_point Qdrant.scroll_limit) (snd (Qdrant.delete_document_vectors "doc" "u1" points)).
Proof.
  intro points. split; [reflexivity|].
  rewrite QdrantFacts.delete_document_vectors_eq. cbn [fst snd].
  split; [|split; [apply QdrantFacts.cap_point_matches|]];
  unfold Qdrant.client_scroll, points; generalize Qdrant.scroll_limit as m; intro m;
  destruct (QdrantFacts.cap_points_scroll m) as [Hsel Hin]; rewrite Hsel.
  - rewrite length_map, length_seq. reflexivity.
  - exact Hin.
Qed.

(** For a document id [D] and tenant [T] over a collection
    with distinct point ids, [delete_document_vectors] deletes the first
    [scroll_limit] (10000) points matching the pair and returns their
    number, [min (matching, 10000)]; the points that survive are exactly
    the points not deleted, so every point of another document or tenant
    is kept; when at most 10000 points match, no matching point survives;
    when none matches, the collection is unchanged and the result is 0. *)
Theorem delete_document_vectors_precise (D T : string) (points : list Qdrant.point)
  (Hnd : NoDup (map Qdrant.p_id points)) :
  let matching := filter (Qdrant.must_holds (Qdrant.delete_filter D T)) points in
  let deleted := firstn Qdrant.scroll_limit matching in
  fst (Qdrant.delete_document_vectors D T points)
    = Ok (Nat.min (length matching) Qdrant.scroll_limit) /\
  (forall p, In p (snd (Qdrant.delete_document_vectors D T points))
             <-> In p points /\ ~ In p deleted) /\
  length points
    = length (snd (Qdrant.delete_document_vectors D T points)) + length deleted /\
  (forall p, In p points -> Qdrant.must_holds (Qdrant.delete_filter D T) p = false ->
             In p (snd (Qdrant.delete_document_vectors D T points))) /\
  (length matching <= Qdrant.scroll_limit ->
   forall p, In p (snd (Qdrant.delete_document_vectors D T points)) ->
             Qdrant.must_holds (Qdrant.delete_filter D T) p = false) /\
  (matching = [] ->
   Qdrant.delete_document_vectors D T points = (Ok 0, points)).
Proof.
  intros matching deleted.
  rewrite QdrantFacts.delete_document_vectors_eq. cbn [fst snd].
  unfold Qdrant.client_scroll. fold matching. fold deleted.
  assert (Hincl : incl deleted points).
  { intros q Hq. apply QdrantFacts.in_firstn, filter_In in Hq. tauto. }
  assert (Hmem : forall p, In p (Qdrant.client_delete points (map Qdrant.p_id deleted))
                           <-> In p points /\ ~ In p deleted)
    by (intro p; apply QdrantFacts.in_client_delete_sel; assumption).
  split; [unfold deleted; rewrite length_firstn, Nat.min_comm; reflexivity|].
  split; [exact Hmem|].
  split.
  { unfold Qdrant.client_delete.
    rewrite (QdrantFacts.filter_split_length
               (QdrantFacts.id_in (map Qdrant.p_id deleted)) points) at 1.
    unfold deleted at 1, matching at 1.
    rewrite (QdrantFacts.filter_ids_of_selection _ _ _ Hnd). fold matching deleted.
    unfold QdrantFacts.id_in. lia. }
  split.
  { intros p Hp Hm. apply Hmem. split; [exact Hp|]. intro Hd.
    apply QdrantFacts.in_firstn, filter_In in Hd as [_ Hd]. congruence. }
  split.
  { intros Hle p Hp. apply Hmem in Hp as [Hp Hd].
    destruct (Qdrant.must_holds (Qdrant.delete_filter D T) p) eqn:Hm; [|reflexivity].
    exfalso. apply Hd. unfold deleted. rewrite firstn_all2 by exact Hle.
    apply filter_In. auto. }
  intro Hnil. unfold deleted. rewrite Hnil.
  rewrite firstn_nil. cbn [map length]. rewrite QdrantFacts.client_delete_nil. reflexivity.
Qed.

(** Witness: two points of ["doc"]/["u1"] and one of tenant ["u2"]. *)
Lemma delete_document_vectors_precise_witness :
  let points := [cap_point 0; cap_point 1;
                 Qdrant.PointStruct "other" [] (Qdrant.Payload "doc" "u2" "b.pdf" "t" 0 "x")] in
  NoDup (map Qdrant.p_id points) /\
  fst (Qdrant.delete_document_vectors "doc" "u1" points) = Ok 2 /\
  (let matching := filter (Qdrant.must_holds (Qdrant.delete_filter "doc" "u1")) points in
   let deleted := firstn Qdrant.scroll_limit matching in
   fst (Qdrant.delete_document_vectors "doc" "u1" points)
     = Ok (Nat.min (length matching) Qdrant.scroll_limit) /\
   (forall p, In p (snd (Qdrant.delete_document_vectors "doc" "u1" points))
              <-> In p points /\ ~ In p deleted) /\
   length points
     = length (snd (Qdrant.delete_document_vectors "doc" "u1" points)) + length deleted /\
   (forall p, In p points -> Qdrant.must_holds (Qdrant.delete_filter "doc" "u1") p = false ->
              In p (snd (Qdrant.delete_document_vectors "doc" "u1" points))) /\
   (length matching <= Qdrant.scroll_limit ->
    forall p, In p (snd (Qdrant.delete_document_vectors "doc" "u1" points)) ->
              Qdrant.must_holds (Qdrant.delete_filter "doc" "u1") p = false) /\
   (matching = [] ->
    Qdrant.delete_document_vectors "doc" "u1" points = (Ok 0, points))).
Proof.
  intro points.
  assert (Hnd : NoDup (map Qdrant.p_id points)).
  { cbn. repeat constructor; cbn; intuition discriminate. }
  split; [exact Hnd|]. split; [vm_compute; reflexivity|].
  exact (delete_document_vectors_precise "doc" "u1" points Hnd).
Defined.

(** ** Writing chunks to the vector store *)

Module StoreFacts.

Import Qdrant.

(** The [range(0, len(points), batch_size)] slices are the groups of
    [chunks]. *)
Lemma slices_chunks {A} (b : nat) (Hb : 0 < b) (l : list A) : forall m j,
  j + m = (length l + b - 1) / b ->
  map (fun k => firstn b (skipn (k * b) l)) (seq j m) = Embedding.chunks b (skipn (j * b) l).
Proof.
  pose proof (BatchFacts.ceil_bounds b Hb (length l)) as [Hc1 Hc2].
  induction m as [|m IH]; intros j Hjm.
  - cbn [seq map].
    rewrite (proj2 (BatchFacts.skipn_nil_iff (j * b) l)) by (subst; lia).
    reflexivity.
  - cbn [seq map].
    assert (Hlt : j * b < length l) by nia.
    rewrite (BatchFacts.chunks_cons b Hb (skipn (j * b) l))
      by (intro H; apply BatchFacts.skipn_nil_iff in H; lia).
    f_equal. rewrite skipn_skipn. replace (b + j * b) with (S j * b) by lia.
    apply IH. lia.
Qed.

(** The [range(0, len(points), 100)] slices are the groups of 100. *)
Lemma range_slices (points : list point) :
  match py_range 0 (Z.of_nat (length points)) 100 with
  | Ok is => map (fun i => py_slice points i (i + 100)%Z) is = Embedding.chunks 100 points
  | Err _ => False
  end.
Proof.
  assert (Hb : 0 < 100) by lia.
  change 100%Z with (Z.of_nat 100).
  rewrite (BatchFacts.py_range_pos 100 Hb (length points)).
  pose proof (BatchFacts.ceil_bounds 100 Hb (length points)) as [Hc1 Hc2].
  rewrite map_map.
  transitivity (Embedding.chunks 100 (skipn (0 * 100) points)); [|reflexivity].
  rewrite <- (slices_chunks 100 Hb points _ 0 eq_refl).
  set (n := (length points + 100 - 1) / 100) in *.
  apply map_ext_in. intros k Hk. apply in_seq in Hk.
  replace (0 + Z.of_nat k * Z.of_nat 100)%Z with (Z.of_nat (k * 100)) by lia.
  change (fst (Nat.divmod (length points + 100 - 1) 99 0 99)) with n in Hk.
  apply (BatchFacts.py_slice_nat points (k * 100) 100). nia.
Qed.


Section Client.

Variable call_fails : qdrant_call -> option string.
Variable dim_error : nat -> nat -> string.

(** Collection setup and batch writes leave the upsert log and, on a
    collection that has no points while it does not exist, the points as
    they were. *)
Lemma ensure_collection_exists_frame s :
  q_upserts (snd (ensure_collection_exists call_fails s)) = q_upserts s /\
  ((q_vector_size s = None -> q_points s = []) ->
   q_points (snd (ensure_collection_exists call_fails s)) = q_points s) /\
  (fst (ensure_collection_exists call_fails s) = Ok tt ->
   q_vector_size (snd (ensure_collection_exists call_fails s))
   = Some match q_vector_size s with Some n => n | None => 384 end).
Proof.
  unfold ensure_collection_exists, client_call.
  destruct (call_fails GetCollections); [cbn; split; [reflexivity|split; [auto|discriminate]]|].
  destruct (q_vector_size s) as [n|] eqn:Hs.
  - cbn. rewrite Hs. split; [reflexivity|split; auto].
  - destruct (call_fails CreateCollection); [cbn; split; [reflexivity|split; [auto|discriminate]]|].
    destruct (call_fails (CreatePayloadIndex "user_id"));
      [cbn; split; [reflexivity|split; [intro H; rewrite (H eq_refl); reflexivity|discriminate]]|].
    destruct (call_fails (CreatePayloadIndex "document_id")); cbn;
      (split; [reflexivity|split; [intro H; rewrite (H eq_refl); reflexivity|]]).
    + discriminate.
    + reflexivity.
Qed.

Hypothesis Hcalls : forall c, call_fails c = None.



End Client.


Lemma map_fst_combine_seq {A} : forall (l : list A) j,
  map fst (combine (seq j (length l)) l) = seq j (length l).
Proof.
  induction l as [|x l IH]; intro j; [reflexivity|].
  cbn [length seq combine map fst]. f_equal. apply IH.
Qed.

Section Points.

Variable uuid4 : nat -> string.
Variable now : string.
Variables document_id user_id document_name : string.



Lemma make_points_chunk_index chunks embeddings :
  map (fun p => pl_chunk_index (p_payload p))
      (make_points uuid4 now document_id user_id document_name chunks embeddings)
  = seq 0 (Nat.min (length chunks) (length embeddings)).
Proof.
  unfold make_points. rewrite map_map, <- length_combine.
  set (l := combine chunks embeddings).
  transitivity (map fst (combine (seq 0 (length l)) l)); [|apply map_fst_combine_seq].
  apply map_ext. intros [i [c e]]. reflexivity.
Qed.

End Points.

End StoreFacts.




(** C7: once [extract_text_from_file] has returned [text],
    [process_document] either returns the non-empty list [chunk_text text]
    of the splitter's chunks whose stripped length is above 50, in the
    splitter's order, whose points get the [chunk_index] values
    [0, 1, ..., n-1] when stored with one embedding per chunk; or, when
    the stripped text is empty or every chunk is filtered out, it raises
    a [ValueError]. *)
Theorem process_document_chunks (split_text : string -> list string)
  (extract_raw : string -> string -> result string) (file_path file_type text : string)
  (Hext : extract_raw file_path file_type = Ok text) :
  (forall chunks,
     Chunking.process_document split_text extract_raw file_path file_type = Ok chunks ->
     chunks = Chunking.chunk_text split_text text /\
     chunks <> [] /\
     Forall (fun c => 50 < String.length (py_strip c)) chunks /\
     (forall uuid4 now D U name (embeddings : list (list Z)),
        length embeddings = length chunks ->
        map (fun p => Qdrant.pl_chunk_index (Qdrant.p_payload p))
            (Qdrant.make_points uuid4 now D U name chunks embeddings)
        = seq 0 (length chunks))) /\
  (py_strip text = EmptyString \/ Chunking.chunk_text split_text text = [] ->
   exists msg, Chunking.process_document split_text extract_raw file_path file_type
               = Err (Exc ValueError msg)).
Proof.
  unfold Chunking.process_document, Chunking.extract_text_from_file.
  rewrite Hext. unfold Chunking.process_text. split.
  - intros chunks H.
    destruct (String.eqb (py_strip text) EmptyString); [discriminate|].
    destruct (Chunking.chunk_text split_text text) as [|c cs] eqn:E; [discriminate|].
    injection H as <-. split; [reflexivity|]. split; [discriminate|]. split.
    + rewrite <- E. unfold Chunking.chunk_text. apply Forall_forall.
      intros x Hx. apply filter_In in Hx as [_ Hx]. apply Nat.ltb_lt. exact Hx.
    + intros uuid4 now D U name embeddings Heq.
      rewrite StoreFacts.make_points_chunk_index, Heq, Nat.min_id. reflexivity.
  - intros [H|H].
    + rewrite H. eexists. reflexivity.
    + destruct (String.eqb (py_strip text) EmptyString); [eexists; reflexivity|].
      rewrite H. eexists. reflexivity.
Qed.

(** Witness: a splitter returning one 60-character chunk. *)
Lemma process_document_chunks_witness :
  let text := string_of_list_ascii (repeat "a"%char 60) in
  let split_text := fun t : string => [t] in
  let extract_raw := fun _ _ : string => Ok text in
  extract_raw "f.txt"%string "txt"%string = Ok text /\
  Chunking.process_document split_text extract_raw "f.txt" "txt" = Ok [text] /\
  ((forall chunks,
     Chunking.process_document split_text extract_raw "f.txt" "txt" = Ok chunks ->
     chunks = Chunking.chunk_text split_text text /\
     chunks <> [] /\
     Forall (fun c => 50 < String.length (py_strip c)) chunks /\
     (forall uuid4 now D U name (embeddings : list (list Z)),
        length embeddings = length chunks ->
        map (fun p => Qdrant.pl_chunk_index (Qdrant.p_payload p))
            (Qdrant.make_points uuid4 now D U name chunks embeddings)
        = seq 0 (length chunks))) /\
  (py_strip text = EmptyString \/ Chunking.chunk_text split_text text = [] ->
   exists msg, Chunking.process_document split_text extract_raw "f.txt" "txt"
               = Err (Exc ValueError msg))).
Proof.
  intros text split_text extract_raw.
  split; [reflexivity|]. split; [vm_compute; reflexivity|].
  apply (process_document_chunks split_text extract_raw "f.txt" "txt" text).
  reflexivity.
Defined.

(** ** Retention sweep *)

(** C4 (code bug): in [cleanup_old_documents] one [try] covers both
    deletes, so when removing the file of an old document fails, its
    metadata delete is skipped. With one document older than the cutoff,
    a bucket whose [remove] fails and a table that accepts deletes, the
    sweep returns 0 and the row is still in the table, although deleting
    the metadata alone would have succeeded. *)
Lemma cleanup_old_documents_file_failure_keeps_row :
  let s := Supabase.SbState [old_row] ["u1/a.pdf"%string] in
  let storage_remove_ok := fun _ : string => false in
  let metadata_delete_ok := fun _ : string => true in
  (Supabase.row_created_at old_row < 200)%Z /\
  Supabase.cleanup_old_documents storage_remove_ok metadata_delete_ok 200 s = (0, s) /\
  In old_row (Supabase.sb_table
                (snd (Supabase.cleanup_old_documents storage_remove_ok metadata_delete_ok 200 s))) /\
  Supabase.delete_metadata metadata_delete_ok "d1" "u1" s
    = (Ok tt, Supabase.SbState [] ["u1/a.pdf"%string]).
Proof.
  intros s storage_remove_ok metadata_delete_ok.
  split; [reflexivity|]. split; [vm_compute; reflexivity|].
  split; [vm_compute; left; reflexivity|]. vm_compute. reflexivity.
Qed.

(** ** Document status updates *)

Local Open Scope string_scope.

Module StatusFacts.

Import Supabase.

Lemma find_update_document_status now D status em table :
  find (fun r => String.eqb (row_id r) D) (update_document_status now D status em table)
  = option_map (apply_status_update status em now)
      (find (fun r => String.eqb (row_id r) D) table).
Proof.
  induction table as [|r table IH]; [reflexivity|].
  cbn [update_document_status map find] in *.
  destruct (String.eqb (row_id r) D) eqn:E.
  - cbn [row_id apply_status_update]. rewrite E. reflexivity.
  - rewrite E. exact IH.
Qed.

End StatusFacts.

(** C9 counterexample: the calls [error "boom"], [processing],
    [completed] (a failed attempt followed by a successful reprocess)
    leave the document [completed] with the error message ["boom"]. *)
Lemma update_document_status_keeps_stale_error :
  let table' := run_status_updates "t1" "d1"
                  [("error", Some "boom"); ("processing", None); ("completed", None)]
                  [status_row] in
  Upload.doc_status "d1" table' = Some "completed"%string /\
  Upload.doc_error_message "d1" table' = Some (Some "boom"%string).
Proof. split; vm_compute; reflexivity. Qed.

(** C9 (corrected): after any sequence of [update_document_status] calls
    on a document, its status is the status of the last call and its
    [error_message] is the last non-empty message passed along the
    sequence, or the one it had before when no call passed one: a call
    without a message never clears it, whatever the status. *)
Theorem update_document_status_sequence (now D : string)
  (updates : list (string * option string)) (table : list Supabase.doc_row)
  (r : Supabase.doc_row)
  (Hr : find (fun r => String.eqb (Supabase.row_id r) D) table = Some r) :
  Upload.doc_status D (run_status_updates now D updates table)
    = Some (last_status (Supabase.row_status r) updates) /\
  Upload.doc_error_message D (run_status_updates now D updates table)
    = Some (last_error_message (Supabase.row_error_message r) updates).
Proof.
  unfold Upload.doc_status, Upload.doc_error_message, run_status_updates,
    last_status, last_error_message.
  revert table r Hr.
  induction updates as [|[status em] updates IH]; intros table r Hr.
  - cbn [fold_left]. rewrite Hr. split; reflexivity.
  - cbn [fold_left].
    specialize (IH (Supabase.update_document_status now D status em table)
                   (Supabase.apply_status_update status em now r)).
    rewrite StatusFacts.find_update_document_status, Hr in IH.
    specialize (IH eq_refl).
    destruct em as [m|]; [destruct (String.eqb m EmptyString) eqn:Em|];
      cbn [Supabase.apply_status_update Supabase.row_status Supabase.row_error_message] in IH;
      try rewrite Em in IH; exact IH.
Qed.

(** Witness: the sequence of the counterexample. *)
Lemma update_document_status_sequence_witness :
  find (fun r => String.eqb (Supabase.row_id r) "d1") [status_row] = Some status_row /\
  Upload.doc_status "d1"
    (run_status_updates "t1" "d1"
       [("error", Some "boom"); ("processing", None); ("completed", None)] [status_row])
    = Some (last_status (Supabase.row_status status_row)
              [("error", Some "boom"); ("processing", None); ("completed", None)]) /\
  Upload.doc_error_message "d1"
    (run_status_updates "t1" "d1"
       [("error", Some "boom"); ("processing", None); ("completed", None)] [status_row])
    = Some (last_error_message (Supabase.row_error_message status_row)
              [("error", Some "boom"); ("processing", None); ("completed", None)]).
Proof.
  split; [reflexivity|].
  apply (update_document_status_sequence "t1" "d1"
           [("error", Some "boom"); ("processing", None); ("completed", None)]
           [status_row] status_row).
  reflexivity.
Defined.

(** ** Ingestion coordinator *)

Module UploadFacts.

Import Supabase Upload.

Lemma get_document_metadata_find D U table md :
  get_document_metadata D U table = Some md ->
  exists r, find (fun r => String.eqb (row_id r) D) table = Some r.
Proof.
  unfold get_document_metadata.
  induction table as [|x table IH]; [discriminate|]. cbn [find].
  destruct (String.eqb (row_id x) D); [eauto|]. exact IH.
Qed.

Lemma find_after_update now D status em table r :
  find (fun r => String.eqb (row_id r) D) table = Some r ->
  find (fun r => String.eqb (row_id r) D) (update_document_status now D status em table)
  = Some (apply_status_update status em now r).
Proof.
  intro H. rewrite StatusFacts.find_update_document_status, H. reflexivity.
Qed.

Section Run.

Variable now : string.
Variable status_write_ok : string -> bool.
Variable create_signed_url : string -> result (option string).
Variable http_get : string -> result string.
Variable named_temporary_file : string -> result string.
Variable write_file : string -> string -> result unit.
Variable extract_raw : string -> string -> result string.
Variable split_text : string -> list string.
Variable embed_raw : list string -> result (list Embedding.vec).
Variable future_addr : string.
Variable store_raw : list string -> list Embedding.vec -> result nat.

Ltac recorded_err := right; eexists; split; [reflexivity|split; discriminate].

(** The body of the inner [try] either succeeds after writing
    ["completed"], or raises a recordable error and leaves the world as
    it found it. *)
Lemma process_and_store_cases document_id md temp w :
  (exists msg,
     process_and_store now status_write_ok extract_raw split_text embed_raw future_addr store_raw
       document_id md temp w
     = (Ok (Success msg),
        World (update_document_status now document_id "completed" None (w_table w)) (w_tmp w))) \/
  (exists e,
     process_and_store now status_write_ok extract_raw split_text embed_raw future_addr store_raw
       document_id md temp w = (Err e, w) /\ recorded_error e).
Proof.
  unfold process_and_store, Chunking.process_document, Chunking.extract_text_from_file.
  destruct (extract_raw temp (py_lower (row_file_type md))) as [text|e]; [|recorded_err].
  unfold Chunking.process_text.
  destruct (String.eqb (py_strip text) EmptyString); [recorded_err|].
  destruct (Chunking.chunk_text split_text text) as [|c cs]; [recorded_err|].
  unfold get_batch_embeddings.
  destruct (embed_raw (c :: cs)) as [embeddings|e]; [|recorded_err].
  destruct (negb (Nat.eqb (length embeddings) (length (c :: cs)))); [recorded_err|].
  unfold store_document_chunks.
  destruct (store_raw (c :: cs) embeddings) as [n|e]; [|recorded_err].
  unfold update_status.
  destruct (status_write_ok "completed"); [left; eexists; reflexivity|recorded_err].
Qed.

Hypothesis Herr : status_write_ok "error" = true.

(** The [except Exception] handler answers with a failure carrying
    [str(e)] and records ["error"] with that message. *)
Lemma handle_exception_records document_id e w r :
  recorded_error e ->
  find (fun r => String.eqb (row_id r) document_id) (w_table w) = Some r ->
  handle_exception now status_write_ok document_id e w
  = (Ok (Failure "Failed to process document" (exn_str e)),
     World (update_document_status now document_id "error" (Some (exn_str e)) (w_table w))
           (w_tmp w)) /\
  doc_status document_id
    (update_document_status now document_id "error" (Some (exn_str e)) (w_table w))
  = Some "error" /\
  doc_error_message document_id
    (update_document_status now document_id "error" (Some (exn_str e)) (w_table w))
  = Some (Some (exn_str e)).
Proof.
  intros [Hc Hs] Hr.
  unfold doc_status, doc_error_message. rewrite (find_after_update _ _ _ _ _ r Hr).
  cbn [option_map apply_status_update row_status row_error_message].
  destruct (String.eqb (exn_str e) EmptyString) eqn:E;
    [apply String.eqb_eq in E; contradiction|].
  split; [|split; reflexivity].
  unfold handle_exception, update_status. rewrite Herr.
  destruct (exn_cls e); [reflexivity..|contradiction].
Qed.

Hypothesis Hwrite : forall name content, write_file name content = Ok tt.

(** With the write of the content succeeding, the download either
    returns the new temporary file, the one file it adds, or raises a
    recordable error and adds none. *)
Lemma download_cases file_path w :
  (exists name,
     named_temporary_file (py_splitext_ext file_path) = Ok name /\
     download_file_from_storage create_signed_url http_get named_temporary_file write_file
       file_path w = (Ok name, World (w_table w) (name :: w_tmp w))) \/
  (exists e,
     download_file_from_storage create_signed_url http_get named_temporary_file write_file
       file_path w = (Err e, w) /\ recorded_error e).
Proof.
  unfold download_file_from_storage.
  destruct (create_signed_url file_path) as [[signed_url|]|e]; [|recorded_err|recorded_err].
  destruct (String.eqb signed_url EmptyString); [recorded_err|].
  destruct (http_get signed_url) as [content|e]; [|recorded_err].
  destruct (Nat.eqb (String.length content) 0); [recorded_err|].
  destruct (named_temporary_file (py_splitext_ext file_path)) as [name|e] eqn:Hn; [|recorded_err].
  rewrite Hwrite. left. exists name. split; reflexivity.
Qed.

End Run.

End UploadFacts.

(** Once [upload_document] has set a document to ["processing"], given
    that the metadata store accepts the ["error"] update and that writing
    the downloaded content to the temporary file succeeds, the call
    returns a response (it never leaves through another exception); on
    success the document is ["completed"], on failure it is ["error"]
    with the non-empty [str(e)] of the failure as [error_message], which is
    also the response's error; every local temporary file at the end
    already existed before the call, and the file [NamedTemporaryFile]
    created for the download, when new, is not among them. *)
Theorem upload_document_records_outcome (now : string) (status_write_ok : string -> bool)
  (create_signed_url : string -> result (option string)) (http_get : string -> result string)
  (named_temporary_file : string -> result string)
  (write_file : string -> string -> result unit)
  (extract_raw : string -> string -> result string)
  (split_text : string -> list string) (embed_raw : list string -> result (list Embedding.vec))
  (future_addr : string)
  (store_raw : list string -> list Embedding.vec -> result nat)
  (document_id file_path current_user : string) (w : Upload.world) (md : Supabase.doc_row)
  (Hmd : Supabase.get_document_metadata document_id current_user (Upload.w_table w) = Some md)
  (Hproc : status_write_ok "processing" = true)
  (Herr : status_write_ok "error" = true)
  (Hwrite : forall name content, write_file name content = Ok tt) :
  let res := Upload.upload_document now true status_write_ok create_signed_url http_get
               named_temporary_file write_file extract_raw split_text embed_raw future_addr
               store_raw document_id file_path current_user w in
  exists resp, fst res = Ok resp /\
  (Upload.is_success resp = true ->
   Upload.doc_status document_id (Upload.w_table (snd res)) = Some "completed") /\
  (Upload.is_success resp = false ->
   exists msg, msg <> EmptyString /\
   resp = Upload.Failure "Failed to process document" msg /\
   Upload.doc_status document_id (Upload.w_table (snd res)) = Some "error" /\
   Upload.doc_error_message document_id (Upload.w_table (snd res)) = Some (Some msg)) /\
  incl (Upload.w_tmp (snd res)) (Upload.w_tmp w) /\
  (forall name, named_temporary_file (py_splitext_ext file_path) = Ok name ->
   ~ In name (Upload.w_tmp w) -> ~ In name (Upload.w_tmp (snd res))).
Proof.
  intro res. unfold res, Upload.upload_document. cbn [negb]. rewrite Hmd.
  destruct (UploadFacts.get_document_metadata_find _ _ _ _ Hmd) as [r0 Hr0].
  pose proof (UploadFacts.find_after_update now document_id "processing" None _ _ Hr0) as Hr1.
  unfold Upload.update_status. rewrite Hproc. cbv beta iota.
  set (t1 := Supabase.update_document_status now document_id "processing" None (Upload.w_table w)) in *.
  destruct (UploadFacts.download_cases create_signed_url http_get named_temporary_file write_file
              Hwrite file_path (Upload.World t1 (Upload.w_tmp w)))
    as [[temp [Hnt Hd]]|[e0 [Hd He0]]]; rewrite Hd; cbv beta iota.
  - destruct (UploadFacts.process_and_store_cases now status_write_ok extract_raw split_text
                embed_raw future_addr store_raw document_id md temp
                (Upload.World t1 (temp :: Upload.w_tmp w)))
      as [[msg Hps]|[e [Hps He]]];
      cbn [Upload.w_table Upload.w_tmp] in Hps |- *; rewrite Hps.
    + exists (Upload.Success msg). cbn [fst snd Upload.unlink Upload.w_table Upload.w_tmp].
      split; [reflexivity|]. split.
      { intros _. unfold Upload.doc_status.
        rewrite (UploadFacts.find_after_update _ _ _ _ _ _ Hr1). reflexivity. }
      split; [discriminate|]. split.
      { intros f Hf. apply filter_In in Hf as [Hf Hn]. destruct Hf as [<-|Hf]; [|exact Hf].
        rewrite String.eqb_refl in Hn. discriminate. }
      intros name Hname _. rewrite Hnt in Hname. injection Hname as <-. intro Hf.
      apply filter_In in Hf as [_ Hn]. rewrite String.eqb_refl in Hn. discriminate.
    + unfold Upload.unlink. cbn [Upload.w_table Upload.w_tmp].
      destruct (UploadFacts.handle_exception_records now status_write_ok Herr document_id e
                  (Upload.World t1 (filter (fun f => negb (String.eqb f temp))
                                           (temp :: Upload.w_tmp w))) _ He Hr1)
        as [Hh [Hs Hm]].
      rewrite Hh. exists (Upload.Failure "Failed to process document" (exn_str e)).
      cbn [fst snd Upload.w_table Upload.w_tmp].
      split; [reflexivity|]. split; [discriminate|]. split.
      { intros _. exists (exn_str e). split; [apply He|]. auto. }
      split.
      { intros f Hf. apply filter_In in Hf as [Hf Hn]. destruct Hf as [<-|Hf]; [|exact Hf].
        rewrite String.eqb_refl in Hn. discriminate. }
      intros name Hname _. rewrite Hnt in Hname. injection Hname as <-. intro Hf.
      apply filter_In in Hf as [_ Hn]. rewrite String.eqb_refl in Hn. discriminate.
  - destruct (UploadFacts.handle_exception_records now status_write_ok Herr document_id _
                (Upload.World t1 (Upload.w_tmp w)) _ He0 Hr1) as [Hh [Hs Hm]].
    rewrite Hh. eexists. cbn [fst snd Upload.w_table Upload.w_tmp].
    split; [reflexivity|]. split; [discriminate|]. split.
    { intros _. eexists. split; [apply He0|]. auto. }
    split; [intros f Hf; exact Hf|]. intros name _ Hn. exact Hn.
Qed.

(** Witness: a PDF whose embedding provider fails; the document ends in
    ["error"] and the temporary file is removed. *)
Lemma upload_document_records_outcome_witness :
  let row := Supabase.DocRow "d1" "u1" "a.pdf" "u1/a.pdf" "pdf" 100 "uploaded" None "t0" in
  let w := Upload.World [row] [] in
  let status_write_ok := fun _ : string => true in
  let create_signed_url := fun _ : string => Ok (Some "https://storage/signed") in
  let http_get := fun _ : string => Ok "%PDF-1.4" in
  let named_temporary_file := fun suffix : string => Ok ("/tmp/tmpk2j4" ++ suffix) in
  let write_file := fun _ _ : string => Ok tt in
  let extract_raw := fun _ _ : string => Ok (string_of_list_ascii (repeat "a"%char 60)) in
  let split_text := fun t : string => [t] in
  let embed_raw := fun _ : list string => Err (Exc RequestError "timeout") : result (list Embedding.vec) in
  let store_raw := fun (c : list string) (_ : list Embedding.vec) => Ok (length c) in
  let res := Upload.upload_document "t1" true status_write_ok create_signed_url http_get
               named_temporary_file write_file extract_raw split_text embed_raw "0x7f3a2c1e4d90"
               store_raw "d1" "u1/a.pdf" "u1" w in
  Supabase.get_document_metadata "d1" "u1" (Upload.w_table w) = Some row /\
  status_write_ok "processing" = true /\ status_write_ok "error" = true /\
  (forall name content, write_file name content = Ok tt) /\
  Upload.doc_status "d1" (Upload.w_table (snd res)) = Some "error" /\
  (exists resp, fst res = Ok resp /\
   (Upload.is_success resp = true ->
    Upload.doc_status "d1" (Upload.w_table (snd res)) = Some "completed") /\
   (Upload.is_success resp = false ->
    exists msg, msg <> EmptyString /\
    resp = Upload.Failure "Failed to process document" msg /\
    Upload.doc_status "d1" (Upload.w_table (snd res)) = Some "error" /\
    Upload.doc_error_message "d1" (Upload.w_table (snd res)) = Some (Some msg)) /\
   incl (Upload.w_tmp (snd res)) (Upload.w_tmp w) /\
   (forall name, named_temporary_file (py_splitext_ext "u1/a.pdf") = Ok name ->
    ~ In name (Upload.w_tmp w) -> ~ In name (Upload.w_tmp (snd res)))).
Proof.
  intros row w status_write_ok create_signed_url http_get named_temporary_file write_file
    extract_raw split_text embed_raw store_raw res.
  split; [reflexivity|]. split; [reflexivity|]. split; [reflexivity|].
  split; [reflexivity|].
  split; [vm_compute; reflexivity|].
  apply (upload_document_records_outcome "t1" status_write_ok create_signed_url http_get
           named_temporary_file write_file extract_raw split_text embed_raw "0x7f3a2c1e4d90"
           store_raw "d1" "u1/a.pdf" "u1" w row); intros; reflexivity.
Defined.

(** C2 (code bug): [download_file_from_storage] creates the temporary
    file with [NamedTemporaryFile(delete=False)] before writing to it, so
    a failing write raises with the file left on disk and no caller
    removes it; and a failure of the embedding provider is recorded as the
    text of tenacity's [RetryError], which names only the exception class
    of the last attempt, not its message. *)
Theorem upload_document_leaks_temp_file :
  let row := Supabase.DocRow "d1" "u1" "a.pdf" "u1/a.pdf" "pdf" 100 "uploaded" None "t0" in
  let w := Upload.World [row] [] in
  let run write_file embed_raw :=
    Upload.upload_document "t1" true (fun _ => true) (fun _ => Ok (Some "https://storage/signed"))
      (fun _ => Ok "%PDF-1.4") (fun suffix => Ok ("/tmp/tmpk2j4" ++ suffix)) write_file
      (fun _ _ => Ok (string_of_list_ascii (repeat "a"%char 60))) (fun t => [t]) embed_raw
      "0x7f3a2c1e4d90" (fun (c : list string) (_ : list Embedding.vec) => Ok (length c))
      "d1" "u1/a.pdf" "u1" w in
  let leak := run (fun _ _ => Err (Exc Exception "[Errno 28] No space left on device"))
                  (fun c => Ok (map (fun _ => [0%Z]) c)) in
  let retry := run (fun _ _ => Ok tt)
                   (fun _ => Err (Exc Exception "Embedding generation failed: HF API error: 401 - Unauthorized")) in
  fst leak = Ok (Upload.Failure "Failed to process document"
                   "Failed to download file from storage: [Errno 28] No space left on device") /\
  Upload.w_tmp (snd leak) = ["/tmp/tmpk2j4.pdf"] /\
  Upload.doc_status "d1" (Upload.w_table (snd leak)) = Some "error" /\
  Upload.doc_error_message "d1" (Upload.w_table (snd retry)) =
    Some (Some "RetryError[<Future at 0x7f3a2c1e4d90 state=finished raised Exception>]").
Proof.
  intros row w run leak retry.
  repeat split; vm_compute; reflexivity.
Qed.

Local Close Scope string_scope.

(** ** Vector counts of the batched embedding *)

Module GroupFacts.

Import Embedding.

(** A successful run of the groups returns the concatenation of one
    result per group, each as long as its group when [embed] is. *)
Lemma run_groups_groupwise (embed : list string -> M (list vec))
  (Hlen : forall g s vs s', embed g s = (Ok vs, s') -> length vs = length g) :
  forall groups acc s vs s',
  run_groups embed groups acc s = (Ok vs, s') ->
  exists vss, Forall2 (fun g v => length v = length g) groups vss /\ vs = acc ++ concat vss.
Proof.
  induction groups as [|g gs IH]; intros acc s vs s' H.
  - cbn in H. injection H as <- _. exists []. split; [constructor|].
    rewrite app_nil_r. reflexivity.
  - cbn [run_groups] in H. unfold bind in H.
    destruct (embed g s) as [[v|e] s1] eqn:E; [|discriminate].
    apply Hlen in E.
    assert (H' : run_groups embed gs (acc ++ v) (match gs with [] => s1 | _ => snd (sleep 1000%N s1) end)
                 = (Ok vs, s')).
    { destruct gs; exact H. }
    apply IH in H' as [vss [Hf Hv]].
    exists (v :: vss). split; [constructor; assumption|].
    rewrite Hv. cbn [concat]. rewrite app_assoc. reflexivity.
Qed.

End GroupFacts.

(** C3: every group of [get_batch_embeddings] is embedded by
    [get_embeddings], which returns exactly one vector per text of the
    group or raises, so a per-group count mismatch cannot arise: a
    successful result is the concatenation of one result per group, each
    exactly as long as its group (nothing truncated or padded). The one
    explicit count check of the ingestion is the total check of
    [upload_document], which raises on a mismatch. *)
Theorem get_batch_embeddings_group_counts
  (provider : nat -> string -> Embedding.response) (texts : list string) (b : nat)
  (Hb : 0 < b) :
  (forall g s vs s', Embedding.get_embeddings provider g s = (Ok vs, s') ->
                     length vs = length g) /\
  (forall s vs s', Embedding.get_batch_embeddings provider texts (Z.of_nat b) s = (Ok vs, s') ->
   exists vss, Forall2 (fun g v => length v = length g) (Embedding.chunks b texts) vss /\
               vs = concat vss /\ length vs = length texts) /\
  (forall now status_write_ok extract_raw split_text embed_raw future_addr store_raw
          document_id md temp w chunks embeddings,
   Chunking.process_document split_text extract_raw temp
     (py_lower (Supabase.row_file_type md)) = Ok chunks ->
   chunks <> [] ->
   embed_raw chunks = Ok embeddings ->
   length embeddings <> length chunks ->
   Upload.process_and_store now status_write_ok extract_raw split_text embed_raw future_addr store_raw
     document_id md temp w
   = (Err (Exc Exception "Mismatch between number of chunks and embeddings"), w)).
Proof.
  split; [exact (EmbeddingFacts.get_embeddings_length provider)|]. split.
  - intros s vs s' H.
    unfold Embedding.get_batch_embeddings in H.
    rewrite (BatchFacts.get_batch_embeddings_with_spec b Hb) in H.
    unfold Embedding.embed_batched_spec in H.
    apply GroupFacts.run_groups_groupwise in H as [vss [Hf Hv]];
      [|exact (EmbeddingFacts.get_embeddings_length provider)].
    exists vss. split; [exact Hf|]. split; [exact Hv|].
    rewrite Hv. cbn [app].
    rewrite <- (BatchFacts.chunks_concat b Hb (length texts) texts) by lia.
    clear Hv. induction Hf as [|g v gs vss Hgv Hf IH]; [reflexivity|].
    cbn [concat]. rewrite !length_app, Hgv, IH. reflexivity.
  - intros now status_write_ok extract_raw split_text embed_raw future_addr store_raw
      document_id md temp w chunks embeddings Hp Hne He Hl.
    unfold Upload.process_and_store. rewrite Hp.
    destruct chunks as [|c cs]; [contradiction|].
    unfold Upload.get_batch_embeddings. rewrite He.
    apply Nat.eqb_neq in Hl. rewrite Hl. reflexivity.
Qed.

(** Witness: five texts in groups of two. *)
Lemma get_batch_embeddings_group_counts_witness :
  0 < 2 /\
  Embedding.get_batch_embeddings Embedding.ok_provider ["a"; "b"; "c"; "d"; "e"]%string
    (Z.of_nat 2) (Embedding.mkSt 0 []) =
  (Ok [[0%Z]; [1%Z]; [2%Z]; [3%Z]; [4%Z]], snd (Embedding.get_batch_embeddings
     Embedding.ok_provider ["a"; "b"; "c"; "d"; "e"]%string (Z.of_nat 2) (Embedding.mkSt 0 []))) /\
  (exists vss, Forall2 (fun g v => length v = length g)
                 (Embedding.chunks 2 ["a"; "b"; "c"; "d"; "e"]%string) vss /\
               [[0%Z]; [1%Z]; [2%Z]; [3%Z]; [4%Z]] = concat vss /\
               length [[0%Z]; [1%Z]; [2%Z]; [3%Z]; [4%Z]] = 5).
Proof.
  assert (H := get_batch_embeddings_group_counts Embedding.ok_provider
                 ["a"; "b"; "c"; "d"; "e"]%string 2 ltac:(lia)).
  destruct H as [_ [Hg _]].
  assert (E : Embedding.get_batch_embeddings Embedding.ok_provider
                ["a"; "b"; "c"; "d"; "e"]%string (Z.of_nat 2) (Embedding.mkSt 0 []) =
              (Ok [[0%Z]; [1%Z]; [2%Z]; [3%Z]; [4%Z]], snd (Embedding.get_batch_embeddings
                 Embedding.ok_provider ["a"; "b"; "c"; "d"; "e"]%string (Z.of_nat 2)
                 (Embedding.mkSt 0 [])))) by (vm_compute; reflexivity).
  split; [lia|]. split; [exact E|].
  exact (Hg _ _ _ E).
Defined.



(** ** Document queries *)

Module QueryFacts.

Import Supabase Queries.

Lemma insert_created_desc_perm r l : Permutation (insert_created_desc r l) (r :: l).
Proof.
  induction l as [|y l IH]; cbn [insert_created_desc]; [reflexivity|].
  destruct (row_created_at y <? row_created_at r)%Z; [reflexivity|].
  rewrite IH. apply perm_swap.
Qed.

Lemma order_created_at_desc_perm l : Permutation (order_created_at_desc l) l.
Proof.
  induction l as [|r l IH]; cbn [order_created_at_desc fold_right]; [reflexivity|].
  unfold order_created_at_desc in IH.
  rewrite insert_created_desc_perm, IH. reflexivity.
Qed.

Definition newer_first (a b : doc_row) : Prop := (row_created_at b <= row_created_at a)%Z.

Lemma insert_created_desc_sorted r l :
  Sorted newer_first l -> Sorted newer_first (insert_created_desc r l).
Proof.
  induction l as [|y l IH]; intro Hs; cbn [insert_created_desc].
  - repeat constructor.
  - destruct (row_created_at y <? row_created_at r)%Z eqn:E.
    + constructor; [exact Hs|]. constructor. unfold newer_first. apply Z.ltb_lt in E. lia.
    + apply Sorted_inv in Hs as [Hs Hhd]. constructor; [apply IH; exact Hs|].
      apply Z.ltb_ge in E.
      destruct l as [|z l]; cbn [insert_created_desc].
      * constructor. exact E.
      * destruct (row_created_at z <? row_created_at r)%Z; constructor; [exact E|].
        inversion Hhd; assumption.
Qed.

Lemma order_created_at_desc_sorted l : Sorted newer_first (order_created_at_desc l).
Proof.
  induction l as [|r l IH]; [constructor|].
  apply insert_created_desc_sorted. exact IH.
Qed.

Lemma filter_perm {A} (f : A -> bool) l l' :
  Permutation l l' -> Permutation (filter f l) (filter f l').
Proof.
  induction 1 as [|x l l' _ IH|x y l|l l' l'' _ IH1 _ IH2]; cbn [filter].
  - constructor.
  - destruct (f x); [constructor|]; exact IH.
  - destruct (f x), (f y); try constructor; reflexivity.
  - rewrite IH1. exact IH2.
Qed.

End QueryFacts.

(** ** Ownership checks *)

Module AuthFacts.

Import Supabase.

Lemma map_filter_key {A B} (k : A -> B) (g : B -> bool) l :
  map k (filter (fun x => g (k x)) l) = filter g (map k l).
Proof.
  induction l as [|x l IH]; [reflexivity|]. cbn [filter map].
  destruct (g (k x)); cbn [map]; [f_equal|]; exact IH.
Qed.

Lemma existsb_eqb_in (x : string) l : existsb (String.eqb x) l = true <-> In x l.
Proof.
  rewrite existsb_exists. split.
  - intros [y [Hy E]]. apply String.eqb_eq in E. subst. exact Hy.
  - intro H. exists x. split; [exact H|]. apply String.eqb_refl.
Qed.

Lemma nodup_length_lt (l : list string) :
  ~ NoDup l -> length (nodup string_dec l) < length l.
Proof.
  induction l as [|x l IH]; intro Hn; [exfalso; apply Hn; constructor|].
  cbn [nodup length]. destruct (in_dec string_dec x l) as [Hin|Hnin].
  - assert (length (nodup string_dec l) <= length l).
    { apply NoDup_incl_length; [apply NoDup_nodup|]. intros y Hy.
      apply nodup_In in Hy. exact Hy. }
    lia.
  - cbn [length]. assert (~ NoDup l) by (intro Hl; apply Hn; constructor; assumption).
    specialize (IH H). lia.
Qed.

(** The rows whose id is among [ids], with distinct row ids. *)
Lemma data_ids_nodup (rows : list doc_row) ids :
  NoDup (map row_id rows) ->
  NoDup (map row_id (filter (fun r => existsb (String.eqb (row_id r)) ids) rows)).
Proof.
  intro Hnd. rewrite (map_filter_key row_id (fun i => existsb (String.eqb i) ids)).
  apply NoDup_filter. exact Hnd.
Qed.

Lemma data_ids_incl (rows : list doc_row) ids :
  incl (map row_id (filter (fun r => existsb (String.eqb (row_id r)) ids) rows)) ids.
Proof.
  intros i Hi. apply in_map_iff in Hi as [r [<- Hr]].
  apply filter_In in Hr as [_ Hr]. apply existsb_eqb_in. exact Hr.
Qed.

Lemma row_unique (rows : list doc_row) r r' :
  NoDup (map row_id rows) -> In r rows -> In r' rows -> row_id r = row_id r' -> r = r'.
Proof. apply QdrantFacts.nodup_map_eq. Qed.

(** With one row per id, the first row of an id is its row. *)
Lemma verify_one_true (rows : list doc_row) user_id document_id :
  Auth.verify_user_owns_document user_id document_id (Ok rows) = true ->
  exists r, In r rows /\ row_id r = document_id /\ row_user_id r = user_id.
Proof.
  cbn [Auth.verify_user_owns_document].
  destruct (filter (fun r => String.eqb (row_id r) document_id) rows) as [|r rest] eqn:E;
    [discriminate|].
  intro Hu. apply String.eqb_eq in Hu. exists r.
  assert (Hr : In r (filter (fun r => String.eqb (row_id r) document_id) rows))
    by (rewrite E; left; reflexivity).
  apply filter_In in Hr as [Hr Hid]. apply String.eqb_eq in Hid. auto.
Qed.

Lemma get_document_metadata_some (rows : list doc_row) r document_id user_id :
  In r rows -> row_id r = document_id -> row_user_id r = user_id ->
  exists md, get_document_metadata document_id user_id rows = Some md.
Proof.
  intros Hr Hid Hu. unfold get_document_metadata.
  destruct (find _ rows) as [md|] eqn:E; [eexists; reflexivity|].
  exfalso. eapply find_none in E; [|exact Hr].
  rewrite Hid, Hu, !String.eqb_refl in E. discriminate.
Qed.

Lemma verify_many_iff (user_id : string) (document_ids : list string)
  (rows : list doc_row) :
  NoDup (map row_id rows) -> NoDup document_ids ->
  Auth.verify_user_owns_documents user_id document_ids (Ok rows) = true <->
  (forall i, In i document_ids ->
     exists r, In r rows /\ row_id r = i /\ row_user_id r = user_id).
Proof.
  intros Hnd Hids. cbn [Auth.verify_user_owns_documents].
  set (data := filter (fun r => existsb (String.eqb (row_id r)) document_ids) rows).
  pose proof (data_ids_nodup rows document_ids Hnd) as Hdnd. fold data in Hdnd.
  pose proof (data_ids_incl rows document_ids) as Hincl. fold data in Hincl.
  pose proof (NoDup_incl_length Hdnd Hincl) as Hle. rewrite length_map in Hle.
  split.
  - destruct (Nat.eqb (length data) (length document_ids)) eqn:El; cbn [negb]; [|discriminate].
    apply Nat.eqb_eq in El. intros Hall i Hi.
    assert (Hi' : In i (map row_id data)).
    { apply (NoDup_length_incl (l' := document_ids) Hdnd); [rewrite length_map; lia | exact Hincl | exact Hi]. }
    apply in_map_iff in Hi' as [r [Hri Hr]].
    exists r. rewrite forallb_forall in Hall. specialize (Hall r Hr).
    apply String.eqb_eq in Hall. unfold data in Hr. apply filter_In in Hr as [Hr _]. auto.
  - intro Hall.
    assert (Hcov : incl document_ids (map row_id data)).
    { intros i Hi. destruct (Hall i Hi) as [r [Hr [Hri _]]]. apply in_map_iff.
      exists r. split; [exact Hri|]. apply filter_In. split; [exact Hr|].
      apply existsb_eqb_in. rewrite Hri. exact Hi. }
    pose proof (NoDup_incl_length Hids Hcov) as Hge. rewrite length_map in Hge.
    replace (Nat.eqb (length data) (length document_ids)) with true
      by (symmetry; apply Nat.eqb_eq; lia).
    cbn [negb]. apply forallb_forall. intros r Hr.
    unfold data in Hr. apply filter_In in Hr as [Hr Hin].
    apply existsb_eqb_in in Hin.
    destruct (Hall _ Hin) as [r' [Hr' [Hid' Hu']]].
    assert (r = r') as -> by (apply (row_unique rows); auto).
    apply String.eqb_eq. exact Hu'.
Qed.

Lemma verify_many_repeated (user_id : string)
  (document_ids : list string) (rows : list doc_row) :
  NoDup (map row_id rows) -> ~ NoDup document_ids ->
  Auth.verify_user_owns_documents user_id document_ids (Ok rows) = false.
Proof.
  intros Hnd Hdup. cbn [Auth.verify_user_owns_documents].
  set (data := filter (fun r => existsb (String.eqb (row_id r)) document_ids) rows).
  pose proof (data_ids_nodup rows document_ids Hnd) as Hdnd. fold data in Hdnd.
  assert (Hincl : incl (map row_id data) (nodup string_dec document_ids)).
  { intros i Hi. apply nodup_In. apply (data_ids_incl rows document_ids). exact Hi. }
  pose proof (NoDup_incl_length Hdnd Hincl) as Hle. rewrite length_map in Hle.
  pose proof (nodup_length_lt document_ids Hdup) as Hlt.
  replace (Nat.eqb (length data) (length document_ids)) with false
    by (symmetry; apply Nat.eqb_neq; lia).
  reflexivity.
Qed.

End AuthFacts.

(** With one row per document id and a request naming distinct ids,
    [verify_user_owns_documents] holds exactly when every requested id is
    a document of the user; an empty request is accepted. *)
Theorem verify_user_owns_documents_iff (user_id : string) (document_ids : list string)
  (rows : list Supabase.doc_row) :
  NoDup (map Supabase.row_id rows) -> NoDup document_ids ->
  Auth.verify_user_owns_documents user_id document_ids (Ok rows) = true <->
  (forall i, In i document_ids ->
     exists r, In r rows /\ Supabase.row_id r = i /\ Supabase.row_user_id r = user_id).
Proof. apply AuthFacts.verify_many_iff. Qed.

Lemma verify_user_owns_documents_iff_witness :
  NoDup (map Supabase.row_id [old_row]) /\ NoDup ["d1"%string] /\
  (Auth.verify_user_owns_documents "u1" ["d1"%string] (Ok [old_row]) = true <->
   (forall i, In i ["d1"%string] ->
      exists r, In r [old_row] /\ Supabase.row_id r = i /\ Supabase.row_user_id r = "u1"%string)).
Proof.
  assert (H1 : NoDup (map Supabase.row_id [old_row])) by (repeat constructor; intros []).
  assert (H2 : NoDup ["d1"%string]) by (repeat constructor; intros []).
  split; [exact H1|]. split; [exact H2|].
  apply (verify_user_owns_documents_iff "u1" ["d1"%string] [old_row] H1 H2).
Defined.

(** With one row per document id, a request that names an id twice is
    refused by [verify_user_owns_documents], even when the user owns it. *)
Theorem verify_user_owns_documents_repeated_id (user_id : string)
  (document_ids : list string) (rows : list Supabase.doc_row) :
  NoDup (map Supabase.row_id rows) -> ~ NoDup document_ids ->
  Auth.verify_user_owns_documents user_id document_ids (Ok rows) = false.
Proof. apply AuthFacts.verify_many_repeated. Qed.

Lemma verify_user_owns_documents_repeated_id_witness :
  NoDup (map Supabase.row_id [old_row]) /\ ~ NoDup ["d1"%string; "d1"%string] /\
  Auth.verify_user_owns_documents "u1" ["d1"%string; "d1"%string] (Ok [old_row]) = false.
Proof.
  assert (H1 : NoDup (map Supabase.row_id [old_row])) by (repeat constructor; intros []).
  assert (H2 : ~ NoDup ["d1"%string; "d1"%string])
    by (intro H; inversion H as [|? ? Hn]; apply Hn; left; reflexivity).
  split; [exact H1|]. split; [exact H2|].
  apply (verify_user_owns_documents_repeated_id "u1" _ [old_row] H1 H2).
Defined.

(** [get_document] and [delete_document] never answer
    ["Document not found"]: the ownership check already refuses an id
    without a row of the user (403). *)
Theorem document_routes_never_not_found (document_id current_user : string)
  (table : Queries.select) (vectors_ok storage_remove_ok metadata_delete_ok : string -> bool)
  (s : Documents.store) :
  Documents.get_document document_id current_user table
    <> Err (Exc HTTPException "Document not found") /\
  fst (Documents.delete_document vectors_ok storage_remove_ok metadata_delete_ok
         document_id current_user s)
    <> Err (Exc HTTPException "Document not found").
Proof.
  split.
  - unfold Documents.get_document.
    destruct (Auth.verify_user_owns_document current_user document_id table) eqn:Hv;
      cbn [negb]; [|discriminate].
    destruct table as [rows|e]; [|discriminate].
    destruct (AuthFacts.verify_one_true rows _ _ Hv) as [r [Hr [Hid Hu]]].
    destruct (AuthFacts.get_document_metadata_some rows r _ _ Hr Hid Hu) as [md Hmd].
    cbn [Queries.get_document_metadata_query]. rewrite Hmd. discriminate.
  - unfold Documents.delete_document.
    destruct (Auth.verify_user_owns_document _ _ _) eqn:Hv; cbn [negb]; [|discriminate].
    destruct (AuthFacts.verify_one_true _ _ _ Hv) as [r [Hr [Hid Hu]]].
    destruct (AuthFacts.get_document_metadata_some _ r _ _ Hr Hid Hu) as [md Hmd].
    rewrite Hmd.
    destruct (Documents.delete_document_vectors _ _ _ _) as [[n|e] s1];
      destruct (Documents.delete_document_metadata _ _ _ _) as [[u|e'] s3];
      cbn [fst]; discriminate.
Qed.



(** ** Document routes *)

Module DocumentsFacts.

Import Supabase Documents.

Lemma py_slice_nonneg {A} (l : list A) (i k : Z) :
  (0 <= i)%Z -> (0 <= k)%Z ->
  py_slice l i (i + k) = firstn (Z.to_nat k) (skipn (Z.to_nat i) l).
Proof.
  intros Hi Hk.
  destruct (Nat.le_gt_cases (Z.to_nat i) (length l)) as [Hle|Hgt].
  - pose proof (BatchFacts.py_slice_nat l (Z.to_nat i) (Z.to_nat k) Hle) as H.
    rewrite !Z2Nat.id in H by assumption. exact H.
  - unfold py_slice, py_index.
    replace (i <? 0)%Z with false by (symmetry; apply Z.ltb_ge; lia).
    replace (i + k <? 0)%Z with false by (symmetry; apply Z.ltb_ge; lia).
    rewrite (Z.min_r i), (Z.min_r (i + k)) by lia. rewrite Nat2Z.id.
    rewrite (proj2 (BatchFacts.skipn_nil_iff (length l) l)) by lia.
    rewrite (proj2 (BatchFacts.skipn_nil_iff (Z.to_nat i) l)) by lia.
    rewrite !firstn_nil. reflexivity.
Qed.

Lemma apply_status_filter_perm sf l l' :
  Permutation l l' -> Permutation (apply_status_filter sf l) (apply_status_filter sf l').
Proof.
  intro Hp. destruct sf as [s|]; cbn [apply_status_filter]; [|exact Hp].
  destruct (String.eqb s EmptyString); [exact Hp|]. apply QueryFacts.filter_perm. exact Hp.
Qed.

Lemma get_documents_ok row_file_size current_user sf limit offset rows :
  get_documents row_file_size current_user sf limit offset (Ok rows) =
  let documents := apply_status_filter sf
                     (Queries.order_created_at_desc
                        (filter (fun r => String.eqb (row_user_id r) current_user) rows)) in
  let page := py_slice documents offset (offset + limit)%Z in
  ApiReply true ("Retrieved " ++ py_str_nat (length (map (summarize row_file_size) page))
                 ++ " documents")%string
    (Some (DocList (map (summarize row_file_size) page) (length documents))) None.
Proof. reflexivity. Qed.

Lemma strongly_sorted_filter {A} (R : A -> A -> Prop) (f : A -> bool) l :
  StronglySorted R l -> StronglySorted R (filter f l).
Proof.
  induction 1 as [|a l Hs IH Hall]; cbn [filter]; [constructor|].
  destruct (f a); [|exact IH].
  constructor; [exact IH|].
  apply Forall_forall. intros x Hx. apply filter_In in Hx as [Hx _].
  rewrite Forall_forall in Hall. apply Hall. exact Hx.
Qed.

Lemma nodup_map_filter_created {A B} (k : A -> B) (f : A -> bool) l :
  NoDup (map k l) -> NoDup (map k (filter f l)).
Proof.
  induction l as [|x l IH]; cbn [map filter]; intro Hnd; [constructor|].
  apply NoDup_cons_iff in Hnd as [Hnin Hnd].
  destruct (f x); cbn [map]; [|exact (IH Hnd)].
  constructor; [|exact (IH Hnd)].
  intro Hin. apply Hnin. apply in_map_iff in Hin as [y [Hy Hin]].
  apply filter_In in Hin as [Hin _]. rewrite <- Hy. apply in_map. exact Hin.
Qed.

Lemma apply_status_filter_nodup_created sf l :
  NoDup (map row_created_at l) -> NoDup (map row_created_at (apply_status_filter sf l)).
Proof.
  intro H. destruct sf as [s|]; cbn [apply_status_filter]; [|exact H].
  destruct (String.eqb s EmptyString); [exact H|]. apply nodup_map_filter_created. exact H.
Qed.

(** Rows with distinct [created_at] have one newest-first order. *)
Lemma newer_first_unique l1 l2 :
  NoDup (map row_created_at l1) ->
  Permutation l1 l2 ->
  Sorted QueryFacts.newer_first l1 -> Sorted QueryFacts.newer_first l2 -> l1 = l2.
Proof.
  intros Hnd Hp H1 H2.
  apply Sorted_StronglySorted in H1;
    [|intros a b c Hab Hbc; unfold QueryFacts.newer_first in *; lia].
  apply Sorted_StronglySorted in H2;
    [|intros a b c Hab Hbc; unfold QueryFacts.newer_first in *; lia].
  revert Hnd l2 Hp H2.
  induction H1 as [|a l1 Hs1 IH Hall1]; intros Hnd l2 Hp H2.
  - symmetry. apply Permutation_nil. exact Hp.
  - destruct l2 as [|b l2].
    { apply Permutation_sym, Permutation_nil in Hp. discriminate. }
    apply StronglySorted_inv in H2 as [Hs2 Hall2].
    cbn [map] in Hnd. apply NoDup_cons_iff in Hnd as [Hnin Hnd].
    assert (Hab : a = b).
    { destruct (Permutation_in a Hp (or_introl eq_refl)) as [->|Ha2]; [reflexivity|].
      destruct (Permutation_in b (Permutation_sym Hp) (or_introl eq_refl)) as [->|Hb1];
        [reflexivity|].
      rewrite Forall_forall in Hall1, Hall2.
      specialize (Hall1 b Hb1). specialize (Hall2 a Ha2). unfold QueryFacts.newer_first in *.
      exfalso. apply Hnin. replace (row_created_at a) with (row_created_at b) by lia.
      apply in_map. exact Hb1. }
    subst b. f_equal. apply IH; [exact Hnd| |exact Hs2].
    apply Permutation_cons_inv in Hp. exact Hp.
Qed.

(** [dict.get] after [dict[key] = dict.get(key, 0) + 1]. *)
Lemma dict_get_incr k x d :
  dict_get k (dict_incr x d) 0 = dict_get k d 0 + (if String.eqb x k then 1 else 0).
Proof.
  induction d as [|[k' v] d IH]; cbn [dict_incr].
  - unfold dict_get. cbn [find fst]. destruct (String.eqb x k); reflexivity.
  - destruct (String.eqb k' x) eqn:Ex.
    + apply String.eqb_eq in Ex. subst k'. unfold dict_get. cbn [find fst].
      destruct (String.eqb x k); lia.
    + unfold dict_get in *. cbn [find fst]. destruct (String.eqb k' k) eqn:Ek.
      * apply String.eqb_eq in Ek. subst k'.
        destruct (String.eqb x k) eqn:Exk; [|lia].
        apply String.eqb_eq in Exk. subst. rewrite String.eqb_refl in Ex. discriminate.
      * exact IH.
Qed.

Lemma in_keys_incr k x d : In k (map fst (dict_incr x d)) <-> x = k \/ In k (map fst d).
Proof.
  induction d as [|[k' v] d IH]; cbn [dict_incr map fst].
  - cbn. tauto.
  - destruct (String.eqb k' x) eqn:Ex.
    + apply String.eqb_eq in Ex. subst k'. cbn [map fst In]. tauto.
    + cbn [map fst In]. rewrite IH. tauto.
Qed.

Lemma nodup_keys_incr x d : NoDup (map fst d) -> NoDup (map fst (dict_incr x d)).
Proof.
  induction d as [|[k' v] d IH]; intro Hnd; cbn [dict_incr].
  - repeat constructor. intros [].
  - cbn [map fst] in Hnd. inversion Hnd as [|? ? Hn Hnd']; subst.
    destruct (String.eqb k' x) eqn:Ex; cbn [map fst]; constructor; auto.
    rewrite in_keys_incr. intros [E|E]; [|contradiction].
    subst. rewrite String.eqb_refl in Ex. discriminate.
Qed.

Lemma sum_values_incr x d : list_sum (map snd (dict_incr x d)) = S (list_sum (map snd d)).
Proof.
  induction d as [|[k' v] d IH]; cbn [dict_incr].
  - reflexivity.
  - destruct (String.eqb k' x); simpl in *; lia.
Qed.

Definition count_by (field : doc_row -> string) (key : string) (l : list doc_row) : nat :=
  length (filter (fun r => String.eqb (field r) key) l).

Definition sum_sizes (row_file_size : doc_row -> Z) (l : list doc_row) : Z :=
  fold_right (fun r acc => (row_file_size r + acc)%Z) 0%Z l.

(** The invariant of the statistics loop. *)
Definition counts_of (field : doc_row -> string) (init : list (string * nat))
  (l : list doc_row) (d : list (string * nat)) : Prop :=
  (forall k, dict_get k d 0 = dict_get k init 0 + count_by field k l) /\
  (NoDup (map fst init) -> NoDup (map fst d)) /\
  list_sum (map snd d) = list_sum (map snd init) + length l.

Lemma stats_loop row_file_size : forall l sc ts fc,
  let '(sc', ts', fc') := fold_left (stats_step row_file_size) l (sc, ts, fc) in
  counts_of row_status sc l sc' /\ counts_of row_file_type fc l fc' /\
  ts' = (ts + sum_sizes row_file_size l)%Z.
Proof.
  induction l as [|r l IH]; intros sc ts fc.
  - cbn [fold_left]. unfold counts_of, count_by. cbn [filter length sum_sizes fold_right].
    repeat split; intros; lia || auto.
  - cbn [fold_left]. cbn [stats_step].
    specialize (IH (dict_incr (row_status r) sc) (ts + row_file_size r)%Z
                   (dict_incr (row_file_type r) fc)).
    destruct (fold_left _ l _) as [[sc' ts'] fc'].
    destruct IH as [[Hs1 [Hs2 Hs3]] [[Hf1 [Hf2 Hf3]] Ht]].
    unfold counts_of, count_by in *. cbn [filter length sum_sizes fold_right] in *.
    repeat split.
    + intro k. rewrite Hs1, dict_get_incr.
      destruct (String.eqb (row_status r) k); cbn [length]; lia.
    + intro Hnd. apply Hs2. apply nodup_keys_incr. exact Hnd.
    + rewrite Hs3, sum_values_incr. cbn [length]. lia.
    + intro k. rewrite Hf1, dict_get_incr.
      destruct (String.eqb (row_file_type r) k); cbn [length]; lia.
    + intro Hnd. apply Hf2. apply nodup_keys_incr. exact Hnd.
    + rewrite Hf3, sum_values_incr. cbn [length]. lia.
    + rewrite Ht. unfold sum_sizes. cbn [fold_right]. lia.
Qed.

Lemma count_by_perm field k l l' : Permutation l l' -> count_by field k l = count_by field k l'.
Proof.
  intro Hp. unfold count_by. apply Permutation_length. apply QueryFacts.filter_perm. exact Hp.
Qed.

Lemma sum_sizes_perm row_file_size l l' :
  Permutation l l' -> sum_sizes row_file_size l = sum_sizes row_file_size l'.
Proof.
  induction 1; unfold sum_sizes in *; cbn [fold_right] in *; lia.
Qed.

(** The state after a failed or successful delete step. *)
Lemma delete_file_table storage_remove_ok path s :
  sb_table (st_sb (snd (delete_file_from_storage storage_remove_ok path s))) = sb_table (st_sb s).
Proof.
  unfold delete_file_from_storage, Supabase.delete_file_from_storage.
  destruct (storage_remove_ok path); reflexivity.
Qed.

Lemma delete_file_points storage_remove_ok path s :
  st_points (snd (delete_file_from_storage storage_remove_ok path s)) = st_points s.
Proof.
  unfold delete_file_from_storage, Supabase.delete_file_from_storage.
  destruct (storage_remove_ok path); reflexivity.
Qed.

Lemma delete_vectors_table vectors_ok d u s :
  sb_table (st_sb (snd (delete_document_vectors vectors_ok d u s))) = sb_table (st_sb s).
Proof.
  unfold delete_document_vectors. destruct (vectors_ok d); [|reflexivity].
  destruct (Qdrant.delete_document_vectors d u (st_points s)); reflexivity.
Qed.

(** With one row per id, the row of [md]'s id and owner is [md]. *)
Lemma metadata_of_row (rows : list doc_row) md :
  NoDup (map row_id rows) -> In md rows ->
  Auth.verify_user_owns_document (row_user_id md) (row_id md) (Ok rows) = true /\
  get_document_metadata (row_id md) (row_user_id md) rows = Some md.
Proof.
  intros Hnd Hin. split.
  - cbn [Auth.verify_user_owns_document].
    destruct (filter (fun r => String.eqb (row_id r) (row_id md)) rows) as [|r rest] eqn:E.
    + exfalso. assert (Hm : In md (filter (fun r => String.eqb (row_id r) (row_id md)) rows))
        by (apply filter_In; split; [exact Hin|apply String.eqb_refl]).
      rewrite E in Hm. destruct Hm.
    + assert (Hr : In r (filter (fun r => String.eqb (row_id r) (row_id md)) rows))
        by (rewrite E; left; reflexivity).
      apply filter_In in Hr as [Hr Hid]. apply String.eqb_eq in Hid.
      assert (r = md) as -> by (apply (AuthFacts.row_unique rows); auto).
      apply String.eqb_refl.
  - unfold get_document_metadata.
    destruct (find _ rows) as [x|] eqn:E.
    + apply find_some in E as [Hx Hf]. apply andb_true_iff in Hf as [Hid _].
      apply String.eqb_eq in Hid. f_equal. apply (AuthFacts.row_unique rows); auto.
    + exfalso. eapply find_none in E; [|exact Hin].
      rewrite !String.eqb_refl in E. discriminate.
Qed.

Lemma delete_loop_accounts vectors_ok storage_remove_ok metadata_delete_ok current_user :
  forall ids dd fd t s,
  let d := fst (delete_loop vectors_ok storage_remove_ok metadata_delete_ok
                  current_user ids dd fd t s) in
  Permutation (map fst (deleted_documents d) ++ map f_id (failed_documents d))
              (map fst dd ++ map f_id fd ++ ids).
Proof.
  induction ids as [|i ids IH]; intros dd fd t s; cbv zeta in *; cbn [delete_loop].
  - cbn [fst deleted_documents failed_documents]. rewrite app_nil_r. reflexivity.
  - destruct (get_document_metadata i current_user (sb_table (st_sb s))) as [document|].
    + destruct (delete_document_vectors vectors_ok i current_user s) as [[n|e] s1];
        destruct (delete_document_metadata metadata_delete_ok i current_user
                    (snd (delete_file_from_storage storage_remove_ok (row_file_path document) s1)))
          as [[u|e'] s3].
      all: match goal with
           | |- context [delete_loop _ _ _ _ _ ?dd' ?fd' ?t' ?s'] =>
               rewrite (IH dd' fd' t' s')
           end.
      all: rewrite !map_app; cbn [map fst f_id]; rewrite <- !app_assoc; cbn [app].
      all: try reflexivity.
      all: apply Permutation_app_head; apply Permutation_middle.
    + rewrite IH. rewrite !map_app. cbn [map f_id]. rewrite <- !app_assoc. reflexivity.
Qed.

End DocumentsFacts.

(** With a non-negative [offset] and [limit], [get_documents] lists at
    most [limit] documents, each the summary of a row of the user passing
    the status filter; [total_count] is the number of all such rows, and
    an [offset] at or past it lists nothing. *)
Theorem get_documents_page (row_file_size : Supabase.doc_row -> Z) (current_user : string)
  (status_filter : option string) (limit offset : Z) (rows : list Supabase.doc_row) :
  (0 <= limit)%Z -> (0 <= offset)%Z ->
  let matching := Documents.apply_status_filter status_filter
                    (filter (fun r => String.eqb (Supabase.row_user_id r) current_user) rows) in
  match Documents.get_documents row_file_size current_user status_filter limit offset (Ok rows)
  with
  | Documents.ApiReply true _ (Some (Documents.DocList docs total)) None =>
      length docs <= Z.to_nat limit /\
      total = length matching /\
      (forall doc, In doc docs ->
         exists r, In r matching /\ doc = Documents.summarize row_file_size r) /\
      (total <= Z.to_nat offset -> docs = [])
  | _ => False
  end.
Proof.
  intros Hl Ho matching. rewrite DocumentsFacts.get_documents_ok. cbv zeta.
  set (documents := Documents.apply_status_filter status_filter _).
  assert (Hp : Permutation documents matching).
  { apply DocumentsFacts.apply_status_filter_perm. apply QueryFacts.order_created_at_desc_perm. }
  rewrite (DocumentsFacts.py_slice_nonneg documents offset limit Ho Hl).
  repeat split.
  - rewrite length_map, length_firstn. lia.
  - apply Permutation_length. exact Hp.
  - intros doc Hdoc. apply in_map_iff in Hdoc as [r [<- Hr]].
    exists r. split; [|reflexivity].
    apply QdrantFacts.in_firstn in Hr. rewrite <- (firstn_skipn (Z.to_nat offset) documents) in Hp.
    apply (Permutation_in r Hp). apply in_or_app. right. exact Hr.
  - intro Hle. rewrite (proj2 (BatchFacts.skipn_nil_iff _ documents)); [|lia].
    rewrite firstn_nil. reflexivity.
Qed.

Lemma get_documents_page_witness :
  (0 <= 1)%Z /\ (0 <= 0)%Z /\
  match Documents.get_documents (fun _ => 10%Z) "u1" None 1 0 (Ok [old_row; status_row]) with
  | Documents.ApiReply true _ (Some (Documents.DocList docs total)) None =>
      length docs <= Z.to_nat 1 /\
      total = length (Documents.apply_status_filter None
                        (filter (fun r => String.eqb (Supabase.row_user_id r) "u1")
                           [old_row; status_row])) /\
      (forall doc, In doc docs ->
         exists r, In r (Documents.apply_status_filter None
                           (filter (fun r => String.eqb (Supabase.row_user_id r) "u1")
                              [old_row; status_row])) /\
                   doc = Documents.summarize (fun _ => 10%Z) r) /\
      (total <= Z.to_nat 0 -> docs = [])
  | _ => False
  end.
Proof.
  split; [lia|]. split; [lia|].
  exact (get_documents_page (fun _ => 10%Z) "u1" None 1 0 [old_row; status_row]
           ltac:(lia) ltac:(lia)).
Defined.

(** Paging through [get_documents] with a positive [limit] and the
    offsets [0, limit, 2 * limit, ...] up to [total_count] lists every
    matching document exactly once, newest first: when the user's rows
    have distinct [created_at] values, the pages put together are the
    matching documents in their one newest-first order. *)
Theorem get_documents_pages_cover (row_file_size : Supabase.doc_row -> Z)
  (current_user : string) (status_filter : option string) (limit : nat)
  (rows : list Supabase.doc_row) :
  0 < limit ->
  NoDup (map Supabase.row_created_at
           (filter (fun r => String.eqb (Supabase.row_user_id r) current_user) rows)) ->
  forall documents,
    Permutation documents
      (Documents.apply_status_filter status_filter
         (filter (fun r => String.eqb (Supabase.row_user_id r) current_user) rows)) ->
    Sorted QueryFacts.newer_first documents ->
    concat (map (fun k =>
                   match Documents.data (Documents.get_documents row_file_size current_user
                           status_filter (Z.of_nat limit) (Z.of_nat (k * limit)) (Ok rows)) with
                   | Some dl => Documents.documents dl
                   | None => []
                   end)
                (seq 0 ((length documents + limit - 1) / limit)))
    = map (Documents.summarize row_file_size) documents.
Proof.
  intros Hb Hnd documents Hpd Hsd.
  set (sorted := Queries.order_created_at_desc
                   (filter (fun r => String.eqb (Supabase.row_user_id r) current_user) rows)).
  set (docs := Documents.apply_status_filter status_filter sorted).
  assert (Hp : Permutation docs
                 (Documents.apply_status_filter status_filter
                    (filter (fun r => String.eqb (Supabase.row_user_id r) current_user) rows)))
    by (apply DocumentsFacts.apply_status_filter_perm;
        apply QueryFacts.order_created_at_desc_perm).
  assert (Hs : Sorted QueryFacts.newer_first docs).
  { assert (Hs : Sorted QueryFacts.newer_first sorted)
      by apply QueryFacts.order_created_at_desc_sorted.
    unfold docs.
    destruct status_filter as [st|]; cbn [Documents.apply_status_filter]; [|exact Hs].
    destruct (String.eqb st EmptyString); [exact Hs|].
    apply StronglySorted_Sorted. apply DocumentsFacts.strongly_sorted_filter.
    apply Sorted_StronglySorted; [|exact Hs].
    intros a b c Hab Hbc. unfold QueryFacts.newer_first in *. lia. }
  assert (Heq : docs = documents).
  { apply DocumentsFacts.newer_first_unique; [| |exact Hs|exact Hsd].
    - apply (Permutation_NoDup (Permutation_map _ (Permutation_sym Hp))).
      apply DocumentsFacts.apply_status_filter_nodup_created. exact Hnd.
    - exact (Permutation_trans Hp (Permutation_sym Hpd)). }
  subst documents.
  transitivity (concat (map (fun k => map (Documents.summarize row_file_size)
                                         (firstn limit (skipn (k * limit) docs)))
                            (seq 0 ((length docs + limit - 1) / limit)))).
  - f_equal. apply map_ext. intro k.
    rewrite DocumentsFacts.get_documents_ok. cbv zeta. cbn [Documents.data].
    fold sorted. fold docs.
    rewrite (DocumentsFacts.py_slice_nonneg docs (Z.of_nat (k * limit)) (Z.of_nat limit))
      by lia.
    rewrite !Nat2Z.id. reflexivity.
  - rewrite <- (map_map (fun k => firstn limit (skipn (k * limit) docs))
                  (map (Documents.summarize row_file_size))).
    rewrite <- concat_map. f_equal.
    rewrite (StoreFacts.slices_chunks limit Hb docs _ 0 eq_refl).
    cbn [Nat.mul skipn].
    apply (BatchFacts.chunks_concat limit Hb (length docs)). lia.
Qed.

(** Witness: two documents of one user, one page each, newest first. *)
Lemma get_documents_pages_cover_witness :
  let new_row := Supabase.DocRow "d2" "u1" "b.pdf" "u1/b.pdf" "pdf" 200 "completed" None "t1" in
  0 < 1 /\
  NoDup (map Supabase.row_created_at
           (filter (fun r => String.eqb (Supabase.row_user_id r) "u1") [old_row; new_row])) /\
  Permutation [new_row; old_row]
    (Documents.apply_status_filter None
       (filter (fun r => String.eqb (Supabase.row_user_id r) "u1") [old_row; new_row])) /\
  Sorted QueryFacts.newer_first [new_row; old_row] /\
  concat (map (fun k =>
                 match Documents.data (Documents.get_documents (fun _ => 10%Z) "u1"
                         None (Z.of_nat 1) (Z.of_nat (k * 1)) (Ok [old_row; new_row])) with
                 | Some dl => Documents.documents dl
                 | None => []
                 end)
              (seq 0 ((length [new_row; old_row] + 1 - 1) / 1)))
  = map (Documents.summarize (fun _ => 10%Z)) [new_row; old_row].
Proof.
  intro new_row.
  assert (Hnd : NoDup (map Supabase.row_created_at
                  (filter (fun r => String.eqb (Supabase.row_user_id r) "u1") [old_row; new_row])))
    by (cbn; apply NoDup_cons; [intros [H|[]]; discriminate|
                                apply NoDup_cons; [intros []|apply NoDup_nil]]).
  assert (Hp : Permutation [new_row; old_row]
                 (Documents.apply_status_filter None
                    (filter (fun r => String.eqb (Supabase.row_user_id r) "u1")
                       [old_row; new_row])))
    by (cbn; apply perm_swap).
  assert (Hs : Sorted QueryFacts.newer_first [new_row; old_row])
    by (repeat constructor; unfold QueryFacts.newer_first; cbn; lia).
  split; [lia|]. split; [exact Hnd|]. split; [exact Hp|]. split; [exact Hs|].
  exact (get_documents_pages_cover (fun _ => 10%Z) "u1" None 1 [old_row; new_row]
           ltac:(lia) Hnd [new_row; old_row] Hp Hs).
Defined.

(** For a document [md] of the table (one row per id),
    [delete_document] by its owner always reaches the metadata delete:
    vector and file failures are swallowed.  If the metadata delete
    succeeds the answer is a success, the row is gone and the reported
    vector count is 0 when the vector delete failed; if it fails the
    answer is a failure, the row stays, and the vectors are deleted all
    the same. *)
Theorem delete_document_outcome (vectors_ok storage_remove_ok metadata_delete_ok : string -> bool)
  (md : Supabase.doc_row) (s : Documents.store) :
  NoDup (map Supabase.row_id (Supabase.sb_table (Documents.st_sb s))) ->
  In md (Supabase.sb_table (Documents.st_sb s)) ->
  let d := Supabase.row_id md in
  let u := Supabase.row_user_id md in
  let '(r, s') := Documents.delete_document vectors_ok storage_remove_ok metadata_delete_ok d u s in
  Documents.st_points s' =
    (if vectors_ok d then snd (Qdrant.delete_document_vectors d u (Documents.st_points s))
     else Documents.st_points s) /\
  (if metadata_delete_ok d then
     (exists n, r = Ok (Documents.ApiReply true "Document deleted successfully"
                          (Some (Documents.DeleteData d n
                                   ("Deleted document '" ++ Supabase.row_name md ++ "' and "
                                    ++ py_str_nat n ++ " vectors")%string)) None) /\
                (vectors_ok d = false -> n = 0)) /\
     Supabase.sb_table (Documents.st_sb s') =
       Supabase.delete_document_metadata d u (Supabase.sb_table (Documents.st_sb s)) /\
     ~ In md (Supabase.sb_table (Documents.st_sb s'))
   else
     r = Ok (Documents.ApiReply false "Failed to delete document" None
               (Some "Failed to delete document metadata: ..."%string)) /\
     Supabase.sb_table (Documents.st_sb s') = Supabase.sb_table (Documents.st_sb s)).
Proof.
  intros Hnd Hin d u.
  destruct (DocumentsFacts.metadata_of_row _ md Hnd Hin) as [Hv Hmd].
  unfold Documents.delete_document. fold d u in Hv, Hmd. rewrite Hv, Hmd. cbn [negb].
  destruct (Qdrant.delete_document_vectors d u (Documents.st_points s)) as [r0 pts] eqn:Eq.
  pose proof (QdrantFacts.delete_document_vectors_eq d u (Documents.st_points s)) as Eq'.
  rewrite Eq in Eq'. injection Eq' as Hr0 Hpts. subst r0.
  unfold Documents.delete_document_vectors. rewrite Eq.
  destruct (vectors_ok d) eqn:Hvo;
    unfold Documents.delete_file_from_storage, Supabase.delete_file_from_storage;
    destruct (storage_remove_ok (Supabase.row_file_path md));
    unfold Documents.delete_document_metadata, Supabase.delete_metadata;
    destruct (metadata_delete_ok d);
    cbn [snd fst Documents.st_points Documents.st_sb Supabase.sb_table].
  all: repeat split; try reflexivity.
  all: try (eexists; split; [reflexivity|]; intro; try discriminate; reflexivity).
  all: intro Hm; unfold Supabase.delete_document_metadata in Hm; apply filter_In in Hm as [_ Hm];
       unfold d, u in Hm; rewrite !String.eqb_refl in Hm; discriminate.
Qed.

Lemma delete_document_outcome_witness :
  NoDup (map Supabase.row_id (Supabase.sb_table
           (Documents.st_sb (Documents.Store [] (Supabase.SbState [old_row] ["u1/a.pdf"%string]))))) /\
  In old_row (Supabase.sb_table
           (Documents.st_sb (Documents.Store [] (Supabase.SbState [old_row] ["u1/a.pdf"%string])))) /\
  let s := Documents.Store [] (Supabase.SbState [old_row] ["u1/a.pdf"%string]) in
  let d := Supabase.row_id old_row in
  let u := Supabase.row_user_id old_row in
  let '(r, s') := Documents.delete_document (fun _ => false) (fun _ => false) (fun _ => true) d u s in
  Documents.st_points s' =
    (if (fun _ : string => false) d then snd (Qdrant.delete_document_vectors d u (Documents.st_points s))
     else Documents.st_points s) /\
  (if (fun _ : string => true) d then
     (exists n, r = Ok (Documents.ApiReply true "Document deleted successfully"
                          (Some (Documents.DeleteData d n
                                   ("Deleted document '" ++ Supabase.row_name old_row ++ "' and "
                                    ++ py_str_nat n ++ " vectors")%string)) None) /\
                ((fun _ : string => false) d = false -> n = 0)) /\
     Supabase.sb_table (Documents.st_sb s') =
       Supabase.delete_document_metadata d u (Supabase.sb_table (Documents.st_sb s)) /\
     ~ In old_row (Supabase.sb_table (Documents.st_sb s'))
   else
     r = Ok (Documents.ApiReply false "Failed to delete document" None
               (Some "Failed to delete document metadata: ..."%string)) /\
     Supabase.sb_table (Documents.st_sb s') = Supabase.sb_table (Documents.st_sb s)).
Proof.
  assert (H1 : NoDup (map Supabase.row_id [old_row])) by (repeat constructor; intros []).
  assert (H2 : In old_row [old_row]) by (left; reflexivity).
  split; [exact H1|]. split; [exact H2|].
  exact (delete_document_outcome (fun _ => false) (fun _ => false) (fun _ => true) old_row
           (Documents.Store [] (Supabase.SbState [old_row] ["u1/a.pdf"%string])) H1 H2).
Defined.

(** [delete_multiple_documents] answers 400 to an empty list, 403 when
    the ownership check fails, and otherwise a reply whose deleted and
    failed documents together list each requested id exactly once, with
    [success] set exactly when at least one document was deleted. *)
Theorem delete_multiple_documents_accounting
  (vectors_ok storage_remove_ok metadata_delete_ok : string -> bool)
  (document_ids : list string) (current_user : string) (s : Documents.store) :
  let '(r, s') := Documents.delete_multiple_documents vectors_ok storage_remove_ok
                    metadata_delete_ok document_ids current_user s in
  match document_ids with
  | [] => r = Err (Exc HTTPException "No document IDs provided") /\ s' = s
  | _ =>
      if Auth.verify_user_owns_documents current_user document_ids
           (Ok (Supabase.sb_table (Documents.st_sb s)))
      then
        exists msg dd,
          r = Ok (Documents.ApiReply (0 <? length (Documents.deleted_documents dd)) msg
                    (Some dd) None) /\
          Permutation (map fst (Documents.deleted_documents dd)
                       ++ map Documents.f_id (Documents.failed_documents dd)) document_ids
      else
        r = Err (Exc HTTPException
                   "You don't have permission to delete one or more specified documents")
        /\ s' = s
  end.
Proof.
  unfold Documents.delete_multiple_documents.
  destruct document_ids as [|i ids]; [cbn beta iota; split; reflexivity|].
  destruct (Auth.verify_user_owns_documents _ _ _); cbn [negb];
    [|cbn beta iota; split; reflexivity].
  pose proof (DocumentsFacts.delete_loop_accounts vectors_ok storage_remove_ok
                metadata_delete_ok current_user (i :: ids) [] [] 0 s) as Hp.
  destruct (Documents.delete_loop _ _ _ _ _ _ _ _ _) as [dd s'].
  cbn [fst map app] in Hp. cbn beta iota zeta.
  eexists. exists dd. split; [reflexivity|exact Hp].
Qed.

(** With one row per document id, [delete_multiple_documents] refuses
    a list that names an id twice (403) and deletes nothing. *)
Theorem delete_multiple_documents_repeated_id
  (vectors_ok storage_remove_ok metadata_delete_ok : string -> bool)
  (document_ids : list string) (current_user : string) (s : Documents.store) :
  NoDup (map Supabase.row_id (Supabase.sb_table (Documents.st_sb s))) ->
  ~ NoDup document_ids ->
  Documents.delete_multiple_documents vectors_ok storage_remove_ok metadata_delete_ok
    document_ids current_user s
  = (Err (Exc HTTPException "You don't have permission to delete one or more specified documents"), s).
Proof.
  intros Hnd Hdup. unfold Documents.delete_multiple_documents.
  destruct document_ids as [|i ids]; [exfalso; apply Hdup; constructor|].
  rewrite (AuthFacts.verify_many_repeated current_user (i :: ids) _ Hnd Hdup).
  reflexivity.
Qed.

Lemma delete_multiple_documents_repeated_id_witness :
  let s := Documents.Store [] (Supabase.SbState [old_row] []) in
  NoDup (map Supabase.row_id (Supabase.sb_table (Documents.st_sb s))) /\
  ~ NoDup ["d1"%string; "d1"%string] /\
  Documents.delete_multiple_documents (fun _ => true) (fun _ => true) (fun _ => true)
    ["d1"%string; "d1"%string] "u1" s
  = (Err (Exc HTTPException "You don't have permission to delete one or more specified documents"), s).
Proof.
  intro s.
  assert (H1 : NoDup (map Supabase.row_id (Supabase.sb_table (Documents.st_sb s))))
    by (repeat constructor; intros []).
  assert (H2 : ~ NoDup ["d1"%string; "d1"%string])
    by (intro H; inversion H as [|? ? Hn]; apply Hn; left; reflexivity).
  split; [exact H1|]. split; [exact H2|].
  exact (delete_multiple_documents_repeated_id (fun _ => true) (fun _ => true) (fun _ => true)
           _ "u1" s H1 H2).
Defined.

(** The statistics of [get_document_stats] count the user's rows:
    [total_documents] is their number, [status_breakdown] and
    [file_type_breakdown] have distinct keys, give each status (file type)
    its number of rows and sum to [total_documents], the completed,
    processing and error counts are those of the breakdown, and
    [total_size_bytes] is the sum of the file sizes. *)
Theorem get_document_stats_counts (row_file_size : Supabase.doc_row -> Z)
  (current_user : string) (rows : list Supabase.doc_row) :
  let mine := filter (fun r => String.eqb (Supabase.row_user_id r) current_user) rows in
  exists st,
    Documents.get_document_stats row_file_size current_user (Ok rows) =
      Documents.ApiReply true "Document statistics retrieved successfully" (Some st) None /\
    Documents.total_documents st = length mine /\
    (forall status, Documents.dict_get status (Documents.status_breakdown st) 0
                    = DocumentsFacts.count_by Supabase.row_status status mine) /\
    (forall ft, Documents.dict_get ft (Documents.file_type_breakdown st) 0
                = DocumentsFacts.count_by Supabase.row_file_type ft mine) /\
    NoDup (map fst (Documents.status_breakdown st)) /\
    NoDup (map fst (Documents.file_type_breakdown st)) /\
    list_sum (map snd (Documents.status_breakdown st)) = Documents.total_documents st /\
    list_sum (map snd (Documents.file_type_breakdown st)) = Documents.total_documents st /\
    Documents.completed_documents st = DocumentsFacts.count_by Supabase.row_status "completed" mine /\
    Documents.processing_documents st = DocumentsFacts.count_by Supabase.row_status "processing" mine /\
    Documents.error_documents st = DocumentsFacts.count_by Supabase.row_status "error" mine /\
    Documents.total_size_bytes st = DocumentsFacts.sum_sizes row_file_size mine.
Proof.
  intro mine. unfold Documents.get_document_stats. cbn [Queries.get_user_documents].
  set (documents := Queries.order_created_at_desc _).
  assert (Hp : Permutation documents mine) by apply QueryFacts.order_created_at_desc_perm.
  pose proof (DocumentsFacts.stats_loop row_file_size documents [] 0%Z []) as Hl.
  destruct (fold_left _ documents _) as [[sc ts] fc].
  destruct Hl as [[Hs1 [Hs2 Hs3]] [[Hf1 [Hf2 Hf3]] Ht]].
  eexists. split; [reflexivity|].
  cbn [Documents.total_documents Documents.status_breakdown Documents.file_type_breakdown
       Documents.completed_documents Documents.processing_documents Documents.error_documents
       Documents.total_size_bytes].
  assert (Hlen : length documents = length mine) by (apply Permutation_length; exact Hp).
  assert (Hc : forall f k, DocumentsFacts.count_by f k documents = DocumentsFacts.count_by f k mine)
    by (intros; apply DocumentsFacts.count_by_perm; exact Hp).
  repeat split.
  - exact Hlen.
  - intro k. rewrite Hs1. rewrite Hc. reflexivity.
  - intro k. rewrite Hf1. rewrite Hc. reflexivity.
  - apply Hs2. constructor.
  - apply Hf2. constructor.
  - rewrite Hs3. cbn [map list_sum fold_right]. lia.
  - rewrite Hf3. cbn [map list_sum fold_right]. lia.
  - rewrite Hs1, Hc. reflexivity.
  - rewrite Hs1, Hc. reflexivity.
  - rewrite Hs1, Hc. reflexivity.
  - rewrite Ht. rewrite (DocumentsFacts.sum_sizes_perm row_file_size _ _ Hp). lia.
Qed.



(** ** Questions *)

Module AskFacts.

Import Supabase Qdrant.

Lemma nodup_map_filter {A B} (k : A -> B) (f : A -> bool) l :
  NoDup (map k l) -> NoDup (map k (filter f l)).
Proof.
  induction l as [|x l IH]; intro Hnd; cbn [filter]; [constructor|].
  cbn [map] in Hnd. inversion Hnd as [|? ? Hn Hnd']; subst.
  destruct (f x); [|apply IH; exact Hnd'].
  cbn [map]. constructor; [|apply IH; exact Hnd'].
  intro Hin. apply Hn. apply in_map_iff in Hin as [y [Hy Hin]].
  apply filter_In in Hin as [Hin _]. rewrite <- Hy. apply in_map. exact Hin.
Qed.

(** A successful validation has found every requested id among the
    user's completed documents. *)
Lemma validate_documents_ok (document_ids : list string) current_user (rows : list doc_row) :
  NoDup (map row_id rows) ->
  Ask.validate_documents document_ids current_user (Ok rows) = Ok tt ->
  forall i, In i document_ids ->
  exists d, In d rows /\ row_id d = i /\ row_user_id d = current_user
            /\ row_status d = "completed"%string.
Proof.
  intros Hnd Hv i Hi.
  destruct document_ids as [|i0 ids]; [destruct Hi|].
  unfold Ask.validate_documents in Hv. cbn [Queries.get_document_by_ids] in Hv.
  set (f := fun r => existsb (String.eqb (row_id r)) (i0 :: ids)
                     && String.eqb (row_user_id r) current_user) in Hv.
  destruct (negb (Nat.eqb (length (filter f rows)) (length (i0 :: ids)))) eqn:Hlen;
    [discriminate|].
  apply negb_false_iff, Nat.eqb_eq in Hlen.
  destruct (filter (fun doc => negb (String.eqb (row_status doc) "completed"))
              (filter f rows)) as [|x rest] eqn:Hinc; [|discriminate].
  assert (Hincl : incl (map row_id (filter f rows)) (i0 :: ids)).
  { intros j Hj. apply in_map_iff in Hj as [r [<- Hr]].
    apply filter_In in Hr as [_ Hr]. unfold f in Hr.
    apply andb_true_iff in Hr as [Hr _]. apply AuthFacts.existsb_eqb_in. exact Hr. }
  assert (Hcover : incl (i0 :: ids) (map row_id (filter f rows))).
  { apply (NoDup_length_incl (l' := i0 :: ids)); [apply nodup_map_filter; exact Hnd| |exact Hincl].
    rewrite length_map. lia. }
  apply Hcover in Hi. apply in_map_iff in Hi as [d [<- Hd]].
  exists d. apply filter_In in Hd as [Hd Hfd]. split; [exact Hd|]. split; [reflexivity|].
  pose proof Hfd as Hu. unfold f in Hu.
  apply andb_true_iff in Hu as [_ Hu]. apply String.eqb_eq in Hu.
  split; [exact Hu|].
  destruct (String.eqb (row_status d) "completed") eqn:Hc; [apply String.eqb_eq; exact Hc|].
  exfalso.
  assert (Hm : In d (filter (fun doc => negb (String.eqb (row_status doc) "completed"))
                       (filter f rows))).
  { apply filter_In. split; [apply filter_In; split; assumption|].
    rewrite Hc. reflexivity. }
  rewrite Hinc in Hm. destruct Hm.
Qed.

Lemma search_results_origin similarity points query_embedding user_id document_ids limit
  results :
  search_similar_chunks similarity points query_embedding user_id document_ids limit
  = Ok results ->
  length results <= limit /\
  forall c, In c results ->
  exists p, In p points /\ must_holds (build_search_filter user_id document_ids) p = true /\
    r_document_id c = pl_document_id (p_payload p) /\
    r_document_name c = pl_document_name (p_payload p) /\
    r_text c = pl_chunk_text (p_payload p) /\
    r_score c = similarity query_embedding (p_vector p).
Proof.
  unfold search_similar_chunks, client_search. intro H. injection H as <-. split.
  - rewrite length_map, length_firstn. lia.
  - intros c Hc. apply in_map_iff in Hc as [sp [<- Hsp]].
    apply QdrantFacts.in_firstn, (proj1 (QdrantFacts.in_sort_by_score _ _)) in Hsp.
    apply in_map_iff in Hsp as [p [<- Hp]]. apply filter_In in Hp as [Hp Hm].
    exists p. repeat split; assumption || reflexivity.
Qed.

(** The [document_id] condition of a search restricted to a non-empty
    list of documents. *)
Lemma must_holds_doc_ids user_id ids p :
  must_holds (build_search_filter user_id (DocIdsList ids)) p = true -> ids <> [] ->
  In (pl_document_id (p_payload p)) ids.
Proof.
  intros Hm Hne. destruct ids as [|x [|y ys]]; [congruence| |].
  - cbn in Hm. rewrite !andb_true_iff in Hm. destruct Hm as [_ [Hm _]].
    apply String.eqb_eq in Hm. left. symmetry. exact Hm.
  - cbn in Hm. rewrite !andb_true_iff in Hm. destruct Hm as [_ [Hm _]].
    apply AuthFacts.existsb_eqb_in. exact Hm.
Qed.

(** [save_chat] only appends messages of the user, at most two. *)
Lemma save_chat_appends create_chat_session save_message_ok current_user question answer
  source_chunks log :
  exists msgs,
    Ask.save_chat create_chat_session save_message_ok current_user question answer
      source_chunks log = log ++ msgs /\
    length msgs <= 2 /\ Forall (fun m => Ask.m_user_id m = current_user) msgs.
Proof.
  unfold Ask.save_chat, Ask.save_message.
  destruct (create_chat_session _ _) as [sid|e];
    [|exists []; rewrite app_nil_r; split; [reflexivity|split; [cbn; lia|constructor]]].
  destruct (save_message_ok "user"%string).
  - destruct (save_message_ok "assistant"%string); cbn [snd].
    + eexists. rewrite <- app_assoc. split; [reflexivity|].
      split; [cbn; lia|]. repeat constructor.
    + eexists. split; [reflexivity|]. split; [cbn; lia|]. repeat constructor.
  - exists []. rewrite app_nil_r. split; [reflexivity|split; [cbn; lia|constructor]].
Qed.

(** The [except] branches of [ask_question] answer an error, or a reply
    without data. *)
Ltac on_err Hask Hd :=
  lazymatch type of Hask with
  | match exn_cls ?e with _ => _ end = _ =>
      destruct (exn_cls e); try discriminate Hask; injection Hask as <- _; discriminate Hd
  | _ => cbn in Hask; try discriminate Hask; injection Hask as <- _; discriminate Hd
  end.

Lemma length_substring_0 : forall m s, String.length (substring 0 m s) <= m.
Proof.
  induction m as [|m IH]; intro s; [destruct s; cbn; lia|].
  destruct s as [|c s]; cbn [substring String.length]; [lia|].
  specialize (IH s). lia.
Qed.

Lemma length_append (s t : string) :
  String.length (s ++ t) = String.length s + String.length t.
Proof. induction s as [|c s IH]; cbn; [reflexivity|]. rewrite IH. reflexivity. Qed.

Lemma source_text_length t : String.length (Ask.source_text t) <= 503.
Proof.
  unfold Ask.source_text. destruct (500 <? String.length t) eqn:E.
  - rewrite length_append. pose proof (length_substring_0 500 t). cbn [String.length]. lia.
  - apply Nat.ltb_ge in E. lia.
Qed.

End AskFacts.

(** When [ask_question] answers a success, every requested document
    (one row per id) is a document of the user whose status is
    ["completed"]: the route never answers over missing, foreign or
    unfinished documents. *)
Theorem ask_question_documents_ready
  (get_single_embedding : string -> result (list Z)) (similarity : list Z -> list Z -> Z)
  (generate_content : string -> result string)
  (create_chat_session : string -> string -> result string) (save_message_ok : string -> bool)
  (question : string) (document_ids : list string) (current_user : string)
  (rows : list Supabase.doc_row) (points : list Qdrant.point) (log : list Ask.message)
  (r : Documents.api_reply Ask.question_response) (log' : list Ask.message) :
  NoDup (map Supabase.row_id rows) ->
  Ask.ask_question get_single_embedding similarity generate_content create_chat_session
    save_message_ok question document_ids current_user (Ok rows) points log = (Ok r, log') ->
  Documents.success r = true ->
  forall i, In i document_ids ->
  exists d, In d rows /\ Supabase.row_id d = i /\ Supabase.row_user_id d = current_user /\
            Supabase.row_status d = "completed"%string.
Proof.
  intros Hnd Hask Hs. apply (AskFacts.validate_documents_ok _ _ _ Hnd).
  unfold Ask.ask_question in Hask. cbv zeta in Hask.
  destruct (negb _ && negb _); [discriminate Hask|].
  destruct (Ask.validate_documents _ _ _) as [[]|e]; [reflexivity|exfalso].
  destruct (exn_cls e); try discriminate Hask; injection Hask as <- _; discriminate Hs.
Qed.

Lemma ask_question_documents_ready_witness :
  NoDup (map Supabase.row_id [old_row]) /\
  Ask.ask_question (fun _ => Ok [1%Z]) (fun _ _ => 1%Z) (fun _ => Ok " An answer. "%string)
    (fun _ _ => Ok "s1"%string) (fun _ => true) "What?" ["d1"%string] "u1" (Ok [old_row])
    [Qdrant.PointStruct "p1" [1%Z] (Qdrant.Payload "d1" "u1" "a.pdf" "some text" 0 "t")] []
  = (Ok (Documents.ApiReply true "Question answered successfully"
           (Some (Ask.QuestionResponse "An answer."
                    [Ask.SourceChunk "d1" "a.pdf" "some text" 1] "What?")) None),
     [Ask.Message "s1" "u1" "What?" "user" None;
      Ask.Message "s1" "u1" "An answer." "assistant" (Some ["a.pdf"%string])]) /\
  exists d, In d [old_row] /\ Supabase.row_id d = "d1"%string /\
            Supabase.row_user_id d = "u1"%string /\ Supabase.row_status d = "completed"%string.
Proof.
  assert (H1 : NoDup (map Supabase.row_id [old_row])) by (repeat constructor; intros []).
  assert (H2 : Ask.ask_question (fun _ => Ok [1%Z]) (fun _ _ => 1%Z)
    (fun _ => Ok " An answer. "%string)
    (fun _ _ => Ok "s1"%string) (fun _ => true) "What?" ["d1"%string] "u1" (Ok [old_row])
    [Qdrant.PointStruct "p1" [1%Z] (Qdrant.Payload "d1" "u1" "a.pdf" "some text" 0 "t")] []
  = (Ok (Documents.ApiReply true "Question answered successfully"
           (Some (Ask.QuestionResponse "An answer."
                    [Ask.SourceChunk "d1" "a.pdf" "some text" 1] "What?")) None),
     [Ask.Message "s1" "u1" "What?" "user" None;
      Ask.Message "s1" "u1" "An answer." "assistant" (Some ["a.pdf"%string])]))
    by (vm_compute; reflexivity).
  split; [exact H1|]. split; [exact H2|].
  exact (ask_question_documents_ready _ _ _ _ _ _ _ _ _ _ _ _ _ H1 H2 eq_refl "d1"
           (or_introl eq_refl)).
Defined.

(** The sources of an answer of [ask_question] are at most 5 chunks of
    the user's own points, of the requested documents when a list is
    given; each keeps its point's document id and name, and its text is
    the chunk text cut to 500 characters plus ["..."], so at most 503
    characters long.  The answer echoes the question. *)
Theorem ask_question_sources
  (get_single_embedding : string -> result (list Z)) (similarity : list Z -> list Z -> Z)
  (generate_content : string -> result string)
  (create_chat_session : string -> string -> result string) (save_message_ok : string -> bool)
  (question : string) (document_ids : list string) (current_user : string)
  (table : Queries.select) (points : list Qdrant.point) (log : list Ask.message)
  (r : Documents.api_reply Ask.question_response) (log' : list Ask.message)
  (resp : Ask.question_response) :
  Ask.ask_question get_single_embedding similarity generate_content create_chat_session
    save_message_ok question document_ids current_user table points log = (Ok r, log') ->
  Documents.data r = Some resp ->
  Ask.question resp = question /\
  length (Ask.sources resp) <= 5 /\
  forall sc, In sc (Ask.sources resp) ->
  exists p, In p points /\
    Qdrant.pl_user_id (Qdrant.p_payload p) = current_user /\
    (document_ids <> [] -> In (Qdrant.pl_document_id (Qdrant.p_payload p)) document_ids) /\
    Ask.sc_document_id sc = Qdrant.pl_document_id (Qdrant.p_payload p) /\
    Ask.sc_document_name sc = Qdrant.pl_document_name (Qdrant.p_payload p) /\
    Ask.sc_chunk_text sc = Ask.source_text (Qdrant.pl_chunk_text (Qdrant.p_payload p)) /\
    String.length (Ask.sc_chunk_text sc) <= 503.
Proof.
  intros Hask Hd. unfold Ask.ask_question in Hask. cbv zeta in Hask.
  destruct (negb _ && negb _); [discriminate Hask|].
  destruct (Ask.validate_documents _ _ _) as [_|e]; [|AskFacts.on_err Hask Hd].
  destruct (get_single_embedding question) as [[|x xs]|e]; [AskFacts.on_err Hask Hd| |AskFacts.on_err Hask Hd].
  destruct (Qdrant.search_similar_chunks similarity points (x :: xs) current_user
              (Qdrant.DocIdsList document_ids) 5) as [[|c cs]|e] eqn:Hsr;
    [| |AskFacts.on_err Hask Hd].
  - injection Hask as <- _. injection Hd as <-. cbn. split; [reflexivity|]. split; [lia|].
    intros sc [].
  - destruct (Inference.generate_answer _ _ _) as [ans|e]; [|AskFacts.on_err Hask Hd].
    injection Hask as <- _. injection Hd as <-.
    cbn [Ask.question Ask.sources]. split; [reflexivity|].
    destruct (AskFacts.search_results_origin _ _ _ _ _ _ _ Hsr) as [Hlen Horig].
    split; [simpl; rewrite length_map; simpl in Hlen; exact Hlen|].
    intros sc Hsc.
    change (In sc (map (fun c => Ask.SourceChunk (Qdrant.r_document_id c)
                                   (Qdrant.r_document_name c)
                                   (Ask.source_text (Qdrant.r_text c)) (Qdrant.r_score c))
                       (c :: cs))) in Hsc.
    apply in_map_iff in Hsc as [c' [<- Hc']].
    destruct (Horig c' Hc') as [p [Hp [Hm [Hdid [Hdn [Ht _]]]]]].
    exists p. split; [exact Hp|].
    destruct (QdrantFacts.build_search_filter_head current_user (Qdrant.DocIdsList document_ids))
      as [rest Hrest].
    split; [apply (QdrantFacts.must_holds_user current_user rest); rewrite <- Hrest; exact Hm|].
    split; [intro Hne; apply (AskFacts.must_holds_doc_ids current_user); assumption|].
    cbn [Ask.sc_document_id Ask.sc_document_name Ask.sc_chunk_text].
    rewrite Hdid, Hdn, Ht. repeat split; [].
    apply AskFacts.source_text_length.
Qed.

Lemma ask_question_sources_witness :
  Ask.ask_question (fun _ => Ok [1%Z]) (fun _ _ => 1%Z) (fun _ => Ok " An answer. "%string)
    (fun _ _ => Ok "s1"%string) (fun _ => true) "What?" ["d1"%string] "u1" (Ok [old_row])
    [Qdrant.PointStruct "p1" [1%Z] (Qdrant.Payload "d1" "u1" "a.pdf" "some text" 0 "t")] []
  = (Ok (Documents.ApiReply true "Question answered successfully"
           (Some (Ask.QuestionResponse "An answer."
                    [Ask.SourceChunk "d1" "a.pdf" "some text" 1] "What?")) None),
     [Ask.Message "s1" "u1" "What?" "user" None;
      Ask.Message "s1" "u1" "An answer." "assistant" (Some ["a.pdf"%string])]) /\
  length [Ask.SourceChunk "d1" "a.pdf" "some text" 1] <= 5.
Proof.
  assert (H : Ask.ask_question (fun _ => Ok [1%Z]) (fun _ _ => 1%Z)
    (fun _ => Ok " An answer. "%string)
    (fun _ _ => Ok "s1"%string) (fun _ => true) "What?" ["d1"%string] "u1" (Ok [old_row])
    [Qdrant.PointStruct "p1" [1%Z] (Qdrant.Payload "d1" "u1" "a.pdf" "some text" 0 "t")] []
  = (Ok (Documents.ApiReply true "Question answered successfully"
           (Some (Ask.QuestionResponse "An answer."
                    [Ask.SourceChunk "d1" "a.pdf" "some text" 1] "What?")) None),
     [Ask.Message "s1" "u1" "What?" "user" None;
      Ask.Message "s1" "u1" "An answer." "assistant" (Some ["a.pdf"%string])]))
    by (vm_compute; reflexivity).
  split; [exact H|].
  exact (proj1 (proj2 (ask_question_sources _ _ _ _ _ _ _ _ _ _ _ _ _ _ H eq_refl))).
Defined.

(** What [ask_question] answers does not depend on whether saving the
    conversation succeeds: the chat-session and message inserts only
    extend the messages table, by at most two messages of the user, and
    their failures are dropped. *)
Theorem ask_question_saving_is_optional
  (get_single_embedding : string -> result (list Z)) (similarity : list Z -> list Z -> Z)
  (generate_content : string -> result string)
  (create_chat_session create_chat_session' : string -> string -> result string)
  (save_message_ok save_message_ok' : string -> bool)
  (question : string) (document_ids : list string) (current_user : string)
  (table : Queries.select) (points : list Qdrant.point) (log : list Ask.message) :
  let run := Ask.ask_question get_single_embedding similarity generate_content
               create_chat_session save_message_ok question document_ids current_user
               table points log in
  fst run = fst (Ask.ask_question get_single_embedding similarity generate_content
                   create_chat_session' save_message_ok' question document_ids current_user
                   table points log) /\
  exists msgs, snd run = log ++ msgs /\ length msgs <= 2 /\
               Forall (fun m => Ask.m_user_id m = current_user) msgs.
Proof.
  intro run. unfold run, Ask.ask_question. cbv zeta.
  repeat match goal with
         | |- context [match ?x with _ => _ end] => destruct x
         end.
  all: cbn [fst snd]; split; [reflexivity|].
  all: first [ apply AskFacts.save_chat_appends
             | exists []; rewrite app_nil_r; split; [reflexivity|split; [cbn; lia|constructor]] ].
Qed.

(** With one row per document id, [get_document] returns the row to
    its owner and answers 403 to everybody else, including for an id
    that has no row. *)
Theorem get_document_owner_only (document_id current_user : string)
  (rows : list Supabase.doc_row) :
  NoDup (map Supabase.row_id rows) ->
  (forall r, In r rows -> Supabase.row_id r = document_id ->
     Supabase.row_user_id r = current_user ->
     Documents.get_document document_id current_user (Ok rows)
     = Ok (Documents.ApiReply true "Document retrieved successfully" (Some r) None)) /\
  ((~ exists r, In r rows /\ Supabase.row_id r = document_id /\
                Supabase.row_user_id r = current_user) ->
   Documents.get_document document_id current_user (Ok rows)
   = Err (Exc HTTPException "You don't have permission to access this document")).
Proof.
  intro Hnd. split.
  - intros r Hr <- <-.
    destruct (DocumentsFacts.metadata_of_row rows r Hnd Hr) as [Hv Hmd].
    unfold Documents.get_document. rewrite Hv. cbn [negb Queries.get_document_metadata_query].
    rewrite Hmd. reflexivity.
  - intro Hno. unfold Documents.get_document.
    destruct (Auth.verify_user_owns_document current_user document_id (Ok rows)) eqn:Hv;
      [|reflexivity].
    exfalso. apply Hno. apply AuthFacts.verify_one_true. exact Hv.
Qed.

Lemma get_document_owner_only_witness :
  NoDup (map Supabase.row_id [old_row]) /\
  Documents.get_document "d1" "u1" (Ok [old_row])
  = Ok (Documents.ApiReply true "Document retrieved successfully" (Some old_row) None) /\
  Documents.get_document "d1" "u2" (Ok [old_row])
  = Err (Exc HTTPException "You don't have permission to access this document").
Proof.
  assert (H : NoDup (map Supabase.row_id [old_row])) by (repeat constructor; intros []).
  split; [exact H|]. split.
  - exact (proj1 (get_document_owner_only "d1" "u1" [old_row] H) old_row
             (or_introl eq_refl) eq_refl eq_refl).
  - apply (proj2 (get_document_owner_only "d1" "u2" [old_row] H)).
    intros [r [[<-|[]] [_ Hu]]]. discriminate Hu.
Defined.



(** ** [str.strip] *)

Module StripFacts.

Lemma drop_spaces_suffix l : exists p, l = p ++ drop_spaces l.
Proof.
  induction l as [|c l IH]; [exists []; reflexivity|]. cbn [drop_spaces].
  destruct (is_py_space c).
  - destruct IH as [p Hp]. exists (c :: p). cbn. f_equal. exact Hp.
  - exists []. reflexivity.
Qed.

Lemma drop_spaces_head l :
  drop_spaces l = [] \/ exists c r, drop_spaces l = c :: r /\ is_py_space c = false.
Proof.
  induction l as [|c l IH]; [left; reflexivity|]. cbn [drop_spaces].
  destruct (is_py_space c) eqn:E; [exact IH|]. right. exists c, l. split; [reflexivity|exact E].
Qed.

Lemma drop_spaces_id c r : is_py_space c = false -> drop_spaces (c :: r) = c :: r.
Proof. intro E. cbn [drop_spaces]. rewrite E. reflexivity. Qed.

Lemma drop_spaces_nil_iff l : drop_spaces l = [] <-> forallb is_py_space l = true.
Proof.
  induction l as [|c l IH]; [split; reflexivity|]. cbn [drop_spaces forallb].
  destruct (is_py_space c); cbn [andb]; [exact IH|]. split; discriminate.
Qed.

Lemma string_of_list_ascii_nil l : string_of_list_ascii l = EmptyString -> l = [].
Proof. destruct l; [reflexivity|discriminate]. Qed.

(** [s.strip().strip() == s.strip()] *)
Lemma py_strip_idem s : py_strip (py_strip s) = py_strip s.
Proof.
  unfold py_strip. rewrite list_ascii_of_string_of_list_ascii.
  set (x := drop_spaces (list_ascii_of_string s)).
  set (y := drop_spaces (rev x)).
  destruct (drop_spaces_head (rev x)) as [Hy|[c [r [Hy Hc]]]]; fold y in Hy.
  - rewrite Hy. reflexivity.
  - destruct (drop_spaces_suffix (rev x)) as [p Hp]. fold y in Hp.
    assert (Hx : x = rev y ++ rev p)
      by (rewrite <- rev_app_distr, <- Hp, rev_involutive; reflexivity).
    assert (Hne : rev y <> []) by (rewrite Hy; cbn; intro H; destruct (rev r); discriminate).
    destruct (rev y) as [|a t] eqn:Ery; [congruence|].
    assert (Ha : is_py_space a = false).
    { destruct (drop_spaces_head (list_ascii_of_string s)) as [Hx0|[c' [r' [Hx0 Hc']]]];
        fold x in Hx0; rewrite Hx0 in Hx; [discriminate|].
      injection Hx as <- _. exact Hc'. }
    rewrite (drop_spaces_id a t Ha). rewrite <- Ery, rev_involutive.
    rewrite Hy, (drop_spaces_id c r Hc). reflexivity.
Qed.

Lemma py_strip_nil_iff s :
  py_strip s = EmptyString <-> forallb is_py_space (list_ascii_of_string s) = true.
Proof.
  unfold py_strip. rewrite <- drop_spaces_nil_iff.
  set (x := drop_spaces (list_ascii_of_string s)). split.
  - intro H. apply string_of_list_ascii_nil in H.
    apply (f_equal (@rev ascii)) in H. rewrite rev_involutive in H. cbn in H.
    destruct (drop_spaces_head (list_ascii_of_string s)) as [Hx|[c [r [Hx Hc]]]];
      fold x in Hx; [exact Hx|].
    exfalso. rewrite Hx in H. cbn [rev] in H.
    apply drop_spaces_nil_iff in H. rewrite forallb_app in H. cbn in H.
    rewrite Hc, andb_false_r in H. discriminate.
  - intro H. rewrite H. reflexivity.
Qed.

Lemma list_ascii_of_string_app s t :
  list_ascii_of_string (s ++ t) = list_ascii_of_string s ++ list_ascii_of_string t.
Proof. induction s as [|c s IH]; [reflexivity|]. cbn. f_equal. exact IH. Qed.

End StripFacts.

(** ** Gemini calls *)

Module InferenceFacts.

Lemma split_char_length c : forall s,
  length (py_split_char c s)
  = S (length (filter (fun a => Ascii.eqb a c) (list_ascii_of_string s))).
Proof.
  induction s as [|a s IH]; [reflexivity|]. cbn [py_split_char list_ascii_of_string filter].
  destruct (Ascii.eqb a c).
  - cbn [length]. rewrite IH. reflexivity.
  - destruct (py_split_char c s) as [|w ws]; cbn [length] in *; [discriminate|exact IH].
Qed.

Lemma in_firstn_map_strip k (l : list string) w :
  In w (firstn k (map py_strip l)) -> py_strip w = w.
Proof.
  intro H. apply QdrantFacts.in_firstn, in_map_iff in H as [v [<- _]].
  apply StripFacts.py_strip_idem.
Qed.

End InferenceFacts.

(** ** Vector cleanup *)

Module CleanupFacts.

Import Qdrant.

Lemma filter_must_nil (points : list point) : filter (must_holds []) points = points.
Proof. induction points as [|p l IH]; [reflexivity|]. cbn. f_equal. exact IH. Qed.

Lemma id_in_filter (m : point -> bool) (l : list point) p :
  NoDup (map p_id l) -> In p l -> QdrantFacts.id_in (map p_id (filter m l)) p = m p.
Proof.
  intros Hnd Hp. destruct (m p) eqn:Hm.
  - apply QdrantFacts.id_in_map. exists p. split; [apply filter_In; split; assumption|reflexivity].
  - destruct (QdrantFacts.id_in _ p) eqn:Hi; [|reflexivity].
    apply QdrantFacts.id_in_map in Hi as [q [Hq Hid]]. apply filter_In in Hq as [Hq Hmq].
    rewrite (QdrantFacts.nodup_map_eq p_id l q p Hnd Hq Hp Hid) in Hmq. congruence.
Qed.

End CleanupFacts.

(** ** Metadata cleanup *)

Module SweepFacts.

Import Supabase.

Section Sweep.

Variables storage_remove_ok metadata_delete_ok : string -> bool.

(** No row is added, and a row that matches none of the swept rows by
    id and owner stays. *)
Lemma cleanup_loop_frame : forall docs n s,
  let '(m, s') := cleanup_loop storage_remove_ok metadata_delete_ok docs n s in
  m <= n + length docs /\
  incl (sb_table s') (sb_table s) /\
  forall r, In r (sb_table s) ->
    (forall d, In d docs -> ~ (row_id d = row_id r /\ row_user_id d = row_user_id r)) ->
    In r (sb_table s').
Proof.
  induction docs as [|d docs IH]; intros n s; cbn [cleanup_loop].
  - split; [lia|]. split; [intros x Hx; exact Hx|]. intros r Hr _. exact Hr.
  - unfold delete_file_from_storage, delete_metadata.
    destruct (storage_remove_ok (row_file_path d));
      [destruct (metadata_delete_ok (row_id d))|].
    + match goal with |- context [cleanup_loop _ _ docs ?n' ?s'] =>
        specialize (IH n' s'); destruct (cleanup_loop _ _ docs n' s') as [m s2] end.
      destruct IH as [Hm [Hincl Hkeep]]. cbn [sb_table length] in *.
      split; [lia|]. split.
      * intros x Hx. apply Hincl in Hx. unfold delete_document_metadata in Hx.
        apply filter_In in Hx as [Hx _]. exact Hx.
      * intros r Hr Hno. apply Hkeep.
        -- unfold delete_document_metadata. apply filter_In. split; [exact Hr|].
           destruct (String.eqb (row_id r) (row_id d)) eqn:E1; [|reflexivity].
           destruct (String.eqb (row_user_id r) (row_user_id d)) eqn:E2; [|reflexivity].
           exfalso. apply (Hno d (or_introl eq_refl)).
           apply String.eqb_eq in E1, E2. split; congruence.
        -- intros d' Hd'. apply Hno. right. exact Hd'.
    + match goal with |- context [cleanup_loop _ _ docs ?n' ?s'] =>
        specialize (IH n' s'); destruct (cleanup_loop _ _ docs n' s') as [m s2] end.
      destruct IH as [Hm [Hincl Hkeep]]. cbn [sb_table length] in *.
      split; [lia|]. split; [exact Hincl|].
      intros r Hr Hno. apply Hkeep; [exact Hr|]. intros d' Hd'. apply Hno. right. exact Hd'.
    + match goal with |- context [cleanup_loop _ _ docs ?n' ?s'] =>
        specialize (IH n' s'); destruct (cleanup_loop _ _ docs n' s') as [m s2] end.
      destruct IH as [Hm [Hincl Hkeep]]. cbn [sb_table length] in *.
      split; [lia|]. split; [exact Hincl|].
      intros r Hr Hno. apply Hkeep; [exact Hr|]. intros d' Hd'. apply Hno. right. exact Hd'.
Qed.

End Sweep.

Lemma filter_filter {A} (f g : A -> bool) l :
  filter f (filter g l) = filter (fun x => g x && f x) l.
Proof.
  induction l as [|x l IH]; [reflexivity|]. cbn [filter].
  destruct (g x); cbn [andb filter]; [destruct (f x); [f_equal|]|]; exact IH.
Qed.

(** With every delete succeeding, the sweep deletes the rows and the files
    of all the documents it is given. *)
Lemma cleanup_loop_all_ok : forall docs n s,
  cleanup_loop (fun _ => true) (fun _ => true) docs n s =
  (n + length docs,
   SbState (filter (fun r => negb (existsb (fun d => String.eqb (row_id r) (row_id d)
                                                      && String.eqb (row_user_id r) (row_user_id d))
                                           docs)) (sb_table s))
           (filter (fun f => negb (existsb (fun d => String.eqb f (row_file_path d)) docs))
                   (sb_files s))).
Proof.
  induction docs as [|d docs IH]; intros n s; cbn [cleanup_loop].
  - destruct s as [t fs]. cbn [sb_table sb_files existsb negb length].
    rewrite Nat.add_0_r. f_equal. f_equal.
    + induction t as [|x t IHt]; [reflexivity|]. cbn. f_equal. exact IHt.
    + induction fs as [|x fs IHf]; [reflexivity|]. cbn. f_equal. exact IHf.
  - unfold delete_file_from_storage, delete_metadata. rewrite IH.
    cbn [sb_table sb_files length]. unfold delete_document_metadata.
    rewrite !filter_filter. f_equal; [lia|]. f_equal.
    + apply filter_ext. intro r. cbn [existsb].
      destruct (String.eqb (row_id r) (row_id d) && String.eqb (row_user_id r) (row_user_id d));
        reflexivity.
    + apply filter_ext. intro f. cbn [existsb].
      destruct (String.eqb f (row_file_path d)); reflexivity.
Qed.

End SweepFacts.

(** ** Storing chunks *)

Module UpsertFacts.

Import Qdrant.

Lemma client_delete_fresh (points : list point) ids :
  (forall p, In p points -> ~ In (p_id p) ids) -> client_delete points ids = points.
Proof.
  intro H. unfold client_delete. induction points as [|p l IH]; [reflexivity|].
  cbn [filter]. destruct (existsb (String.eqb (p_id p)) ids) eqn:E.
  - exfalso. apply (H p (or_introl eq_refl)). apply AuthFacts.existsb_eqb_in. exact E.
  - cbn [negb]. f_equal. apply IH. intros q Hq. apply H. right. exact Hq.
Qed.

Lemma nodup_app_disjoint {A} (l1 l2 : list A) x : NoDup (l1 ++ l2) -> In x l1 -> ~ In x l2.
Proof.
  induction l1 as [|y l1 IH]; intros Hnd Hx; [destruct Hx|].
  cbn [app] in Hnd. inversion Hnd as [|? ? Hy Hnd']; subst.
  destruct Hx as [<-|Hx].
  - intro H. apply Hy. apply in_or_app. right. exact H.
  - apply IH; assumption.
Qed.

(** [client.upsert] of a batch of fresh ids appends it when accepted
    and changes nothing when rejected. *)
Lemma client_upsert_points call_fails dim_error b s :
  NoDup (map p_id (q_points s ++ b)) ->
  q_points (snd (client_upsert call_fails dim_error b s))
  = match fst (client_upsert call_fails dim_error b s) with
    | Ok _ => q_points s ++ b
    | Err _ => q_points s
    end.
Proof.
  intro Hnd. unfold client_upsert, client_call.
  destruct (call_fails (Upsert b)); [reflexivity|].
  destruct (q_vector_size s); [|reflexivity].
  destruct (find _ b); [reflexivity|]. cbn [fst snd q_points].
  rewrite client_delete_fresh; [reflexivity|].
  intros p Hp Hin. rewrite map_app in Hnd.
  exact (nodup_app_disjoint _ _ (p_id p) Hnd (in_map _ _ _ Hp) Hin).
Qed.

(** The batch loop over fresh, distinct ids appends the accepted batches,
    a prefix of all of them, and all of them when it succeeds. *)
Lemma upsert_loop_prefix call_fails dim_error (points : list point) : forall is s,
  NoDup (map p_id (q_points s ++ concat (map (fun i => py_slice points i (i + 100)%Z) is))) ->
  exists k,
    q_points (snd (upsert_loop call_fails dim_error points is s))
    = q_points s ++ concat (firstn k (map (fun i => py_slice points i (i + 100)%Z) is)) /\
    (fst (upsert_loop call_fails dim_error points is s) = Ok tt -> k = length is).
Proof.
  induction is as [|i is IH]; intros s Hnd.
  - exists 0. cbn. rewrite app_nil_r. split; reflexivity.
  - set (b := py_slice points i (i + 100)%Z) in *.
    cbn [map concat] in Hnd |- *. cbn [upsert_loop]. fold b.
    assert (Hnd1 : NoDup (map p_id (q_points s ++ b))).
    { rewrite app_assoc, map_app in Hnd. exact (NoDup_app_remove_r _ _ Hnd). }
    pose proof (client_upsert_points call_fails dim_error b s Hnd1) as Hp.
    destruct (client_upsert call_fails dim_error b s) as [[u|e] s1]; cbn [fst snd] in Hp.
    + destruct (IH s1) as [k [Hk Hok]].
      { rewrite Hp, <- app_assoc. exact Hnd. }
      exists (S k). split.
      * rewrite Hk, Hp. cbn [firstn concat]. rewrite app_assoc. reflexivity.
      * intro H. rewrite (Hok H). reflexivity.
    + exists 0. cbn [snd fst firstn concat]. rewrite app_nil_r.
      split; [exact Hp|discriminate].
Qed.

End UpsertFacts.



(** [extract_keywords] returns at most 10 keywords, each without
    surrounding whitespace; when the model answers a non-empty text, their
    number is [min 10 (1 + the number of commas of the stripped text)],
    and a model error or an empty answer gives no keyword. *)
Theorem extract_keywords_shape (generate_content : string -> result string) (text : string) :
  let keywords := Inference.extract_keywords generate_content text in
  length keywords <= 10 /\
  Forall (fun k => py_strip k = k) keywords /\
  length keywords =
    match generate_content (Inference.keywords_prompt text) with
    | Err _ => 0
    | Ok t =>
        if String.eqb t EmptyString then 0
        else Nat.min 10 (S (length (filter (fun a => Ascii.eqb a ",")
                                           (list_ascii_of_string (py_strip t)))))
    end.
Proof.
  intro keywords. unfold keywords, Inference.extract_keywords.
  destruct (generate_content (Inference.keywords_prompt text)) as [t|e];
    [|split; [cbn; lia|split; [constructor|reflexivity]]].
  destruct (String.eqb t EmptyString); [split; [cbn; lia|split; [constructor|reflexivity]]|].
  split; [rewrite length_firstn; lia|]. split.
  - apply Forall_forall. intros k Hk. apply (InferenceFacts.in_firstn_map_strip 10 _ k Hk).
  - rewrite length_firstn, length_map, InferenceFacts.split_char_length. reflexivity.
Qed.

(** Every text that [generate_answer] and [generate_document_summary]
    return is stripped of surrounding whitespace, the fallback messages
    included. *)
Theorem inference_replies_stripped (generate_content : string -> result string) :
  (forall question context_chunks answer,
     Inference.generate_answer generate_content question context_chunks = Ok answer ->
     py_strip answer = answer) /\
  (forall text max_length summary,
     Inference.generate_document_summary generate_content text max_length = Ok summary ->
     py_strip summary = summary).
Proof.
  split.
  - intros q ctx a. unfold Inference.generate_answer.
    destruct (generate_content _) as [t|e]; [|discriminate].
    destruct (String.eqb t EmptyString); intro H; injection H as <-;
      [vm_compute; reflexivity|apply StripFacts.py_strip_idem].
  - intros text n a. unfold Inference.generate_document_summary.
    destruct (generate_content _) as [t|e]; [|discriminate].
    destruct (String.eqb t EmptyString); intro H; injection H as <-;
      [vm_compute; reflexivity|apply StripFacts.py_strip_idem].
Qed.

Lemma inference_replies_stripped_witness :
  Inference.generate_answer (fun _ => Ok " It is 4. "%string) "2+2?" [] = Ok "It is 4."%string /\
  py_strip "It is 4." = "It is 4."%string.
Proof.
  assert (H : Inference.generate_answer (fun _ => Ok " It is 4. "%string) "2+2?" []
              = Ok "It is 4."%string) by (vm_compute; reflexivity).
  split; [exact H|].
  exact (proj1 (inference_replies_stripped (fun _ => Ok " It is 4. "%string)) _ _ _ H).
Defined.

(** The fallback of [generate_answer] is used only for an empty reply:
    a reply made of whitespace only gives an empty answer. *)
Theorem generate_answer_whitespace_reply (generate_content : string -> result string)
  (question : string) (context_chunks : list (string * string)) (t : string) :
  generate_content (Inference.answer_prompt question context_chunks) = Ok t ->
  t <> EmptyString ->
  forallb is_py_space (list_ascii_of_string t) = true ->
  Inference.generate_answer generate_content question context_chunks = Ok EmptyString.
Proof.
  intros Hg Hne Hsp. unfold Inference.generate_answer. rewrite Hg.
  apply String.eqb_neq in Hne. rewrite Hne.
  f_equal. apply StripFacts.py_strip_nil_iff. exact Hsp.
Qed.

Lemma generate_answer_whitespace_reply_witness :
  Inference.generate_answer (fun _ => Ok " "%string) "Why?" [] = Ok EmptyString.
Proof.
  apply (generate_answer_whitespace_reply (fun _ => Ok " "%string) "Why?" [] " ");
    [reflexivity|discriminate|reflexivity].
Defined.

(** [get_single_embedding] never falls back to [[]] on success: it
    succeeds with [v] exactly when [get_embeddings] on the one text
    succeeds with the single vector [v], and fails exactly as it does. *)
Theorem get_single_embedding_one_vector (provider : nat -> string -> Embedding.response)
  (text : string) (s : Embedding.st) :
  (forall v s', Single.get_single_embedding provider text s = (Ok v, s') <->
                Embedding.get_embeddings provider [text] s = (Ok [v], s')) /\
  (forall e s', Single.get_single_embedding provider text s = (Err e, s') <->
                Embedding.get_embeddings provider [text] s = (Err e, s')).
Proof.
  unfold Single.get_single_embedding, Embedding.bind, Embedding.ret.
  destruct (Embedding.get_embeddings provider [text] s) as [[vs|e0] s0] eqn:E.
  - pose proof (EmbeddingFacts.get_embeddings_length provider [text] s vs s0 E) as Hl.
    destruct vs as [|v0 [|v1 vs]]; cbn [length] in Hl; try discriminate.
    split; intros v s'; split; intro H; injection H; intros; subst; try reflexivity;
      discriminate.
  - split; intros v s'; split; intro H; try discriminate; injection H; intros; subst;
      reflexivity.
Qed.

(** With distinct point ids, [delete_old_vectors] never deletes a point
    that is not older than the cutoff (nor one without [created_at]); when
    the collection holds at most 10000 points (the scroll limit) it deletes
    exactly the older points and returns their number. *)
Theorem delete_old_vectors_selection (cutoff_date : string) (points : list Qdrant.point) :
  NoDup (map Qdrant.p_id points) ->
  (forall p, In p points -> QdrantCleanup.is_old cutoff_date p = false ->
     In p (snd (QdrantCleanup.delete_old_vectors cutoff_date points))) /\
  (length points <= Qdrant.scroll_limit ->
   QdrantCleanup.delete_old_vectors cutoff_date points =
   (Ok (length (filter (QdrantCleanup.is_old cutoff_date) points)),
    filter (fun p => negb (QdrantCleanup.is_old cutoff_date p)) points)).
Proof.
  intro Hnd. unfold QdrantCleanup.delete_old_vectors. split.
  - intros p Hp Hold. cbv zeta.
    set (sel := filter (QdrantCleanup.is_old cutoff_date)
                  (Qdrant.client_scroll points [] Qdrant.scroll_limit)).
    destruct (map Qdrant.p_id sel) as [|x xs] eqn:E; [exact Hp|]. rewrite <- E. cbn [snd].
    apply QdrantFacts.in_client_delete_sel; [exact Hnd| |].
    + intros q Hq. unfold sel, Qdrant.client_scroll in Hq.
      apply filter_In in Hq as [Hq _]. apply QdrantFacts.in_firstn in Hq.
      apply filter_In in Hq as [Hq _]. exact Hq.
    + split; [exact Hp|]. intro Hs. unfold sel in Hs. apply filter_In in Hs as [_ Hs].
      congruence.
  - intro Hlen. cbv zeta. unfold Qdrant.client_scroll.
    rewrite CleanupFacts.filter_must_nil, firstn_all2 by exact Hlen.
    rewrite length_map.
    destruct (map Qdrant.p_id (filter (QdrantCleanup.is_old cutoff_date) points)) as [|x xs] eqn:E.
    + f_equal. symmetry. apply forallb_filter_id. apply forallb_forall. intros p Hp.
      destruct (QdrantCleanup.is_old cutoff_date p) eqn:Ho; [|reflexivity].
      exfalso. assert (Hin : In (Qdrant.p_id p) (map Qdrant.p_id
                                 (filter (QdrantCleanup.is_old cutoff_date) points)))
        by (apply in_map, filter_In; split; assumption).
      rewrite E in Hin. destruct Hin.
    + rewrite <- E. f_equal. unfold Qdrant.client_delete. apply filter_ext_in. intros p Hp.
      f_equal. apply (CleanupFacts.id_in_filter _ points p Hnd Hp).
Qed.

Lemma delete_old_vectors_selection_witness :
  let old := Qdrant.PointStruct "p1" [] (Qdrant.Payload "d1" "u1" "a.pdf" "x" 0 "2020-01-01") in
  let recent := Qdrant.PointStruct "p2" [] (Qdrant.Payload "d1" "u1" "a.pdf" "y" 1 "2030-01-01") in
  NoDup (map Qdrant.p_id [old; recent]) /\
  length [old; recent] <= Qdrant.scroll_limit /\
  QdrantCleanup.delete_old_vectors "2025-01-01" [old; recent] =
  (Ok (length (filter (QdrantCleanup.is_old "2025-01-01") [old; recent])),
   filter (fun p => negb (QdrantCleanup.is_old "2025-01-01" p)) [old; recent]).
Proof.
  intros old recent.
  assert (H1 : NoDup (map Qdrant.p_id [old; recent]))
    by (repeat constructor; cbn; intuition discriminate).
  assert (H2 : length [old; recent] <= Qdrant.scroll_limit)
    by (apply Nat.leb_le; vm_compute; reflexivity).
  split; [exact H1|]. split; [exact H2|].
  exact (proj2 (delete_old_vectors_selection "2025-01-01" [old; recent] H1) H2).
Defined.

(** [extract_text_from_file] rejects a file type other than pdf, docx
    and txt (in any letter case) with the wrapped message
    ["Error extracting text from <type> file: Unsupported file type: <type>"],
    and [process_document] fails with that same exception. *)
Theorem extract_text_unsupported_type
  (pdf_pages docx_paragraphs : string -> result (list string))
  (read_txt : string -> result string) (split_text : string -> list string)
  (file_path file_type : string) :
  py_lower file_type <> "pdf"%string ->
  py_lower file_type <> "docx"%string ->
  py_lower file_type <> "txt"%string ->
  let extract_raw := Readers.extract_by_type pdf_pages docx_paragraphs read_txt in
  let e := Exc Exception ("Error extracting text from " ++ file_type
                          ++ " file: Unsupported file type: " ++ file_type)%string in
  Chunking.extract_text_from_file extract_raw file_path file_type = Err e /\
  Chunking.process_document split_text extract_raw file_path file_type = Err e.
Proof.
  intros H1 H2 H3 extract_raw e.
  assert (Hr : extract_raw file_path file_type
               = Err (Exc ValueError ("Unsupported file type: " ++ file_type)%string)).
  { unfold extract_raw, Readers.extract_by_type.
    apply String.eqb_neq in H1, H2, H3. rewrite H1, H2, H3. reflexivity. }
  unfold Chunking.process_document, Chunking.extract_text_from_file. rewrite Hr.
  split; reflexivity.
Qed.

Lemma extract_text_unsupported_type_witness :
  py_lower "XLSX" <> "pdf"%string /\ py_lower "XLSX" <> "docx"%string /\
  py_lower "XLSX" <> "txt"%string /\
  Chunking.process_document (fun _ => []) (Readers.extract_by_type
      (fun _ => Ok []) (fun _ => Ok []) (fun _ => Ok EmptyString)) "u1/a.xlsx" "XLSX"
  = Err (Exc Exception "Error extracting text from XLSX file: Unsupported file type: XLSX").
Proof.
  assert (H1 : py_lower "XLSX" <> "pdf"%string) by (vm_compute; intro H; discriminate H).
  assert (H2 : py_lower "XLSX" <> "docx"%string) by (vm_compute; intro H; discriminate H).
  assert (H3 : py_lower "XLSX" <> "txt"%string) by (vm_compute; intro H; discriminate H).
  split; [exact H1|]. split; [exact H2|]. split; [exact H3|].
  exact (proj2 (extract_text_unsupported_type (fun _ => Ok []) (fun _ => Ok [])
                  (fun _ => Ok EmptyString) (fun _ => []) "u1/a.xlsx" "XLSX" H1 H2 H3)).
Defined.

(** A PDF whose pages all extract to whitespace only makes
    [process_document] fail with the [ValueError] "No text could be
    extracted from the document", whatever the splitter. *)
Theorem process_document_blank_pdf
  (pdf_pages docx_paragraphs : string -> result (list string))
  (read_txt : string -> result string) (split_text : string -> list string)
  (file_path file_type : string) (pages : list string) :
  py_lower file_type = "pdf"%string ->
  pdf_pages file_path = Ok pages ->
  Forall (fun page => py_strip page = EmptyString) pages ->
  Chunking.process_document split_text
    (Readers.extract_by_type pdf_pages docx_paragraphs read_txt) file_path file_type
  = Err (Exc ValueError "No text could be extracted from the document").
Proof.
  intros Ht Hp Hblank.
  unfold Chunking.process_document, Chunking.extract_text_from_file, Readers.extract_by_type.
  rewrite Ht. cbn [String.eqb Ascii.eqb Bool.eqb andb].
  unfold Readers.extract_text_from_pdf. rewrite Hp.
  unfold Chunking.process_text.
  assert (Hs : py_strip (Readers.append_lines pages) = EmptyString).
  { apply StripFacts.py_strip_nil_iff. unfold Readers.append_lines.
    assert (Hgen : forall t, forallb is_py_space (list_ascii_of_string t) = true ->
              forallb is_py_space (list_ascii_of_string
                (fold_left (fun text part => (text ++ part ++ nl)%string) pages t)) = true).
    { clear Hp. induction Hblank as [|page pages Hpage _ IH]; intros t Ht0; [exact Ht0|].
      cbn [fold_left]. apply IH.
      rewrite !StripFacts.list_ascii_of_string_app, !forallb_app.
      apply StripFacts.py_strip_nil_iff in Hpage. rewrite Ht0, Hpage. reflexivity. }
    apply Hgen. reflexivity. }
  rewrite Hs. reflexivity.
Qed.

Lemma process_document_blank_pdf_witness :
  py_lower "PDF" = "pdf"%string /\
  Chunking.process_document (fun _ => []) (Readers.extract_by_type
      (fun _ => Ok [" "%string; EmptyString]) (fun _ => Ok []) (fun _ => Ok EmptyString))
    "u1/a.pdf" "PDF"
  = Err (Exc ValueError "No text could be extracted from the document").
Proof.
  assert (H1 : py_lower "PDF" = "pdf"%string) by reflexivity.
  split; [exact H1|].
  apply (process_document_blank_pdf (fun _ => Ok [" "%string; EmptyString]) (fun _ => Ok [])
           (fun _ => Ok EmptyString) (fun _ => []) "u1/a.pdf" "PDF" [" "%string; EmptyString]
           H1 eq_refl).
  repeat constructor.
Defined.

(** With one row per document id, [cleanup_old_documents] never
    deletes a row created at or after the cutoff, never adds a row, and
    counts at most the number of rows older than the cutoff, whichever
    deletes fail. *)
Theorem cleanup_old_documents_keeps_recent (storage_remove_ok metadata_delete_ok : string -> bool)
  (cutoff : Z) (s : Supabase.sb_state) :
  NoDup (map Supabase.row_id (Supabase.sb_table s)) ->
  let old := filter (fun r => (Supabase.row_created_at r <? cutoff)%Z) (Supabase.sb_table s) in
  let '(deleted_count, s') :=
    Supabase.cleanup_old_documents storage_remove_ok metadata_delete_ok cutoff s in
  deleted_count <= length old /\
  incl (Supabase.sb_table s') (Supabase.sb_table s) /\
  forall r, In r (Supabase.sb_table s) -> (cutoff <= Supabase.row_created_at r)%Z ->
            In r (Supabase.sb_table s').
Proof.
  intros Hnd old. unfold Supabase.cleanup_old_documents. fold old.
  pose proof (SweepFacts.cleanup_loop_frame storage_remove_ok metadata_delete_ok old 0 s) as H.
  destruct (Supabase.cleanup_loop _ _ old 0 s) as [m s'].
  destruct H as [Hm [Hincl Hkeep]]. split; [exact Hm|]. split; [exact Hincl|].
  intros r Hr Hc. apply Hkeep; [exact Hr|]. intros d Hd [Hid _].
  unfold old in Hd. apply filter_In in Hd as [Hd Hlt]. apply Z.ltb_lt in Hlt.
  rewrite (AuthFacts.row_unique _ d r Hnd Hd Hr Hid) in Hlt. lia.
Qed.

Lemma cleanup_old_documents_keeps_recent_witness :
  let recent := Supabase.DocRow "d2" "u1" "b.pdf" "u1/b.pdf" "pdf" 300 "completed" None "t0" in
  NoDup (map Supabase.row_id [old_row; recent]) /\
  Supabase.cleanup_old_documents (fun _ => true) (fun _ => true) 200
    (Supabase.SbState [old_row; recent] ["u1/a.pdf"%string; "u1/b.pdf"%string])
  = (1, Supabase.SbState [recent] ["u1/b.pdf"%string]) /\
  1 <= length (filter (fun r => (Supabase.row_created_at r <? 200)%Z) [old_row; recent]).
Proof.
  intro recent.
  assert (H : NoDup (map Supabase.row_id [old_row; recent]))
    by (repeat constructor; cbn; intuition discriminate).
  split; [exact H|]. split; [reflexivity|].
  exact (proj1 (cleanup_old_documents_keeps_recent (fun _ => true) (fun _ => true) 200
                  (Supabase.SbState [old_row; recent] ["u1/a.pdf"%string; "u1/b.pdf"%string]) H)).
Defined.

(** When every delete succeeds and document ids are distinct,
    [cleanup_old_documents] deletes exactly the rows created before the
    cutoff, removes their files from the bucket, and returns their
    number. *)
Theorem cleanup_old_documents_all_ok (cutoff : Z) (s : Supabase.sb_state) :
  NoDup (map Supabase.row_id (Supabase.sb_table s)) ->
  let old := filter (fun r => (Supabase.row_created_at r <? cutoff)%Z) (Supabase.sb_table s) in
  Supabase.cleanup_old_documents (fun _ => true) (fun _ => true) cutoff s =
  (length old,
   Supabase.SbState
     (filter (fun r => negb (Supabase.row_created_at r <? cutoff)%Z) (Supabase.sb_table s))
     (filter (fun f => negb (existsb (fun d => String.eqb f (Supabase.row_file_path d)) old))
             (Supabase.sb_files s))).
Proof.
  intros Hnd old. unfold Supabase.cleanup_old_documents. fold old.
  rewrite SweepFacts.cleanup_loop_all_ok. cbn [Nat.add]. f_equal. f_equal.
  apply filter_ext_in. intros r Hr. f_equal.
  destruct (Supabase.row_created_at r <? cutoff)%Z eqn:Ho.
  - apply existsb_exists. exists r. split; [unfold old; apply filter_In; split; assumption|].
    rewrite !String.eqb_refl. reflexivity.
  - destruct (existsb _ old) eqn:Ex; [|reflexivity].
    apply existsb_exists in Ex as [d [Hd Hm]]. apply andb_true_iff in Hm as [Hid _].
    apply String.eqb_eq in Hid. unfold old in Hd. apply filter_In in Hd as [Hd Hlt].
    rewrite (AuthFacts.row_unique _ d r Hnd Hd Hr (eq_sym Hid)) in Hlt. congruence.
Qed.

Lemma cleanup_old_documents_all_ok_witness :
  let recent := Supabase.DocRow "d2" "u1" "b.pdf" "u1/b.pdf" "pdf" 300 "completed" None "t0" in
  NoDup (map Supabase.row_id [old_row; recent]) /\
  Supabase.cleanup_old_documents (fun _ => true) (fun _ => true) 200
    (Supabase.SbState [old_row; recent] ["u1/a.pdf"%string; "u1/b.pdf"%string])
  = (1, Supabase.SbState [recent] ["u1/b.pdf"%string]).
Proof.
  intro recent.
  assert (H : NoDup (map Supabase.row_id [old_row; recent]))
    by (repeat constructor; cbn; intuition discriminate).
  split; [exact H|].
  exact (cleanup_old_documents_all_ok 200
           (Supabase.SbState [old_row; recent] ["u1/a.pdf"%string; "u1/b.pdf"%string]) H).
Defined.



Module StoreRoundTrip.

Import Qdrant.

Lemma make_points_ids uuid4 now document_id user_id document_name chunks embeddings :
  map p_id (make_points uuid4 now document_id user_id document_name chunks embeddings)
  = map uuid4 (seq 0 (Nat.min (length chunks) (length embeddings))).
Proof.
  unfold make_points. rewrite map_map, <- length_combine.
  set (l := combine chunks embeddings).
  transitivity (map uuid4 (map fst (combine (seq 0 (length l)) l))).
  - rewrite map_map. apply map_ext. intros [i [c e]]. reflexivity.
  - rewrite StoreFacts.map_fst_combine_seq. reflexivity.
Qed.

End StoreRoundTrip.

(** When the uuids drawn for the new points are distinct and unused in
    the collection, [store_document_chunks] never removes or reorders a
    stored point: whichever Qdrant call fails, the collection ends as the
    stored points followed by a prefix of the new points (the batches
    written before the failure), and on success by all the new points, in
    chunk order, their number being the count returned. *)
Theorem store_document_chunks_appends (uuid4 : nat -> string) (now : string)
  (call_fails : Qdrant.qdrant_call -> option string) (dim_error : nat -> nat -> string)
  (D U name : string) (chunks : list string) (embeddings : list (list Z)) (s : Qdrant.qstate) :
  (Qdrant.q_vector_size s = None -> Qdrant.q_points s = []) ->
  NoDup (map Qdrant.p_id (Qdrant.q_points s)
         ++ map uuid4 (seq 0 (Nat.min (length chunks) (length embeddings)))) ->
  let points := Qdrant.make_points uuid4 now D U name chunks embeddings in
  let r := Qdrant.store_document_chunks uuid4 now call_fails dim_error D U name chunks
             embeddings s in
  (exists k, Qdrant.q_points (snd r) = Qdrant.q_points s ++ firstn k points) /\
  (forall n, fst r = Ok n -> n = length points /\
                             Qdrant.q_points (snd r) = Qdrant.q_points s ++ points).
Proof.
  intros Hinv Hnd points r.
  destruct (StoreFacts.ensure_collection_exists_frame call_fails s) as [_ [Hp1 _]].
  specialize (Hp1 Hinv).
  pose proof (StoreFacts.range_slices points) as Hsl.
  unfold r, Qdrant.store_document_chunks.
  destruct (Qdrant.ensure_collection_exists call_fails s) as [[u|e] s1];
    cbn [fst snd] in Hp1 |- *.
  2: { split; [exists 0; rewrite firstn_O, app_nil_r; exact Hp1|intros n' Hn'; discriminate]. }
  fold points.
  destruct (py_range 0 (Z.of_nat (length points)) 100) as [is|e]; [|destruct Hsl].
  assert (Hcat : concat (Embedding.chunks 100 points) = points)
    by exact (BatchFacts.chunks_concat 100 ltac:(lia) (length points) points (le_n _)).
  assert (Hnd1 : NoDup (map Qdrant.p_id (Qdrant.q_points s1
                   ++ concat (map (fun i => py_slice points i (i + 100)%Z) is)))).
  { rewrite Hsl, Hcat, Hp1, map_app. unfold points.
    rewrite StoreRoundTrip.make_points_ids. exact Hnd. }
  assert (Hlen : length is = length (Embedding.chunks 100 points))
    by (rewrite <- Hsl, length_map; reflexivity).
  destruct (UpsertFacts.upsert_loop_prefix call_fails dim_error points is s1 Hnd1)
    as [k [Hk Hok]].
  rewrite Hsl, Hp1 in Hk.
  set (pre := concat (firstn k (Embedding.chunks 100 points))) in Hk.
  assert (Hpts : points = pre ++ concat (skipn k (Embedding.chunks 100 points))).
  { unfold pre. rewrite <- concat_app, firstn_skipn. symmetry. exact Hcat. }
  assert (Hpre : firstn (length pre) points = pre).
  { rewrite Hpts at 1. rewrite firstn_app, Nat.sub_diag, firstn_O, app_nil_r.
    apply firstn_all. }
  destruct (Qdrant.upsert_loop call_fails dim_error points is s1) as [[[]|e2] s2];
    cbn [fst snd] in Hk, Hok |- *.
  - assert (Hall : Qdrant.q_points s2 = Qdrant.q_points s ++ points).
    { rewrite Hk. unfold pre. rewrite (Hok eq_refl), Hlen, firstn_all, Hcat. reflexivity. }
    split; [exists (length points); rewrite firstn_all; exact Hall|].
    intros n' Hn'. injection Hn' as <-. split; [reflexivity|exact Hall].
  - split; [exists (length pre); rewrite Hpre; exact Hk|intros n' Hn'; discriminate].
Qed.

(** Witness: two chunks with embeddings of size 384, stored in a
    collection that does not exist yet. *)
Lemma store_document_chunks_appends_witness :
  (Qdrant.q_vector_size (Qdrant.QState None [] []) = None ->
   Qdrant.q_points (Qdrant.QState None [] []) = []) /\
  NoDup (map Qdrant.p_id (Qdrant.q_points (Qdrant.QState None [] []))
         ++ map py_str_nat (seq 0 (Nat.min (length ["a"%string; "b"%string])
                                           (length [repeat 0%Z 384; repeat 1%Z 384])))) /\
  Qdrant.q_points (snd (Qdrant.store_document_chunks py_str_nat "t" (fun _ => None)
                          (fun _ _ => EmptyString) "d1" "u1" "a.pdf"
                          ["a"%string; "b"%string] [repeat 0%Z 384; repeat 1%Z 384]
                          (Qdrant.QState None [] [])))
  = [] ++ Qdrant.make_points py_str_nat "t" "d1" "u1" "a.pdf" ["a"%string; "b"%string]
            [repeat 0%Z 384; repeat 1%Z 384].
Proof.
  assert (H1 : Qdrant.q_vector_size (Qdrant.QState None [] []) = None ->
               Qdrant.q_points (Qdrant.QState None [] []) = []) by reflexivity.
  assert (H2 : NoDup (map Qdrant.p_id (Qdrant.q_points (Qdrant.QState None [] []))
         ++ map py_str_nat (seq 0 (Nat.min (length ["a"%string; "b"%string])
                                           (length [repeat 0%Z 384; repeat 1%Z 384])))))
    by (vm_compute; apply NoDup_cons; [intros [Hc|[]]; discriminate Hc|];
        apply NoDup_cons; [intros []|apply NoDup_nil]).
  assert (H3 : fst (Qdrant.store_document_chunks py_str_nat "t" (fun _ => None)
                      (fun _ _ => EmptyString) "d1" "u1" "a.pdf"
                      ["a"%string; "b"%string] [repeat 0%Z 384; repeat 1%Z 384]
                      (Qdrant.QState None [] [])) = Ok 2) by (vm_compute; reflexivity).
  split; [exact H1|]. split; [exact H2|].
  exact (proj2 (proj2 (store_document_chunks_appends py_str_nat "t" (fun _ => None)
           (fun _ _ => EmptyString) "d1" "u1" "a.pdf" ["a"%string; "b"%string]
           [repeat 0%Z 384; repeat 1%Z 384] (Qdrant.QState None [] []) H1 H2) 2 H3)).
Defined.
